(** * financial-tsf-archive: delisting-return adjustment and time-series alignment

    A shallow embedding of

    - [src/wrds_crsp_compustat/pull_CRSP_stock.py]
      ([apply_delisting_returns], [apply_delisting_returns_alt]) and
    - [models/dataset.py] (class [Dataset], [organize_time_series]),

    together with the properties the specification states about them.

    Python objects live in a store and are named by their location, so that
    an assignment such as [df["dlret"] = ...] is seen by every holder of
    [df].  A function body is a computation in a state-and-exception monad
    over that store: a raised exception keeps the mutations made before it.

    Cells of the monthly file are IEEE binary64 numbers, NaN standing for a
    missing value.  Dates are timestamps, compared as integers, or missing
    (NaT).  pandas' parsers of date strings, and the order numpy's sort gives
    rows of equal date, are parameters of the development. *)

From Stdlib Require Import ZArith List Ascii String Floats Lia Bool Sorted Permutation.
From stdpp Require Import base option list gmap strings sorting.

Local Open Scope Z_scope.

(** ** Python outcomes and the store monad *)

(** The exceptions the modelled code can raise.  [Malformed] is the outcome of
    reading a store that no Python execution produces: a location that holds
    no object, or a table row with fewer cells than the table has columns. *)
Inductive exn : Set :=
  | ValueError | KeyError | AttributeError | IndexError | TypeError | Malformed.

Inductive outcome (A : Type) : Type :=
  | Returns (a : A)
  | Raises (e : exn).
Arguments Returns {A} a.
Arguments Raises {A} e.

(** Locations are positions in the store; allocation appends. *)
Abbreviation loc := nat.

Definition Py (St A : Type) : Type := St → outcome A * St.

#[global] Instance Py_ret {St} : MRet (Py St) :=
  λ A a s, (Returns a, s).

#[global] Instance Py_bind {St} : MBind (Py St) :=
  λ A B k m s,
    match m s with
    | (Returns a, s') => k a s'
    | (Raises e, s') => (Raises e, s')
    end.

Definition raise {St A} (e : exn) : Py St A := λ s, (Raises e, s).

(** Code that reads no store. *)
#[global] Instance outcome_ret : MRet outcome := λ A a, Returns a.

#[global] Instance outcome_bind : MBind outcome :=
  λ A B k m,
    match m with
    | Returns a => k a
    | Raises e => Raises e
    end.

Definition lift {St A} (r : outcome A) : Py St A := λ s, (r, s).

(** [list(range(a, b))] *)
Definition range (a b : Z) : list Z := seqZ a (b - a).

(** ** [pull_CRSP_stock.py] *)

Module CRSP.

(** A numeric column is a float64 array; a missing value is NaN.  Only the
    numeric columns of the monthly file are modelled: a frame maps a column
    name to its cells, all columns of a frame having one cell per row. *)
Abbreviation column := (list float).
Abbreviation frame := (gmap string column).
Abbreviation heap := (list (gmap string (list float))).

(** [df[name]] *)
Definition getitem (df : loc) (name : string) : Py heap column :=
  λ h, match h !! df with
       | Some f => match f !! name with
                   | Some col => (Returns col, h)
                   | None => (Raises KeyError, h)
                   end
       | None => (Raises Malformed, h)
       end.

(** [df[name] = col]: the frame that [df] names is updated in place. *)
Definition setitem (df : loc) (name : string) (col : column) : Py heap unit :=
  λ h, match h !! df with
       | Some f => (Returns (), <[df := <[name := col]> f]> h)
       | None => (Raises Malformed, h)
       end.

(** *** pandas and numpy operations on columns *)

(** An integer literal compared with a float64 cell. *)
Definition float_of_Z (z : Z) : float := PrimFloat.of_uint63 (Uint63.of_Z z).

Definition isna (s : column) : list bool := PrimFloat.is_nan <$> s.
Definition notna (s : column) : list bool := (λ x, negb (PrimFloat.is_nan x)) <$> s.

Definition isin (s : column) (values : list Z) : list bool :=
  (λ x, existsb (λ v, PrimFloat.eqb x (float_of_Z v)) values) <$> s.

(** [a & b] on two boolean Series. *)
Definition and_ (a b : list bool) : list bool := zip_with andb a b.

(** pandas' [logical_op] with a boolean left operand and a float64 right
    operand: the right operand's NaN cells become [False] and the others are
    cast with [astype(bool)], i.e. compared with zero. *)
Definition fill_bool (x : float) : bool :=
  if PrimFloat.is_nan x then false else negb (PrimFloat.eqb x 0%float).

Definition and_num (a : list bool) (b : column) : list bool :=
  zip_with (λ p x, p && fill_bool x) a b.

(** [a >= n] on a boolean Series: [True] counts as 1, [False] as 0. *)
Definition ge_int (a : list bool) (n : Z) : list bool :=
  (λ p, Z.geb (Z.b2z p) n) <$> a.

(** [s.fillna(other)] with a Series on the same index. *)
Definition fillna (s other : column) : column :=
  zip_with (λ x y, if PrimFloat.is_nan x then y else x) s other.

(** [s.fillna(v)] with a scalar. *)
Definition fillna_scalar (s : column) (v : float) : column :=
  (λ x, if PrimFloat.is_nan x then v else x) <$> s.

(** [a + b] on two float Series on the same index. *)
Definition add (a b : column) : column := zip_with PrimFloat.add a b.

(** [s != v] *)
Definition ne_scalar (s : column) (v : float) : list bool :=
  (λ x, negb (PrimFloat.eqb x v)) <$> s.

(** An argument of [np.select] is a scalar, broadcast to every row, or an
    array. *)
Inductive operand (A : Type) : Type :=
  | Scalar (a : A)
  | Array (l : list A).
Arguments Scalar {A} a.
Arguments Array {A} l.

Definition broadcast {A} (n : nat) (o : operand A) : list A :=
  match o with
  | Scalar a => replicate n a
  | Array l => l
  end.

(** [np.select(condlist, choicelist, default)]: in each row the choice of the
    first condition that holds, the default when none does. *)
Fixpoint np_select (n : nat) (condlist : list (operand bool))
    (choicelist : list (operand float)) (default : column) : column :=
  match condlist, choicelist with
  | c :: cs, x :: xs =>
      zip_with (λ (b : bool) (vr : float * float), if b then vr.1 else vr.2)
        (broadcast n c) (zip (broadcast n x) (np_select n cs xs default))
  | _, _ => default
  end.

(** [np.where(cond, a, b)] *)
Definition np_where (cond : list bool) (a b : column) : column :=
  zip_with (λ (c : bool) (ab : float * float), if c then ab.1 else ab.2)
    cond (zip a b).

(** *** The delisting policy *)

Definition minus_03 : float := (-0x1.3333333333333p-2)%float.
Definition minus_1 : float := (-1)%float.

(** [[500, 520, 580, 584] + list(range(551, 575))] *)
Definition S1_codes : list Z := [500; 520; 580; 584] ++ range 551 575.

(** The statement [df[field] = np.select([...], [-0.3, -1, df[field]],
    default=df[field])], which the source writes once for ["dlret"] and once
    for ["dlretx"].  In the second condition [&] binds tighter than [>=]:
    it reads [(isna & notna & df["dlstcd"]) >= 200]. *)
Definition impute (df : loc) (field : string) : Py heap unit :=
  c1 ← (a ← getitem df "dlstcd"; b ← getitem df field;
        mret (and_ (isin a S1_codes) (isna b)));
  c2 ← (a ← getitem df field; b ← getitem df "dlstcd"; c ← getitem df "dlstcd";
        mret (ge_int (and_num (and_ (isna a) (notna b)) c) 200));
  x3 ← getitem df field;
  d ← getitem df field;
  setitem df field
    (np_select (length d)
       [Array c1; Array c2; Scalar true]
       [Scalar minus_03; Scalar minus_1; Array x3] d).

(** [df[target] = df[target].fillna(df[source])] *)
Definition backfill (df : loc) (target source : string) : Py heap unit :=
  r ← getitem df target;
  d ← getitem df source;
  setitem df target (fillna r d).

Definition apply_delisting_returns (df : loc) : Py heap loc :=
  impute df "dlret";;
  impute df "dlretx";;
  backfill df "ret" "dlret";;
  backfill df "retx" "dlretx";;
  mret df.

Definition apply_delisting_returns_alt (df : loc) : Py heap loc :=
  (d ← getitem df "dlret"; setitem df "dlret" (fillna_scalar d 0%float));;
  (r ← getitem df "ret"; d ← getitem df "dlret"; setitem df "ret" (add r d));;
  (r ← getitem df "ret"; d ← getitem df "dlret"; x ← getitem df "dlret";
   y ← getitem df "ret";
   setitem df "ret" (np_where (and_ (isna r) (ne_scalar d 0%float)) x y));;
  mret df.

(** *** The columns read row by row *)

(** The cell of column [name] in row [i] of the frame at [df]. *)
Definition cell (h : heap) (df : loc) (name : string) (i : nat) : option float :=
  f ← h !! df; col ← f !! name; col !! i.

(** The column that [impute] assigns, from the columns of codes and of
    delisting returns. *)
Definition imputed (c d : column) : column :=
  np_select (length d)
    [Array (and_ (isin c S1_codes) (isna d));
     Array (ge_int (and_num (and_ (isna d) (notna c)) c) 200);
     Scalar true]
    [Scalar minus_03; Scalar minus_1; Array d] d.

Definition in_S1_codes (c : float) : bool :=
  existsb (λ v, PrimFloat.eqb c (float_of_Z v)) S1_codes.

Definition impute_cell (c d : float) : float :=
  if in_S1_codes c && PrimFloat.is_nan d then minus_03 else d.

(** The set S1 of the specification. *)
Definition S1 (n : Z) : Prop :=
  n = 500 ∨ n = 520 ∨ n = 580 ∨ n = 584 ∨ 551 ≤ n ≤ 574.

(** *** A monthly file of four records

    A code outside S1, a code of S1, no delisting with a return, and a code
    below 200. *)
Definition five_percent : float := 0x1.999999999999ap-5%float.

Definition monthly_file : gmap string column :=
  <["dlstcd" := [400%float; 560%float; nan; 100%float]]>
  (<["dlret" := [nan; nan; nan; nan]]>
  (<["dlretx" := [nan; nan; nan; 0x1p-1%float]]>
  (<["ret" := [nan; nan; five_percent; nan]]>
  (<["retx" := [nan; nan; five_percent; 1%float]]> ∅)))).

(** *** [pull_CRSP_monthly_file] *)

(** [s * v] with a scalar, [a * b], [a / b] and [s.abs()] on float Series on
    the same index. *)
Definition mul_scalar (s : column) (v : float) : column :=
  (λ x, PrimFloat.mul x v) <$> s.

Definition mul (a b : column) : column := zip_with PrimFloat.mul a b.

Definition div (a b : column) : column := zip_with PrimFloat.div a b.

Definition abs (s : column) : column := PrimFloat.abs <$> s.

(** [df.loc[:, ~df.columns.duplicated()]]: a new frame with the first column
    of each name; the columns of a modelled frame have distinct names, so it
    has them all. *)
Definition loc_not_duplicated (df : loc) : Py heap loc :=
  λ h, match h !! df with
       | Some f => (Returns (length h), h ++ [f])
       | None => (Raises Malformed, h)
       end.

(** The function from the frame of the query on; [raw_sql] is the fetch
    [db.raw_sql(query, ...)] on the connection, which returns that frame or
    raises. *)
Definition pull_CRSP_monthly_file (raw_sql : Py heap loc) : Py heap loc :=
  df ← raw_sql;
  df ← loc_not_duplicated df;
  (s ← getitem df "shrout"; setitem df "shrout" (mul_scalar s 1000%float));;
  (a ← getitem df "shrout"; b ← getitem df "cfacshr";
   setitem df "adj_shrout" (mul a b));;
  (p ← getitem df "prc"; c ← getitem df "cfacpr";
   setitem df "adj_prc" (div (abs p) c));;
  (a ← getitem df "adj_prc"; b ← getitem df "adj_shrout";
   setitem df "market_cap" (mul a b));;
  df ← apply_delisting_returns df;
  mret df.

(** A monthly file as the query returns it: the four records above with
    their prices, shares and adjustment factors. *)
Definition fetched_file : gmap string column :=
  <["prc" := [(-10)%float; 20%float; nan; 5%float]]>
  (<["shrout" := [1%float; 2%float; 3%float; 4%float]]>
  (<["cfacshr" := [1%float; 1%float; 2%float; 1%float]]>
  (<["cfacpr" := [1%float; 2%float; 1%float; 1%float]]> monthly_file))).

(** A fetch that returns the frame [f] as a new object. *)
Definition fetch_of (f : gmap string column) : Py heap loc :=
  λ h, (Returns (length h), h ++ [f]).

End CRSP.

(** ** [models/dataset.py] *)

Module Dataset.

(** A cell or an index label.  A [Timestamp] (and a [datetime.date] or
    [datetime.datetime], which pandas casts to one) is its number of
    nanoseconds since the epoch; timestamps are only compared, never added.
    [SNaT] is a missing label or date: [None], [NaN] or [NaT]. *)
Inductive scalar : Set :=
  | SInt (n : Z)
  | SStr (s : string)
  | STs (t : Z)
  | SNaT.

(** A column label: a string, or the integer pandas gives an unnamed
    column. *)
Inductive colname : Set :=
  | CName (s : string)
  | CPos (n : Z).

(** A row is its index label and its cells, one per column. *)
Abbreviation row := (scalar * list scalar)%type.

(** [integer_columns] tells that the columns are an Index of integers (the
    [RangeIndex] of a frame built without column labels) rather than an Index
    of objects.  It tells apart the two frames that have no column: every
    other frame shows by its labels what it is. *)
Record DataFrame : Type :=
  { columns : list colname; integer_columns : bool; rows : list row }.

Record Series : Type := { name : option string; items : list (scalar * scalar) }.

Inductive pyval : Type :=
  | PNone
  | PRef (l : loc)
  | PScalar (v : scalar).

(** The objects of the store; an instance of [Dataset] is its attribute
    dictionary. *)
Inductive obj : Type :=
  | OFrame (f : DataFrame)
  | OSeries (s : Series)
  | OInstance (attrs : gmap string pyval).

Abbreviation heap := (list obj).

Definition alloc (o : obj) : Py heap loc :=
  λ h, (Returns (length h), h ++ [o]).

Definition deref (l : loc) : Py heap obj :=
  λ h, match h !! l with
       | Some o => (Returns o, h)
       | None => (Raises Malformed, h)
       end.

Definition store (l : loc) (o : obj) : Py heap unit :=
  λ h, (Returns (), <[l := o]> h).

(** *** Attributes of an instance *)

Definition getattr (self : loc) (attr : string) : Py heap pyval :=
  o ← deref self;
  match o with
  | OInstance d =>
      match d !! attr with
      | Some v => mret v
      | None => raise AttributeError
      end
  | _ => raise Malformed
  end.

Definition setattr (self : loc) (attr : string) (v : pyval) : Py heap unit :=
  o ← deref self;
  match o with
  | OInstance d => store self (OInstance (<[attr := v]> d))
  | _ => raise Malformed
  end.

(** *** pandas operations on table values *)

(** [str.lower] on the ASCII letters. *)
Definition lower_ascii (c : ascii) : ascii :=
  let n := nat_of_ascii c in
  if ((65 <=? n)%nat && (n <=? 90)%nat)%bool then ascii_of_nat (n + 32) else c.

Fixpoint lower (s : string) : string :=
  match s with
  | EmptyString => EmptyString
  | String c s' => String (lower_ascii c) (lower s')
  end.

Definition is_CPos (c : colname) : bool :=
  match c with CPos _ => true | CName _ => false end.

(** [list(frame.columns.str.lower())]: the [.str] accessor refuses an Index
    all of whose labels are integers, and an empty Index of integers; it
    accepts an empty Index of objects, such as [set_index] leaves when it
    takes the only column.  In an Index that mixes strings and integers an
    integer label gives NaN, here [None]. *)
Definition columns_str_lower (f : DataFrame) : outcome (list (option string)) :=
  match columns f with
  | [] => if integer_columns f then Raises AttributeError else Returns []
  | cs => if forallb is_CPos cs then Raises AttributeError
          else Returns ((λ c, match c with
                              | CName s => Some (lower s)
                              | CPos _ => None
                              end) <$> cs)
  end.

(** [series.to_frame()]: the column of a Series without a name is the
    [RangeIndex] label 0. *)
Definition frame_of_series (s : Series) : DataFrame :=
  {| columns := [match name s with
                 | Some n => CName n
                 | None => CPos 0
                 end];
     integer_columns := match name s with Some _ => false | None => true end;
     rows := (λ it, (it.1, [it.2])) <$> items s |}.

(** The positions of the columns labelled [key]. *)
Fixpoint positions (key : string) (cs : list colname) (i : nat) : list nat :=
  match cs with
  | [] => []
  | c :: cs' =>
      let rest := positions key cs' (S i) in
      match c with
      | CName s => if bool_decide (s = key) then i :: rest else rest
      | CPos _ => rest
      end
  end.

(** A row of [frame.set_index(key)] once the column is found at [k]. *)
Definition promote (k : nat) (r : row) : option row :=
  c ← r.2 !! k; Some (c, delete k r.2).

(** [frame.set_index(key)]: no such column is a [KeyError], several of them
    a [ValueError].  The columns that remain are an Index of objects. *)
Definition set_index_frame (key : string) (f : DataFrame) : outcome DataFrame :=
  match positions key (columns f) 0 with
  | [] => Raises KeyError
  | [k] =>
      match mapM (promote k) (rows f) with
      | Some rs => Returns {| columns := delete k (columns f);
                              integer_columns := false;
                              rows := rs |}
      | None => Raises Malformed
      end
  | _ => Raises ValueError
  end.

(** A date of a [DatetimeIndex]: a timestamp, or [None] for [NaT]. *)
Definition label_of (d : option Z) : scalar :=
  match d with Some t => STs t | None => SNaT end.

Definition date_of (v : scalar) : option (option Z) :=
  match v with
  | STs t => Some (Some t)
  | SNaT => Some None
  | _ => None
  end.

(** The frame after [frame.index = idx], [idx] a [DatetimeIndex]; pandas
    refuses an index of another length. *)
Definition with_index (f : DataFrame) (idx : list (option Z)) : outcome DataFrame :=
  if bool_decide (length idx = length (rows f)) then
    Returns {| columns := columns f;
               integer_columns := integer_columns f;
               rows := zip_with (λ d (r : row), (label_of d, r.2)) idx (rows f) |}
  else Raises ValueError.

Definition timestamp_of (v : scalar) : option Z :=
  match v with STs t => Some t | _ => None end.

(** The rows of a frame under a [DatetimeIndex], each with its date;
    [TypeError] stands for what pandas does on an index of another type: the
    code reaches the operations below only after it has converted the
    index. *)
Definition date_index (f : DataFrame) : outcome (list (option Z * list scalar)) :=
  match mapM (λ r : row, d ← date_of r.1; Some (d, r.2)) (rows f) with
  | Some keyed => Returns keyed
  | None => Raises TypeError
  end.

(** The same for a frame none of whose dates is missing. *)
Definition datetime_index (f : DataFrame) : outcome (list (Z * list scalar)) :=
  match mapM (λ r : row, t ← timestamp_of r.1; Some (t, r.2)) (rows f) with
  | Some keyed => Returns keyed
  | None => Raises TypeError
  end.

Definition key_le (a b : Z * list scalar) : Prop := a.1 ≤ b.1.

#[global] Instance key_le_dec : RelDecision key_le.
Proof. intros a b. unfold key_le. apply _. Defined.

Definition unkey (kr : Z * list scalar) : row := (STs kr.1, kr.2).

Definition relabel (kr : option Z * list scalar) : row := (label_of kr.1, kr.2).

Definition present (kr : Z * list scalar) : option Z * list scalar := (Some kr.1, kr.2).

(** The rows that have a date, and those whose date is missing. *)
Definition timestamps (keyed : list (option Z * list scalar)) : list (Z * list scalar) :=
  omap (λ kr, t ← kr.1; Some (t, kr.2)) keyed.

Definition is_missing (kr : option Z * list scalar) : Prop := kr.1 = None.

#[global] Instance is_missing_dec kr : Decision (is_missing kr).
Proof. unfold is_missing. apply _. Defined.

Definition missing (keyed : list (option Z * list scalar)) : list (option Z * list scalar) :=
  filter is_missing keyed.

(** [index.is_monotonic_increasing]: no date is missing and each is at most
    the next. *)
Definition is_monotonic_increasing (idx : list (option Z)) : bool :=
  match mapM id idx with
  | Some ks => bool_decide (Sorted Z.le ks)
  | None => false
  end.

(** [index.searchsorted(t, side)] on an ascending index: where the slice
    [.loc[:t]] ends ([side='right']) and where [.loc[t:]] starts
    ([side='left']). *)
Definition searchsorted_right (keys : list Z) (t : Z) : nat :=
  length (filter (λ k, k ≤ t) keys).

Definition searchsorted_left (keys : list Z) (t : Z) : nat :=
  length (filter (λ k, k < t) keys).

(** The same for a bound that may be [NaT], which numpy takes to be after
    every date. *)
Definition searchsorted (right : bool) (keys : list Z) (d : option Z) : nat :=
  match d with
  | Some t => if right then searchsorted_right keys t else searchsorted_left keys t
  | None => length keys
  end.

(** [index.get_loc(d)] as a slice bound, on an index that is not ascending
    but in which equal labels are adjacent, as [sort_index] leaves them: the
    position of the first [d] on the left, the position after the last [d] on
    the right, and a [KeyError] when [d] is not a label. *)
Definition get_loc_bound (right : bool) (idx : list (option Z)) (d : option Z) : outcome nat :=
  match list_find (λ x, x = d) idx with
  | Some (i, _) =>
      Returns (if right then (i + length (filter (λ x, x = d) idx))%nat else i)
  | None => Raises KeyError
  end.

(** The rows dated [t] or before, and those dated [t] or after; a missing
    date is neither. *)
Definition dated_at_most (t : Z) (r : row) : Prop :=
  match r.1 with STs k => k ≤ t | _ => False end.

Definition dated_at_least (t : Z) (r : row) : Prop :=
  match r.1 with STs k => t ≤ k | _ => False end.

#[global] Instance dated_at_most_dec t r : Decision (dated_at_most t r).
Proof. unfold dated_at_most. destruct (r.1); apply _. Defined.

#[global] Instance dated_at_least_dec t r : Decision (dated_at_least t r).
Proof. unfold dated_at_least. destruct (r.1); apply _. Defined.

Definition is_SStr (v : scalar) : bool :=
  match v with SStr _ => true | _ => false end.

(** The least timestamp, which pandas reads as [NaT]. *)
Definition iNaT : Z := - 2 ^ 63.

(** The order of [argsort]: by date, then by the rank numpy's sort gives the
    position, then by position. *)
Definition rank_le (a b : (Z * list scalar) * (nat * nat)) : Prop :=
  a.1.1 < b.1.1 ∨
  (a.1.1 = b.1.1 ∧ ((a.2.1 < b.2.1)%nat ∨ (a.2.1 = b.2.1 ∧ (a.2.2 ≤ b.2.2)%nat))).

#[global] Instance rank_le_dec : RelDecision rank_le.
Proof. intros a b. unfold rank_le. apply _. Defined.

Section Pandas.

(** What is left open of pandas and numpy:
    - [parse_datetime labels v], what [pd.to_datetime] makes of the label
      [v] of the index [labels] when [v] is a string, or an integer in an
      index that holds strings: nothing when it refuses the label, else a
      date, which may be [NaT] (the format is guessed from the index as a
      whole);
    - [parse_slice_bound right s], the date a string used as a slice bound on
      a [DatetimeIndex] stands for (a partial date such as ["2020-01"] stands
      for the start or the end of its period, by side);
    - [tie_rank keys i], the order numpy's sort gives the position [i] among
      the positions of [keys] that hold the same date: the default sort is
      not stable, so this order is not that of the input. *)
Variable parse_datetime : list scalar → scalar → option (option Z).
Variable parse_slice_bound : bool → string → option (option Z).
Variable tie_rank : list Z → nat → nat.

(** [pd.to_datetime(index)] at one label.  An integer is a number of
    nanoseconds since the epoch: the least 64-bit integer is [NaT], and one
    that is no 64-bit integer is refused ([OutOfBoundsDatetime], a
    [ValueError]). *)
Definition to_datetime1 (labels : list scalar) (v : scalar) : outcome (option Z) :=
  let parsed := match parse_datetime labels v with
                | Some d => Returns d
                | None => Raises ValueError
                end in
  match v with
  | STs t => Returns (Some t)
  | SNaT => Returns None
  | SStr _ => parsed
  | SInt n =>
      if existsb is_SStr labels then parsed
      else if bool_decide (n = iNaT) then Returns None
      else if bool_decide (iNaT < n < 2 ^ 63) then Returns (Some n)
      else Raises ValueError
  end.

Fixpoint to_datetime_from (labels vs : list scalar) : outcome (list (option Z)) :=
  match vs with
  | [] => Returns []
  | v :: vs' =>
      d ← to_datetime1 labels v; ds ← to_datetime_from labels vs'; Returns (d :: ds)
  end.

Definition to_datetime (labels : list scalar) : outcome (list (option Z)) :=
  to_datetime_from labels labels.

(** [nargsort]: the rows that have a date in ascending order of date, those
    of equal date in the order of [tie_rank]. *)
Definition argsort (dated : list (Z * list scalar)) : list (Z * list scalar) :=
  (merge_sort rank_le (imap (λ i kr, (kr, (tie_rank dated.*1 i, i))) dated)).*1.

(** The rows of [frame.sort_index()]: those of the frame when its index is
    ascending already, else the rows that have a date, sorted, and then the
    rows whose date is missing, in the order they had. *)
Definition sort_dates (keyed : list (option Z * list scalar)) : list (option Z * list scalar) :=
  if is_monotonic_increasing keyed.*1 then keyed
  else (present <$> argsort (timestamps keyed)) ++ missing keyed.

Definition sort_index_frame (f : DataFrame) : outcome DataFrame :=
  keyed ← date_index f;
  Returns {| columns := columns f;
             integer_columns := integer_columns f;
             rows := relabel <$> sort_dates keyed |}.

(** [DatetimeIndex._maybe_cast_slice_bound]: a timestamp is taken as it is, a
    string is parsed, anything else is refused.  [SNaT] as a bound is
    [pd.NaT], which is what [index[0]] gives on a missing date. *)
Definition cast_slice_bound (right : bool) (label : scalar) : outcome (option Z) :=
  match label with
  | STs t => Returns (Some t)
  | SNaT => Returns None
  | SStr s => match parse_slice_bound right s with
              | Some d => Returns d
              | None => Raises TypeError
              end
  | SInt _ => Raises TypeError
  end.

(** [frame.loc[:bound]] on a [DatetimeIndex] as [sort_index] leaves it.  On
    an ascending index the slice ends where [searchsorted] says.  On one that
    is not ascending (it has missing dates, which come last) a string bound
    selects the rows dated as the bound or before, and must be a date of the
    index; any other bound must be a label of the index, and the slice ends
    after the last row so labelled. *)
Definition loc_to_frame (bound : scalar) (f : DataFrame) : outcome DataFrame :=
  keyed ← date_index f;
  d ← cast_slice_bound true bound;
  rs ← (if is_monotonic_increasing keyed.*1 then
          Returns (take (searchsorted true (timestamps keyed).*1 d) (rows f))
        else if is_SStr bound then
          match d with
          | Some t => if bool_decide (Some t ∈ keyed.*1)
                      then Returns (filter (dated_at_most t) (rows f))
                      else Raises KeyError
          | None => Raises KeyError
          end
        else
          n ← get_loc_bound true keyed.*1 d; Returns (take n (rows f)));
  Returns {| columns := columns f;
             integer_columns := integer_columns f;
             rows := rs |}.

(** [frame.loc[bound:]], likewise. *)
Definition loc_from_frame (bound : scalar) (f : DataFrame) : outcome DataFrame :=
  keyed ← date_index f;
  d ← cast_slice_bound false bound;
  rs ← (if is_monotonic_increasing keyed.*1 then
          Returns (drop (searchsorted false (timestamps keyed).*1 d) (rows f))
        else if is_SStr bound then
          match d with
          | Some t => if bool_decide (Some t ∈ keyed.*1)
                      then Returns (filter (dated_at_least t) (rows f))
                      else Raises KeyError
          | None => Raises KeyError
          end
        else
          n ← get_loc_bound false keyed.*1 d; Returns (drop n (rows f)));
  Returns {| columns := columns f;
             integer_columns := integer_columns f;
             rows := rs |}.

(** *** pandas operations on the objects of the store *)

(** [isinstance(v, pd.Series)] *)
Definition is_Series (v : pyval) : Py heap bool :=
  match v with
  | PRef l => o ← deref l;
              mret (match o with OSeries _ => true | _ => false end)
  | _ => mret false
  end.

(** The frame that [v] names; an attribute or method of a frame asked of
    anything else is an [AttributeError]. *)
Definition as_frame (v : pyval) : Py heap (loc * DataFrame) :=
  match v with
  | PRef l => o ← deref l;
              match o with
              | OFrame f => mret (l, f)
              | OSeries _ | OInstance _ => raise AttributeError
              end
  | _ => raise AttributeError
  end.

(** A method that returns a new frame. *)
Definition new_frame (r : outcome DataFrame) : Py heap pyval :=
  f ← lift r; l' ← alloc (OFrame f); mret (PRef l').

Definition to_frame (v : pyval) : Py heap pyval :=
  match v with
  | PRef l =>
      o ← deref l;
      match o with
      | OSeries s => new_frame (Returns (frame_of_series s))
      | _ => raise AttributeError
      end
  | _ => raise AttributeError
  end.

Definition set_index (v : pyval) (key : string) : Py heap pyval :=
  lf ← as_frame v; new_frame (set_index_frame key lf.2).

(** [frame.index = idx]: the object itself gets the new index. *)
Definition assign_index (v : pyval) (idx : list (option Z)) : Py heap unit :=
  lf ← as_frame v;
  f' ← lift (with_index lf.2 idx);
  store lf.1 (OFrame f').

Definition sort_index (v : pyval) : Py heap pyval :=
  lf ← as_frame v; new_frame (sort_index_frame lf.2).

Definition loc_to (v : pyval) (bound : scalar) : Py heap pyval :=
  lf ← as_frame v; new_frame (loc_to_frame bound lf.2).

Definition loc_from (v : pyval) (bound : scalar) : Py heap pyval :=
  lf ← as_frame v; new_frame (loc_from_frame bound lf.2).

Definition organize_time_series (time_series : pyval)
    (filter_start_date filter_end_date : option scalar)
    (enforce_not_none : bool) : Py heap pyval :=
  match time_series with
  | PNone => if enforce_not_none then raise ValueError else mret PNone
  | _ =>
      b ← is_Series time_series;
      time_series ← (if b : bool then to_frame time_series else mret time_series);
      cols ← (lf ← as_frame time_series; lift (columns_str_lower lf.2));
      time_series ← (if bool_decide (Some "date" ∈ cols)
                     then set_index time_series "date"
                     else mret time_series);
      idx ← (lf ← as_frame time_series; lift (to_datetime (rows lf.2).*1));
      assign_index time_series idx;;
      time_series ← sort_index time_series;
      time_series ← (match filter_end_date with
                     | Some e => loc_to time_series e
                     | None => mret time_series
                     end);
      time_series ← (match filter_start_date with
                     | Some s => loc_from time_series s
                     | None => mret time_series
                     end);
      mret time_series
  end.

(** *** class [Dataset] *)

(** [v.index[0]] and [v.index[-1]].  A string has a method [index], which
    cannot be subscripted; the other values that are no table have no
    attribute of that name. *)
Definition index_at (v : pyval) (last : bool) : Py heap scalar :=
  match v with
  | PRef l =>
      o ← deref l;
      labels ← match o with
               | OFrame f => mret (rows f).*1
               | OSeries s => mret (items s).*1
               | OInstance _ => raise AttributeError
               end;
      match (if last then list.last labels else head labels) with
      | Some x => mret x
      | None => raise IndexError
      end
  | PScalar (SStr _) => raise TypeError
  | _ => raise AttributeError
  end.

Definition __new__ : Py heap loc := alloc (OInstance ∅).

Definition __init__ (self : loc) (y X : pyval)
    (filter_start_date filter_end_date : option scalar)
    (time_frequency : pyval) : Py heap unit :=
  v ← organize_time_series y filter_start_date filter_end_date true;
  setattr self "y" v;;
  v ← organize_time_series X filter_start_date filter_end_date false;
  setattr self "X" v;;
  setattr self "time_frequency" time_frequency;;
  setattr self "y_pred" PNone.

(** The call [Dataset(y, X, filter_start_date, filter_end_date,
    time_frequency)]. *)
Definition Dataset (y X : pyval)
    (filter_start_date filter_end_date : option scalar)
    (time_frequency : pyval) : Py heap loc :=
  self ← __new__;
  __init__ self y X filter_start_date filter_end_date time_frequency;;
  mret self.

Definition from_organized_time_series (y X time_frequency : pyval) : Py heap loc :=
  new_dataset ← __new__;
  setattr new_dataset "y" y;;
  setattr new_dataset "X" X;;
  setattr new_dataset "time_frequency" time_frequency;;
  mret new_dataset.

Definition create_from_y (y time_frequency : pyval) : Py heap loc :=
  from_organized_time_series y PNone time_frequency.

Definition set_X (self : loc) (X : pyval) : Py heap unit :=
  y ← getattr self "y";
  s ← index_at y false;
  y ← getattr self "y";
  e ← index_at y true;
  v ← organize_time_series X (Some s) (Some e) false;
  setattr self "X" v.

Definition get_y (self : loc) : Py heap pyval := getattr self "y".
Definition get_X (self : loc) : Py heap pyval := getattr self "X".

Definition set_y_pred (self : loc) (y_pred : pyval) (organize : bool) : Py heap unit :=
  (if organize then
     y ← getattr self "y";
     s ← index_at y false;
     y ← getattr self "y";
     e ← index_at y true;
     v ← organize_time_series y_pred (Some s) (Some e) false;
     setattr self "y_pred" v
   else mret ());;
  setattr self "y_pred" y_pred.

Definition get_y_pred (self : loc) : Py heap pyval := getattr self "y_pred".

(** *** The call as a function of the table

    What [organize_time_series] computes from the table it is given, the
    store left aside; [organize_time_series_run] relates the two. *)

Definition table_of (o : obj) : option DataFrame :=
  match o with
  | OFrame f => Some f
  | OSeries s => Some (frame_of_series s)
  | OInstance _ => None
  end.

(** The table with its dates as the index, before it is sorted. *)
Definition dated (f : DataFrame) : outcome DataFrame :=
  cols ← columns_str_lower f;
  f1 ← (if bool_decide (Some "date" ∈ cols)
        then set_index_frame "date" f else Returns f);
  idx ← to_datetime (rows f1).*1;
  with_index f1 idx.

Definition organized (f : DataFrame)
    (filter_start_date filter_end_date : option scalar) : outcome DataFrame :=
  fd ← dated f;
  f2 ← sort_index_frame fd;
  f3 ← match filter_end_date with
       | Some e => loc_to_frame e f2
       | None => Returns f2
       end;
  match filter_start_date with
  | Some s => loc_from_frame s f3
  | None => Returns f3
  end.

Definition organized_obj (o : obj)
    (filter_start_date filter_end_date : option scalar) : outcome DataFrame :=
  match table_of o with
  | Some f => organized f filter_start_date filter_end_date
  | None => Raises AttributeError
  end.

(** The frame after the statement
    [time_series.index = pd.to_datetime(time_series.index)]. *)
Definition reindexed (f : DataFrame) : DataFrame :=
  match idx ← to_datetime (rows f).*1; with_index f idx with
  | Returns fd => fd
  | Raises _ => f
  end.

(** The object passed as [time_series], after the call: a frame without a
    column "date" is the very object whose index the call assigns. *)
Definition argument_after (o : obj) : obj :=
  match o with
  | OFrame f =>
      match columns_str_lower f with
      | Returns cols =>
          if bool_decide (Some "date" ∈ cols) then o else OFrame (reindexed f)
      | Raises _ => o
      end
  | OSeries _ | OInstance _ => o
  end.

(** The statements of [organize_time_series] from the conversion of the
    index on, at the table they act on. *)
Definition convert_sort_slice (time_series : pyval)
    (filter_start_date filter_end_date : option scalar) : Py heap pyval :=
  idx ← (lf ← as_frame time_series; lift (to_datetime (rows lf.2).*1));
  assign_index time_series idx;;
  time_series ← sort_index time_series;
  time_series ← (match filter_end_date with
                 | Some e => loc_to time_series e
                 | None => mret time_series
                 end);
  time_series ← (match filter_start_date with
                 | Some s => loc_from time_series s
                 | None => mret time_series
                 end);
  mret time_series.

(** The rows that have a date, as [sort_index] orders them. *)
Definition ascending (keyed : list (option Z * list scalar)) : list (Z * list scalar) :=
  if is_monotonic_increasing keyed.*1 then timestamps keyed
  else argsort (timestamps keyed).

(** The two slices on the rows that have a date, [dated], in ascending order,
    followed by the rows whose date is missing, [undated]. *)
Definition kept_to (bound : option scalar)
    (rs : list (Z * list scalar) * list (option Z * list scalar)) :
    outcome (list (Z * list scalar) * list (option Z * list scalar)) :=
  match bound with
  | None => Returns rs
  | Some b =>
      d ← cast_slice_bound true b;
      match d with
      | None => if is_SStr b && negb (bool_decide (rs.2 = []))
                then Raises KeyError else Returns rs
      | Some t => if negb (bool_decide (rs.2 = [])) && negb (bool_decide (t ∈ rs.1.*1))
                  then Raises KeyError
                  else Returns (filter (λ kr, kr.1 ≤ t) rs.1, [])
      end
  end.

Definition kept_from (bound : option scalar)
    (rs : list (Z * list scalar) * list (option Z * list scalar)) :
    outcome (list (Z * list scalar) * list (option Z * list scalar)) :=
  match bound with
  | None => Returns rs
  | Some b =>
      d ← cast_slice_bound false b;
      match d with
      | None => if is_SStr b && negb (bool_decide (rs.2 = []))
                then Raises KeyError else Returns ([], rs.2)
      | Some t => if bool_decide (rs.2 = [])
                  then Returns (filter (λ kr, t ≤ kr.1) rs.1, [])
                  else if negb (bool_decide (t ∈ rs.1.*1)) then Raises KeyError
                  else Returns (filter (λ kr, t ≤ kr.1) rs.1,
                                if is_SStr b then [] else rs.2)
      end
  end.

End Pandas.

(** A date within a bound that may be absent. *)
Definition not_after (e : option Z) (t : Z) : Prop :=
  match e with Some e => t ≤ e | None => True end.

Definition not_before (s : option Z) (t : Z) : Prop :=
  match s with Some s => s ≤ t | None => True end.

#[global] Instance not_after_dec e t : Decision (not_after e t).
Proof. destruct e; simpl; apply _. Defined.

#[global] Instance not_before_dec s t : Decision (not_before s t).
Proof. destruct s; simpl; apply _. Defined.

(** *** Tables and stores of the examples *)

Definition no_parse : list scalar → scalar → option (option Z) := λ _ _, None.
Definition no_bound : bool → string → option (option Z) := λ _ _, None.

(** Rows of equal date in the order of the input, and in the opposite
    order. *)
Definition input_order : list Z → nat → nat := λ _ _, O.
Definition reverse_order : list Z → nat → nat := λ keys i, (length keys - i)%nat.

(** Four rows out of order, two of them on the same date. *)
Definition prices : DataFrame :=
  {| columns := [CName "price"];
     integer_columns := false;
     rows := [(STs 5, [SInt 50]); (STs 1, [SInt 10]);
              (STs 3, [SInt 30]); (STs 3, [SInt 31])] |}.

(** A table indexed by integers. *)
Definition forecasts : DataFrame :=
  {| columns := [CName "forecast"];
     integer_columns := false;
     rows := [(SInt 2, [SInt 20]); (SInt 1, [SInt 10])] |}.

(** A table whose column of dates is spelled "Date". *)
Definition capitalised : DataFrame :=
  {| columns := [CName "Date"; CName "forecast"];
     integer_columns := false;
     rows := [(SInt 0, [STs 1; SInt 10])] |}.

(** A table one of whose dates is missing. *)
Definition gappy : DataFrame :=
  {| columns := [CName "price"];
     integer_columns := false;
     rows := [(STs 5, [SInt 50]); (SNaT, [SInt 0]); (STs 1, [SInt 10])] |}.

(** *** [len] and [Dataset.__len__] *)

(** [len(v)] reads the store and leaves it as it is.  On an instance of
    [Dataset] it calls [__len__], which is [len(self.y)]: [depth] bounds the
    nesting of these calls, as Python's recursion limit does. *)
Inductive len_result : Set :=
  | Len (n : nat)
  | LenRaises (e : exn)
  | RecursionError.

Fixpoint len (depth : nat) (h : heap) (v : pyval) : len_result :=
  match v with
  | PNone => LenRaises TypeError
  | PScalar (SStr s) => Len (String.length s)
  | PScalar (SInt _) | PScalar (STs _) | PScalar SNaT => LenRaises TypeError
  | PRef l =>
      match h !! l with
      | Some (OFrame f) => Len (length (rows f))
      | Some (OSeries s) => Len (length (items s))
      | Some (OInstance d) =>
          match depth with
          | O => RecursionError
          | S depth' =>
              match d !! "y" with
              | Some y => len depth' h y
              | None => LenRaises AttributeError
              end
          end
      | None => LenRaises Malformed
      end
  end.

Definition __len__ (depth : nat) (h : heap) (self : loc) : len_result :=
  len (S depth) h (PRef self).

(** The column labels whose lower case is "date". *)
Definition spells_date (c : colname) : Prop :=
  match c with CName s => lower s = "date" | CPos _ => False end.

(** A series of two values under a name, and the same without a name. *)
Definition named_series : Series :=
  {| name := Some "price"; items := [(STs 2, SInt 20); (STs 1, SInt 10)] |}.

Definition unnamed_series : Series :=
  {| name := None; items := [(STs 2, SInt 20); (STs 1, SInt 10)] |}.

(** A table with no row. *)
Definition no_rows : DataFrame :=
  {| columns := [CName "price"]; integer_columns := false; rows := [] |}.

End Dataset.

(** * Proofs *)

(** ** Running the store monad *)

Lemma bind_run {St A B} (m : Py St A) (k : A → Py St B) s a s' :
  m s = (Returns a, s') → (m ≫= k) s = k a s'.
Proof. intros H. unfold mbind, Py_bind. by rewrite H. Qed.

Lemma bind_raise {St A B} (m : Py St A) (k : A → Py St B) s e s' :
  m s = (Raises e, s') → (m ≫= k) s = (Raises e, s').
Proof. intros H. unfold mbind, Py_bind. by rewrite H. Qed.

(** A computation that returns has returned from each of its steps. *)
Lemma bind_returns {St A B} (m : Py St A) (k : A → Py St B) s b s' :
  (m ≫= k) s = (Returns b, s') →
  ∃ a s1, m s = (Returns a, s1) ∧ k a s1 = (Returns b, s').
Proof.
  unfold mbind, Py_bind. destruct (m s) as [[a|e] s1]; [eauto | done].
Qed.

(** ** [pull_CRSP_stock.py] *)

Section CRSP_proofs.
Import CRSP.

Lemma getitem_run (h : heap) df (f : gmap string column) name col :
  h !! df = Some f → f !! name = Some col →
  getitem df name h = (Returns col, h).
Proof. intros Hf Hc. unfold getitem. by rewrite Hf, Hc. Qed.

Lemma setitem_run (h : heap) df (f : gmap string column) name col :
  h !! df = Some f →
  setitem df name col h = (Returns (), <[df := <[name := col]> f]> h).
Proof. intros Hf. unfold setitem. by rewrite Hf. Qed.

Lemma impute_run (h : heap) df (f : gmap string column) field c d :
  h !! df = Some f → f !! "dlstcd" = Some c → f !! field = Some d →
  impute df field h = (Returns (), <[df := <[field := imputed c d]> f]> h).
Proof.
  intros Hf Hc Hd. unfold impute.
  erewrite bind_run; cycle 1.
  { erewrite bind_run; [| by eapply getitem_run].
    erewrite bind_run; [| by eapply getitem_run]. reflexivity. }
  erewrite bind_run; cycle 1.
  { erewrite bind_run; [| by eapply getitem_run].
    erewrite bind_run; [| by eapply getitem_run].
    erewrite bind_run; [| by eapply getitem_run]. reflexivity. }
  erewrite bind_run; [| by eapply getitem_run].
  erewrite bind_run; [| by eapply getitem_run].
  by erewrite setitem_run.
Qed.

Lemma pick_lookup (bs : list bool) (vs rs : column) (i : nat) (b : bool) (v r : float) :
  bs !! i = Some b → vs !! i = Some v → rs !! i = Some r →
  zip_with (λ (b : bool) (vr : float * float), if b then vr.1 else vr.2)
    bs (zip vs rs) !! i = Some (if b then v else r).
Proof.
  intros Hb Hv Hr. rewrite lookup_zip_with, Hb. simpl.
  rewrite lookup_zip_with. rewrite Hv. simpl. by rewrite Hr.
Qed.

Lemma and_lookup (a b : list bool) (i : nat) (x y : bool) :
  a !! i = Some x → b !! i = Some y → and_ a b !! i = Some (x && y).
Proof. intros Ha Hb. unfold and_. by rewrite lookup_zip_with, Ha, Hb. Qed.

Lemma imputed_lookup (c d : column) (i : nat) (ci di : float) :
  c !! i = Some ci → d !! i = Some di →
  imputed c d !! i = Some (impute_cell ci di).
Proof.
  intros Hc Hd. unfold imputed, impute_cell.
  assert (Hi : (i < length d)%nat) by (by eapply lookup_lt_Some).
  cbn [np_select broadcast].
  erewrite pick_lookup; cycle 1.
  { apply and_lookup.
    - unfold isin. rewrite list_lookup_fmap, Hc. reflexivity.
    - unfold isna. rewrite list_lookup_fmap, Hd. reflexivity. }
  { by apply lookup_replicate_2. }
  { eapply pick_lookup.
    - unfold ge_int, and_num. rewrite list_lookup_fmap, lookup_zip_with.
      erewrite and_lookup; cycle 1.
      + unfold isna. rewrite list_lookup_fmap, Hd. reflexivity.
      + unfold notna. rewrite list_lookup_fmap, Hc. reflexivity.
      + simpl. rewrite Hc. reflexivity.
    - by apply lookup_replicate_2.
    - eapply pick_lookup; [by apply lookup_replicate_2 | done | done]. }
  f_equal. fold (in_S1_codes ci).
  destruct (in_S1_codes ci && PrimFloat.is_nan di); [done|].
  simpl.
  by destruct (PrimFloat.is_nan di && negb (PrimFloat.is_nan ci) && fill_bool ci).
Qed.

Lemma fillna_lookup (s o : column) (i : nat) (x y : float) :
  s !! i = Some x → o !! i = Some y →
  fillna s o !! i = Some (if PrimFloat.is_nan x then y else x).
Proof. intros Hs Ho. unfold fillna. by rewrite lookup_zip_with, Hs, Ho. Qed.

(** The whole call, when the five columns exist. *)
Lemma apply_delisting_returns_run (h : heap) df (f : gmap string column)
    c d dx r rx :
  h !! df = Some f →
  f !! "dlstcd" = Some c → f !! "dlret" = Some d → f !! "dlretx" = Some dx →
  f !! "ret" = Some r → f !! "retx" = Some rx →
  apply_delisting_returns df h =
    (Returns df,
     <[df := <["retx" := fillna rx (imputed c dx)]>
              (<["ret" := fillna r (imputed c d)]>
               (<["dlretx" := imputed c dx]>
                (<["dlret" := imputed c d]> f)))]> h).
Proof.
  intros Hf Hc Hd Hdx Hr Hrx.
  assert (Hlt : (df < length h)%nat) by (by eapply lookup_lt_Some).
  unfold apply_delisting_returns.
  erewrite bind_run; [| by eapply impute_run].
  erewrite bind_run; cycle 1.
  { eapply impute_run; [by apply list_lookup_insert_eq | |];
      by rewrite lookup_insert_ne. }
  rewrite list_insert_insert_eq.
  unfold backfill.
  erewrite bind_run; cycle 1.
  { erewrite bind_run; cycle 1.
    { eapply getitem_run; [by apply list_lookup_insert_eq|].
      by rewrite !lookup_insert_ne. }
    erewrite bind_run; cycle 1.
    { eapply getitem_run; [by apply list_lookup_insert_eq|].
      rewrite lookup_insert_ne by done. by rewrite lookup_insert_eq. }
    eapply setitem_run. by apply list_lookup_insert_eq. }
  rewrite list_insert_insert_eq.
  erewrite bind_run; cycle 1.
  { erewrite bind_run; cycle 1.
    { eapply getitem_run; [by apply list_lookup_insert_eq|].
      by rewrite !lookup_insert_ne. }
    erewrite bind_run; cycle 1.
    { eapply getitem_run; [by apply list_lookup_insert_eq|].
      rewrite lookup_insert_ne by done. by rewrite lookup_insert_eq. }
    eapply setitem_run. by apply list_lookup_insert_eq. }
  by rewrite list_insert_insert_eq.
Qed.

Lemma SFcompare_refl_not_nan (x : spec_float) :
  x ≠ S754_nan → SFcompare x x = Some Eq.
Proof.
  destruct x as [s|s| |s m e]; intros Hx; try done; simpl.
  - by destruct s.
  - rewrite Z.compare_refl.
    change (PosDef.Pos.compare_cont Eq m m) with (m ?= m)%positive.
    rewrite Pos.compare_refl. by destruct s.
Qed.

(** Rocq's binary64 has one NaN. *)
Lemma is_nan_true (x : float) : PrimFloat.is_nan x = true → x = nan.
Proof.
  unfold PrimFloat.is_nan. rewrite FloatAxioms.eqb_spec. unfold SFeqb. intros H.
  apply Prim2SF_inj. change (Prim2SF nan) with S754_nan.
  destruct (Prim2SF x) as [s|s| |s m e] eqn:Hx; [| |done|];
    by rewrite SFcompare_refl_not_nan in H.
Qed.

Lemma SF_lt_lt_ne (x : spec_float) ma ea mb eb :
  SFltb x (S754_finite false ma ea) = true →
  SFltb (S754_finite false ma ea) (S754_finite false mb eb) = true →
  SFeqb x (S754_finite false mb eb) = false.
Proof.
  unfold SFltb, SFeqb.
  destruct x as [s|s| |s m e]; simpl; try done.
  - by destruct s.
  - destruct s; [done|].
    change (PosDef.Pos.compare_cont Eq) with Pos.compare.
    destruct (Z.compare_spec e ea), (Z.compare_spec ea eb), (Z.compare_spec e eb);
      try done; try lia; subst.
    destruct (Pos.compare_spec m ma), (Pos.compare_spec ma mb), (Pos.compare_spec m mb);
      try done; lia.
Qed.

Lemma ltb_ltb_eqb (x a b : float) sa ma ea mb eb :
  Prim2SF a = S754_finite sa ma ea → sa = false →
  Prim2SF b = S754_finite false mb eb →
  PrimFloat.ltb x a = true → PrimFloat.ltb a b = true → PrimFloat.eqb x b = false.
Proof.
  intros Ha -> Hb. rewrite !ltb_spec, FloatAxioms.eqb_spec, Ha, Hb.
  apply SF_lt_lt_ne.
Qed.

Lemma S1_codes_spec (n : Z) : n ∈ S1_codes ↔ S1 n.
Proof.
  unfold S1_codes, range, S1.
  rewrite elem_of_app, elem_of_seqZ, !elem_of_cons, elem_of_nil. lia.
Qed.

Lemma in_S1_codes_of_code (n : Z) : S1 n → in_S1_codes (float_of_Z n) = true.
Proof.
  intros Hn%S1_codes_spec. unfold in_S1_codes.
  apply existsb_exists. exists n. split; [by apply list_elem_of_In|].
  assert (Hall : forallb (λ v, PrimFloat.eqb (float_of_Z v) (float_of_Z v)) S1_codes = true)
    by (vm_compute; reflexivity).
  rewrite forallb_forall in Hall. apply Hall. by apply list_elem_of_In.
Qed.

Lemma in_S1_codes_nan (c : float) : PrimFloat.is_nan c = true → in_S1_codes c = false.
Proof. intros ->%is_nan_true. vm_compute. reflexivity. Qed.

Lemma in_S1_codes_below_200 (c : float) :
  PrimFloat.ltb c 200%float = true → in_S1_codes c = false.
Proof.
  intros Hc. unfold in_S1_codes.
  apply not_true_is_false. intros (v & Hv & He)%existsb_exists.
  assert (Hall : forallb (λ v, PrimFloat.ltb 200%float (float_of_Z v)
                               && match Prim2SF (float_of_Z v) with
                                  | S754_finite false _ _ => true
                                  | _ => false
                                  end) S1_codes = true)
    by (vm_compute; reflexivity).
  rewrite forallb_forall in Hall. apply Hall in Hv as [Hlt Hfin]%andb_prop.
  destruct (Prim2SF (float_of_Z v)) as [| | |[] mb eb] eqn:Hb; try done.
  assert (Hne : PrimFloat.eqb c (float_of_Z v) = false).
  { eapply ltb_ltb_eqb with (a := 200%float);
      [vm_compute; reflexivity | reflexivity | exact Hb | exact Hc | exact Hlt]. }
  congruence.
Qed.

Lemma cell_insert (h : heap) df (F : gmap string column) name (i : nat) :
  (df < length h)%nat →
  cell (<[df := F]> h) df name i = (F !! name) ≫= (λ col, col !! i).
Proof. intros Hlt. unfold cell. by rewrite list_lookup_insert_eq. Qed.

Lemma cell_Some (h : heap) df (f : gmap string column) name col (i : nat) x :
  h !! df = Some f → f !! name = Some col →
  cell h df name i = Some x → col !! i = Some x.
Proof. intros Hf Hc. unfold cell. rewrite Hf. simpl. by rewrite Hc. Qed.

(** The call read row by row. *)
Lemma apply_delisting_returns_cells (h : heap) df (f : gmap string column) :
  h !! df = Some f →
  is_Some (f !! "dlstcd") → is_Some (f !! "dlret") → is_Some (f !! "dlretx") →
  is_Some (f !! "ret") → is_Some (f !! "retx") →
  ∃ h', apply_delisting_returns df h = (Returns df, h') ∧
    ∀ (i : nat) (c : float), cell h df "dlstcd" i = Some c →
      (∀ d, cell h df "dlret" i = Some d →
            cell h' df "dlret" i = Some (impute_cell c d)) ∧
      (∀ d, cell h df "dlretx" i = Some d →
            cell h' df "dlretx" i = Some (impute_cell c d)) ∧
      (∀ d r, cell h df "dlret" i = Some d → cell h df "ret" i = Some r →
            cell h' df "ret" i =
              Some (if PrimFloat.is_nan r then impute_cell c d else r)) ∧
      (∀ d r, cell h df "dlretx" i = Some d → cell h df "retx" i = Some r →
            cell h' df "retx" i =
              Some (if PrimFloat.is_nan r then impute_cell c d else r)).
Proof.
  intros Hf [C HC] [D HD] [DX HDX] [R HR] [RX HRX].
  assert (Hlt : (df < length h)%nat) by (by eapply lookup_lt_Some).
  eexists. split; [by eapply apply_delisting_returns_run|].
  intros i c Hc. apply (cell_Some _ _ _ _ _ _ _ Hf HC) in Hc.
  repeat split.
  - intros d Hd. apply (cell_Some _ _ _ _ _ _ _ Hf HD) in Hd.
    rewrite cell_insert by done.
    rewrite !lookup_insert_ne by done. rewrite lookup_insert_eq. simpl.
    by apply imputed_lookup.
  - intros d Hd. apply (cell_Some _ _ _ _ _ _ _ Hf HDX) in Hd.
    rewrite cell_insert by done.
    rewrite !lookup_insert_ne by done. rewrite lookup_insert_eq. simpl.
    by apply imputed_lookup.
  - intros d r Hd Hr. apply (cell_Some _ _ _ _ _ _ _ Hf HD) in Hd.
    apply (cell_Some _ _ _ _ _ _ _ Hf HR) in Hr.
    rewrite cell_insert by done.
    rewrite !lookup_insert_ne by done. rewrite lookup_insert_eq. simpl.
    apply fillna_lookup; [done|]. by apply imputed_lookup.
  - intros d r Hd Hr. apply (cell_Some _ _ _ _ _ _ _ Hf HDX) in Hd.
    apply (cell_Some _ _ _ _ _ _ _ Hf HRX) in Hr.
    rewrite cell_insert by done. rewrite lookup_insert_eq. simpl.
    apply fillna_lookup; [done|]. by apply imputed_lookup.
Qed.

Lemma impute_cell_S1 (c d : float) :
  PrimFloat.is_nan d = true → (∃ n, S1 n ∧ c = float_of_Z n) →
  impute_cell c d = minus_03.
Proof.
  intros Hd (n & Hn & ->). unfold impute_cell.
  by rewrite in_S1_codes_of_code, Hd.
Qed.

Lemma impute_cell_keep (c d : float) :
  PrimFloat.is_nan d = false ∨ PrimFloat.is_nan c = true ∨ PrimFloat.ltb c 200%float = true →
  impute_cell c d = d.
Proof.
  unfold impute_cell. intros [Hd|[Hc|Hc]].
  - by rewrite Hd, andb_false_r.
  - by rewrite in_S1_codes_nan.
  - by rewrite in_S1_codes_below_200.
Qed.

(** The second condition of [np.select] holds in no row, so the choice -1
    is never taken: a missing delisting return with a code outside the
    listed ones stays missing. *)
Lemma impute_cell_outside_S1 (c d : float) :
  in_S1_codes c = false → impute_cell c d = d.
Proof. intros Hc. unfold impute_cell. by rewrite Hc. Qed.

(** C1 (the code departs from it).  The claim: a record with a missing
    delisting return and a code of at least 200 outside S1 gets -1.00, for
    instance [dlstcd = 400].  At the record [dlstcd = 400], [dlret = NaN]
    the call returns and leaves [dlret] (and [dlretx]) missing: neither is
    set to -1. *)
Theorem dlstcd_400_is_not_imputed :
  ∃ h', apply_delisting_returns 0%nat [monthly_file] = (Returns 0%nat, h') ∧
    cell [monthly_file] 0%nat "dlstcd" 0 = Some 400%float ∧
    cell [monthly_file] 0%nat "dlret" 0 = Some nan ∧
    cell h' 0%nat "dlret" 0 = Some nan ∧
    cell h' 0%nat "dlretx" 0 = Some nan ∧
    cell h' 0%nat "dlret" 0 ≠ Some minus_1.
Proof.
  eexists. split; [vm_compute; reflexivity|].
  repeat split; try (vm_compute; reflexivity).
  vm_compute. intros [=].
Qed.

(** C2.  When the call returns, a record whose delisting return ([dlret],
    and likewise [dlretx]) is missing and whose code is in
    S1 = {500, 520, 580, 584} ∪ [551, 574] has the field set to -0.30, in
    particular for the code 560; a record whose field is present, or whose
    code is null or below 200, keeps the field. *)
Theorem S1_codes_get_minus_03 (h : heap) (df : loc) (f : gmap string column) :
  h !! df = Some f →
  is_Some (f !! "dlstcd") → is_Some (f !! "dlret") → is_Some (f !! "dlretx") →
  is_Some (f !! "ret") → is_Some (f !! "retx") →
  ∃ h', apply_delisting_returns df h = (Returns df, h') ∧
    ∀ field : string, field = "dlret" ∨ field = "dlretx" →
    ∀ (i : nat) (c d : float),
      cell h df "dlstcd" i = Some c → cell h df field i = Some d →
      (PrimFloat.is_nan d = true → (∃ n, S1 n ∧ c = float_of_Z n) →
         cell h' df field i = Some minus_03) ∧
      (PrimFloat.is_nan d = true → c = 560%float →
         cell h' df field i = Some minus_03) ∧
      (PrimFloat.is_nan d = false ∨ PrimFloat.is_nan c = true
         ∨ PrimFloat.ltb c 200%float = true →
         cell h' df field i = Some d).
Proof.
  intros Hf H1 H2 H3 H4 H5.
  destruct (apply_delisting_returns_cells h df f Hf H1 H2 H3 H4 H5) as (h' & Hrun & Hrows).
  exists h'. split; [done|].
  intros field Hfield i c d Hc Hd.
  destruct (Hrows i c Hc) as (Hdl & Hdlx & _).
  assert (Hcell : cell h' df field i = Some (impute_cell c d))
    by (destruct Hfield as [-> | ->]; auto).
  rewrite Hcell. repeat split.
  - intros Hnan Hin. by rewrite impute_cell_S1.
  - intros Hnan ->. rewrite impute_cell_S1; [done..|].
    exists 560. split; [unfold S1; lia | reflexivity].
  - intros Hkeep. by rewrite impute_cell_keep.
Qed.

Lemma S1_codes_get_minus_03_witness :
  ∃ h', apply_delisting_returns 0%nat [monthly_file] = (Returns 0%nat, h') ∧
    ∀ field : string, field = "dlret" ∨ field = "dlretx" →
    ∀ (i : nat) (c d : float),
      cell [monthly_file] 0%nat "dlstcd" i = Some c →
      cell [monthly_file] 0%nat field i = Some d →
      (PrimFloat.is_nan d = true → (∃ n, S1 n ∧ c = float_of_Z n) →
         cell h' 0%nat field i = Some minus_03) ∧
      (PrimFloat.is_nan d = true → c = 560%float →
         cell h' 0%nat field i = Some minus_03) ∧
      (PrimFloat.is_nan d = false ∨ PrimFloat.is_nan c = true
         ∨ PrimFloat.ltb c 200%float = true →
         cell h' 0%nat field i = Some d).
Proof.
  apply (S1_codes_get_minus_03 [monthly_file] 0%nat monthly_file);
    [reflexivity | eexists; vm_compute; reflexivity ..].
Defined.

(** C3.  When the call returns, [ret] (and likewise [retx]) is replaced by
    the delisting return as it stands after imputation exactly when [ret]
    is null: a null [ret] becomes that delisting return, -0.30 when the
    imputation has just set it, and a [ret] that is present is kept. *)
Theorem backfill_after_imputation (h : heap) (df : loc) (f : gmap string column) :
  h !! df = Some f →
  is_Some (f !! "dlstcd") → is_Some (f !! "dlret") → is_Some (f !! "dlretx") →
  is_Some (f !! "ret") → is_Some (f !! "retx") →
  ∃ h', apply_delisting_returns df h = (Returns df, h') ∧
    ∀ primary delisting : string,
      (primary = "ret" ∧ delisting = "dlret") ∨
      (primary = "retx" ∧ delisting = "dlretx") →
    ∀ (i : nat) (c d r : float),
      cell h df "dlstcd" i = Some c → cell h df delisting i = Some d →
      cell h df primary i = Some r →
      (PrimFloat.is_nan r = true →
         cell h' df primary i = cell h' df delisting i) ∧
      (PrimFloat.is_nan r = true → PrimFloat.is_nan d = true →
         (∃ n, S1 n ∧ c = float_of_Z n) →
         cell h' df primary i = Some minus_03) ∧
      (PrimFloat.is_nan r = false → cell h' df primary i = Some r).
Proof.
  intros Hf H1 H2 H3 H4 H5.
  destruct (apply_delisting_returns_cells h df f Hf H1 H2 H3 H4 H5) as (h' & Hrun & Hrows).
  exists h'. split; [done|].
  intros primary delisting Hpair i c d r Hc Hd Hr.
  destruct (Hrows i c Hc) as (Hdl & Hdlx & Hret & Hretx).
  assert (Hdel : cell h' df delisting i = Some (impute_cell c d))
    by (destruct Hpair as [[-> ->] | [-> ->]]; auto).
  assert (Hprim : cell h' df primary i =
                  Some (if PrimFloat.is_nan r then impute_cell c d else r))
    by (destruct Hpair as [[-> ->] | [-> ->]]; auto).
  rewrite Hprim, Hdel. repeat split.
  - by intros ->.
  - intros -> Hnan Hin. by rewrite impute_cell_S1.
  - by intros ->.
Qed.

Lemma backfill_after_imputation_witness :
  ∃ h', apply_delisting_returns 0%nat [monthly_file] = (Returns 0%nat, h') ∧
    ∀ primary delisting : string,
      (primary = "ret" ∧ delisting = "dlret") ∨
      (primary = "retx" ∧ delisting = "dlretx") →
    ∀ (i : nat) (c d r : float),
      cell [monthly_file] 0%nat "dlstcd" i = Some c →
      cell [monthly_file] 0%nat delisting i = Some d →
      cell [monthly_file] 0%nat primary i = Some r →
      (PrimFloat.is_nan r = true →
         cell h' 0%nat primary i = cell h' 0%nat delisting i) ∧
      (PrimFloat.is_nan r = true → PrimFloat.is_nan d = true →
         (∃ n, S1 n ∧ c = float_of_Z n) →
         cell h' 0%nat primary i = Some minus_03) ∧
      (PrimFloat.is_nan r = false → cell h' 0%nat primary i = Some r).
Proof.
  apply (backfill_after_imputation [monthly_file] 0%nat monthly_file);
    [reflexivity | eexists; vm_compute; reflexivity ..].
Defined.

(** The two records the specification tests: [ret = NaN], [dlret = NaN],
    [dlstcd = 560] ends with [ret = -0.30]; [dlstcd = NaN], [dlret = NaN],
    [ret = 0.05] keeps [ret = 0.05]. *)
Example backfill_tested_records :
  ∃ h', apply_delisting_returns 0%nat [monthly_file] = (Returns 0%nat, h') ∧
    cell h' 0%nat "dlret" 1 = Some minus_03 ∧
    cell h' 0%nat "ret" 1 = Some minus_03 ∧
    cell h' 0%nat "ret" 2 = Some five_percent.
Proof. eexists. repeat split; vm_compute; reflexivity. Qed.

Lemma apply_delisting_returns_alt_run (h : heap) df (f : gmap string column) d r :
  h !! df = Some f → f !! "dlret" = Some d → f !! "ret" = Some r →
  let d0 := fillna_scalar d 0%float in
  let s := add r d0 in
  apply_delisting_returns_alt df h =
    (Returns df,
     <[df := <["ret" := np_where (and_ (isna s) (ne_scalar d0 0%float)) d0 s]>
              (<["ret" := s]> (<["dlret" := d0]> f))]> h).
Proof.
  intros Hf Hd Hr d0 s.
  assert (Hlt : (df < length h)%nat) by (by eapply lookup_lt_Some).
  unfold apply_delisting_returns_alt.
  erewrite bind_run; cycle 1.
  { erewrite bind_run; [| by eapply getitem_run]. by eapply setitem_run. }
  erewrite bind_run; cycle 1.
  { erewrite bind_run; cycle 1.
    { eapply getitem_run; [by apply list_lookup_insert_eq|].
      by rewrite lookup_insert_ne. }
    erewrite bind_run; cycle 1.
    { eapply getitem_run; [by apply list_lookup_insert_eq|].
      by rewrite lookup_insert_eq. }
    eapply setitem_run. by apply list_lookup_insert_eq. }
  rewrite list_insert_insert_eq.
  erewrite bind_run; cycle 1.
  { erewrite bind_run; cycle 1.
    { eapply getitem_run; [by apply list_lookup_insert_eq|].
      by rewrite lookup_insert_eq. }
    erewrite bind_run; cycle 1.
    { eapply getitem_run; [by apply list_lookup_insert_eq|].
      rewrite lookup_insert_ne by done. by rewrite lookup_insert_eq. }
    erewrite bind_run; cycle 1.
    { eapply getitem_run; [by apply list_lookup_insert_eq|].
      rewrite lookup_insert_ne by done. by rewrite lookup_insert_eq. }
    erewrite bind_run; cycle 1.
    { eapply getitem_run; [by apply list_lookup_insert_eq|].
      by rewrite lookup_insert_eq. }
    eapply setitem_run. by apply list_lookup_insert_eq. }
  by rewrite list_insert_insert_eq.
Qed.

(** C9.  When the call returns, [dlret] is its old value with an absent one
    replaced by 0; [ret] is the sum [ret + dlret] where that sum is not
    null, [dlret] where the sum is null and [dlret] is not zero, and null
    where the sum is null and [dlret] is zero. *)
Theorem alternate_policy (h : heap) (df : loc) (f : gmap string column) :
  h !! df = Some f → is_Some (f !! "dlret") → is_Some (f !! "ret") →
  ∃ h', apply_delisting_returns_alt df h = (Returns df, h') ∧
    ∀ (i : nat) (d r : float),
      cell h df "dlret" i = Some d → cell h df "ret" i = Some r →
      let d0 := if PrimFloat.is_nan d then 0%float else d in
      let s := PrimFloat.add r d0 in
      cell h' df "dlret" i = Some d0 ∧
      (PrimFloat.is_nan s = false → cell h' df "ret" i = Some s) ∧
      (PrimFloat.is_nan s = true → PrimFloat.eqb d0 0%float = false →
         cell h' df "ret" i = Some d0) ∧
      (PrimFloat.is_nan s = true → PrimFloat.eqb d0 0%float = true →
         cell h' df "ret" i = Some nan).
Proof.
  intros Hf [D HD] [R HR].
  assert (Hlt : (df < length h)%nat) by (by eapply lookup_lt_Some).
  eexists. split; [by eapply apply_delisting_returns_alt_run|].
  intros i d r Hd Hr d0 s.
  apply (cell_Some _ _ _ _ _ _ _ Hf HD) in Hd.
  apply (cell_Some _ _ _ _ _ _ _ Hf HR) in Hr.
  rewrite !cell_insert by done.
  rewrite lookup_insert_eq, !lookup_insert_ne, lookup_insert_eq by done. simpl.
  assert (Hd0 : fillna_scalar D 0%float !! i = Some d0)
    by (unfold fillna_scalar; by rewrite list_lookup_fmap, Hd).
  assert (Hs : add R (fillna_scalar D 0%float) !! i = Some s)
    by (unfold add; by rewrite lookup_zip_with, Hr, Hd0).
  split; [done|].
  assert (Hw : np_where (and_ (isna (add R (fillna_scalar D 0%float)))
                           (ne_scalar (fillna_scalar D 0%float) 0%float))
                 (fillna_scalar D 0%float) (add R (fillna_scalar D 0%float)) !! i
               = Some (if PrimFloat.is_nan s && negb (PrimFloat.eqb d0 0%float)
                       then d0 else s)).
  { unfold np_where. apply pick_lookup; [|done..].
    apply and_lookup.
    - unfold isna. by rewrite list_lookup_fmap, Hs.
    - unfold ne_scalar. by rewrite list_lookup_fmap, Hd0. }
  rewrite Hw. repeat split.
  - by intros ->.
  - by intros -> ->.
  - intros Hnan ->. rewrite andb_false_r. f_equal. by apply is_nan_true.
Qed.

Lemma alternate_policy_witness :
  ∃ h', apply_delisting_returns_alt 0%nat [monthly_file] = (Returns 0%nat, h') ∧
    ∀ (i : nat) (d r : float),
      cell [monthly_file] 0%nat "dlret" i = Some d →
      cell [monthly_file] 0%nat "ret" i = Some r →
      let d0 := if PrimFloat.is_nan d then 0%float else d in
      let s := PrimFloat.add r d0 in
      cell h' 0%nat "dlret" i = Some d0 ∧
      (PrimFloat.is_nan s = false → cell h' 0%nat "ret" i = Some s) ∧
      (PrimFloat.is_nan s = true → PrimFloat.eqb d0 0%float = false →
         cell h' 0%nat "ret" i = Some d0) ∧
      (PrimFloat.is_nan s = true → PrimFloat.eqb d0 0%float = true →
         cell h' 0%nat "ret" i = Some nan).
Proof.
  apply (alternate_policy [monthly_file] 0%nat monthly_file);
    [reflexivity | eexists; vm_compute; reflexivity ..].
Defined.
End CRSP_proofs.

(** ** [models/dataset.py] *)

(** *** Sorted indexes and their slices *)

#[global] Instance key_le_total : Total Dataset.key_le.
Proof. intros a b. unfold Dataset.key_le. lia. Qed.

#[global] Instance key_le_trans : Transitive Dataset.key_le.
Proof. intros a b c. unfold Dataset.key_le. lia. Qed.

#[global] Instance unkey_inj : Inj (=) (=) Dataset.unkey.
Proof. intros [t c] [t' c']. unfold Dataset.unkey. simpl. by intros [= -> ->]. Qed.

#[global] Instance rank_le_total : Total Dataset.rank_le.
Proof. intros a b. unfold Dataset.rank_le. lia. Qed.

#[global] Instance rank_le_trans : Transitive Dataset.rank_le.
Proof. intros a b c. unfold Dataset.rank_le. lia. Qed.

Section Slices.
Import Dataset.

Lemma filter_none {A} (P : A → Prop) `{∀ x, Decision (P x)} (l : list A) :
  Forall (λ x, ¬ P x) l → filter P l = [].
Proof.
  induction 1 as [|x l Hx _ IH]; [done|].
  rewrite filter_cons. by destruct (decide (P x)).
Qed.

Lemma filter_all {A} (P : A → Prop) `{∀ x, Decision (P x)} (l : list A) :
  Forall P l → filter P l = l.
Proof.
  induction 1 as [|x l Hx _ IH]; [done|].
  rewrite filter_cons. destruct (decide (P x)); [by rewrite IH | done].
Qed.

(** On an ascending index the slice [.loc[:t]] keeps the rows dated [t] or
    before. *)
Lemma take_searchsorted_right (keyed : list (Z * list scalar)) (t : Z) :
  StronglySorted key_le keyed →
  take (searchsorted_right keyed.*1 t) keyed = filter (λ kr, kr.1 ≤ t) keyed.
Proof.
  unfold searchsorted_right.
  induction 1 as [|x l Hs IH Hx]; [done|].
  rewrite fmap_cons, !filter_cons.
  destruct (decide (x.1 ≤ t)) as [Hle|Hgt]; simpl.
  - by rewrite IH.
  - assert (Hall : Forall (λ kr : Z * list scalar, ¬ kr.1 ≤ t) l).
    { eapply Forall_impl; [exact Hx|]. intros y Hy. unfold key_le in Hy. lia. }
    rewrite (filter_none (λ k, k ≤ t) l.*1) by (by apply Forall_fmap).
    simpl. symmetry. by apply filter_none.
Qed.

(** On an ascending index the slice [.loc[t:]] keeps the rows dated [t] or
    after. *)
Lemma drop_searchsorted_left (keyed : list (Z * list scalar)) (t : Z) :
  StronglySorted key_le keyed →
  drop (searchsorted_left keyed.*1 t) keyed = filter (λ kr, t ≤ kr.1) keyed.
Proof.
  unfold searchsorted_left.
  induction 1 as [|x l Hs IH Hx]; [done|].
  rewrite fmap_cons, !filter_cons.
  destruct (decide (x.1 < t)) as [Hlt|Hge]; simpl.
  - rewrite IH. destruct (decide (t ≤ x.1)); [lia | done].
  - destruct (decide (t ≤ x.1)); [|lia].
    rewrite (filter_none (λ k, k < t) l.*1); simpl.
    + f_equal. symmetry. apply filter_all.
      eapply Forall_impl; [exact Hx|]. intros y Hy. unfold key_le in Hy. lia.
    + apply Forall_fmap. eapply Forall_impl; [exact Hx|].
      intros y Hy. unfold key_le in Hy. simpl. lia.
Qed.

Lemma StronglySorted_filter {A} (R : relation A) (P : A → Prop)
    `{∀ x, Decision (P x)} (l : list A) :
  StronglySorted R l → StronglySorted R (filter P l).
Proof.
  induction 1 as [|x l Hs IH Hx]; [constructor|].
  rewrite filter_cons. destruct (decide (P x)); [|done].
  constructor; [done|].
  rewrite Forall_forall in Hx |- *.
  intros y [_ Hy]%list_elem_of_filter. by apply Hx.
Qed.

Lemma keys_sorted (keyed : list (Z * list scalar)) :
  StronglySorted key_le keyed → Sorted Z.le keyed.*1.
Proof.
  intros Hs. apply StronglySorted_Sorted.
  eapply (StronglySorted_fmap fst key_le Z.le); [|done]. by intros x y.
Qed.

Lemma sorted_keys (keyed : list (Z * list scalar)) :
  Sorted Z.le keyed.*1 → StronglySorted key_le keyed.
Proof.
  intros Hs%(Sorted_StronglySorted _).
  induction keyed as [|kr keyed IH]; [constructor|].
  rewrite fmap_cons in Hs. apply StronglySorted_inv in Hs as [Hs Hkr].
  constructor; [by apply IH|].
  rewrite Forall_fmap in Hkr. done.
Qed.

(** An ascending list is strictly ascending exactly when no element occurs
    twice. *)
Lemma strictly_ascending_NoDup (ks : list Z) :
  Sorted Z.le ks → (Sorted Z.lt ks ↔ NoDup ks).
Proof.
  intros Hle. apply (Sorted_StronglySorted _) in Hle.
  split.
  - intros Hlt. apply (Sorted_StronglySorted _) in Hlt.
    induction Hlt as [|x l _ IH Hx]; [constructor|].
    apply StronglySorted_inv in Hle as [Hle _].
    constructor; [|by apply IH].
    intros Hin. rewrite Forall_forall in Hx. specialize (Hx x Hin). lia.
  - intros Hnd. apply StronglySorted_Sorted.
    induction Hle as [|x l _ IH Hx]; [constructor|].
    apply NoDup_cons in Hnd as [Hnin Hnd].
    constructor; [by apply IH|].
    rewrite Forall_forall in Hx |- *. intros y Hy.
    specialize (Hx y Hy). assert (x ≠ y) by (by intros ->). lia.
Qed.

(** **** The rows that have a date and those that have none *)

Lemma timestamps_present (A : list (Z * list scalar)) : timestamps (present <$> A) = A.
Proof.
  induction A as [|[t c] A IH]; [done|].
  rewrite fmap_cons.
  change (timestamps (present (t, c) :: (present <$> A)))
    with ((t, c) :: timestamps (present <$> A)).
  by rewrite IH.
Qed.

Lemma timestamps_missing (N : list (option Z * list scalar)) :
  Forall is_missing N → timestamps N = [].
Proof.
  induction 1 as [|[d c] N Hd _ IH]; [done|].
  unfold is_missing in Hd. simpl in Hd. subst d. exact IH.
Qed.

Lemma timestamps_form (A : list (Z * list scalar)) (N : list (option Z * list scalar)) :
  Forall is_missing N → timestamps ((present <$> A) ++ N) = A.
Proof.
  intros HN.
  assert (Happ : ∀ l1 l2 : list (option Z * list scalar),
            timestamps (l1 ++ l2) = timestamps l1 ++ timestamps l2)
    by (intros; apply omap_app).
  by rewrite Happ, timestamps_present, timestamps_missing, app_nil_r.
Qed.

Lemma missing_present (A : list (Z * list scalar)) : missing (present <$> A) = [].
Proof.
  unfold missing. apply filter_none. apply Forall_fmap, Forall_forall.
  by intros [t c] _.
Qed.

Lemma missing_form (A : list (Z * list scalar)) (N : list (option Z * list scalar)) :
  Forall is_missing N → missing ((present <$> A) ++ N) = N.
Proof.
  intros HN.
  assert (Happ : ∀ l1 l2 : list (option Z * list scalar),
            missing (l1 ++ l2) = missing l1 ++ missing l2)
    by (intros; apply filter_app).
  rewrite Happ, missing_present. simpl. by apply filter_all.
Qed.

Lemma missing_are_missing (keyed : list (option Z * list scalar)) :
  Forall is_missing (missing keyed).
Proof. apply Forall_forall. by intros kr [? _]%list_elem_of_filter. Qed.

Lemma split_dates (keyed : list (option Z * list scalar)) :
  keyed ≡ₚ (present <$> timestamps keyed) ++ missing keyed.
Proof.
  unfold timestamps, missing. induction keyed as [|[[t|] c] keyed IH]; [done|..].
  - simpl. rewrite filter_cons_False by done. by constructor.
  - simpl. rewrite filter_cons_True by done.
    rewrite <- Permutation_middle. by constructor.
Qed.

Lemma relabel_present (A : list (Z * list scalar)) :
  relabel <$> (present <$> A) = unkey <$> A.
Proof. rewrite <- list_fmap_compose. by apply list_fmap_ext. Qed.

Lemma relabel_inj : Inj (=) (=) relabel.
Proof.
  intros [[t|] c] [[t'|] c']; unfold relabel; simpl; intros [= ]; by subst.
Qed.

Lemma date_index_relabel (cols : list colname) (ic : bool)
    (keyed : list (option Z * list scalar)) :
  date_index {| columns := cols; integer_columns := ic; rows := relabel <$> keyed |}
    = Returns keyed.
Proof.
  unfold date_index. simpl.
  rewrite mapM_fmap_Some; [done|]. by intros [[t|] cells].
Qed.

Lemma date_index_rows (f : DataFrame) (keyed : list (option Z * list scalar)) :
  date_index f = Returns keyed → rows f = relabel <$> keyed.
Proof.
  unfold date_index.
  destruct (mapM _ (rows f)) as [k|] eqn:Hm; [|done]. intros [= ->].
  symmetry. eapply mapM_fmap_Some_inv; [exact Hm|].
  intros [l cells] [d cells']. simpl.
  destruct l; simpl; try done; by intros [= <- <-].
Qed.

Lemma datetime_index_unkey (cols : list colname) (ic : bool)
    (keyed : list (Z * list scalar)) :
  datetime_index {| columns := cols; integer_columns := ic; rows := unkey <$> keyed |}
    = Returns keyed.
Proof.
  unfold datetime_index. simpl.
  rewrite mapM_fmap_Some; [done|]. by intros [t cells].
Qed.

Lemma datetime_index_rows (f : DataFrame) (keyed : list (Z * list scalar)) :
  datetime_index f = Returns keyed → rows f = unkey <$> keyed.
Proof.
  unfold datetime_index.
  destruct (mapM _ (rows f)) as [k|] eqn:Hm; [|done]. intros [= ->].
  symmetry. eapply mapM_fmap_Some_inv; [exact Hm|].
  intros [l cells] [t cells']. simpl.
  destruct l; simpl; try done. by intros [= -> ->].
Qed.

(** A frame none of whose dates is missing. *)
Lemma datetime_date_index (f : DataFrame) (keyed : list (Z * list scalar)) :
  datetime_index f = Returns keyed ↔ date_index f = Returns (present <$> keyed).
Proof.
  destruct f as [cs ic rs]. split.
  - intros Hr%datetime_index_rows. simpl in Hr. subst rs.
    rewrite <- relabel_present. apply date_index_relabel.
  - intros Hr%date_index_rows. simpl in Hr. subst rs.
    rewrite relabel_present. apply datetime_index_unkey.
Qed.

(** **** Ascending indexes *)

Lemma mapM_id_present (A : list (Z * list scalar)) :
  mapM id (present <$> A).*1 = Some A.*1.
Proof.
  apply mapM_Some. induction A as [|[t c] A IH]; [constructor|].
  rewrite !fmap_cons. by constructor.
Qed.

Lemma monotonic_present (A : list (Z * list scalar)) :
  StronglySorted key_le A → is_monotonic_increasing (present <$> A).*1 = true.
Proof.
  intros Hs. unfold is_monotonic_increasing. rewrite mapM_id_present.
  apply bool_decide_eq_true_2. by apply keys_sorted.
Qed.

Lemma monotonic_missing (A : list (Z * list scalar))
    (N : list (option Z * list scalar)) :
  N ≠ [] → Forall is_missing N →
  is_monotonic_increasing ((present <$> A) ++ N).*1 = false.
Proof.
  intros HN Hm. unfold is_monotonic_increasing.
  destruct (mapM id _) as [ks|] eqn:Hks; [|done]. exfalso.
  apply mapM_Some in Hks.
  destruct N as [|[d c] N]; [done|].
  apply Forall_cons in Hm as [Hd _]. unfold is_missing in Hd. simpl in Hd. subst d.
  rewrite fmap_app, fmap_cons in Hks.
  apply Forall2_app_inv_l in Hks as (k1 & k2 & _ & Hk2 & _).
  apply Forall2_cons_inv_l in Hk2 as (? & ? & ? & _). done.
Qed.

Lemma monotonic_inv (keyed : list (option Z * list scalar)) :
  is_monotonic_increasing keyed.*1 = true →
  keyed = present <$> timestamps keyed ∧
  StronglySorted key_le (timestamps keyed) ∧
  missing keyed = [].
Proof.
  unfold is_monotonic_increasing.
  destruct (mapM id keyed.*1) as [ks|] eqn:Hks; [|done].
  intros Hs%bool_decide_eq_true_1. apply mapM_Some in Hks.
  assert (Hall : keyed = present <$> timestamps keyed ∧ (timestamps keyed).*1 = ks).
  { clear Hs. revert ks Hks.
    induction keyed as [|[d c] keyed IH]; intros ks Hks.
    - apply Forall2_nil_inv_l in Hks. by subst.
    - rewrite fmap_cons in Hks.
      apply Forall2_cons_inv_l in Hks as (k & ks' & Hk & Hks & ->).
      simpl in Hk. subst d. destruct (IH _ Hks) as [IH1 IH2].
      change (timestamps ((Some k, c) :: keyed)) with ((k, c) :: timestamps keyed).
      rewrite !fmap_cons. split; [by rewrite <- IH1 | by rewrite IH2]. }
  destruct Hall as [Hkeyed Hkeys]. split; [done|]. split.
  - apply sorted_keys. by rewrite Hkeys.
  - rewrite Hkeyed. apply missing_present.
Qed.

(** **** The position of a label in an index that [sort_index] has left *)

Lemma count_le (ks : list Z) (t : Z) :
  Nat.add (length (filter (λ k, k < t) ks)) (length (filter (λ k, k = t) ks))
  = length (filter (λ k, k ≤ t) ks).
Proof.
  induction ks as [|k ks IH]; [done|].
  rewrite !filter_cons.
  destruct (decide (k < t)), (decide (k = t)), (decide (k ≤ t)); simpl; lia.
Qed.

Lemma count_present (ks : list Z) (nones : list (option Z)) (t : Z) :
  Forall (λ x, x = None) nones →
  length (filter (λ x, x = Some t) ((Some <$> ks) ++ nones))
  = length (filter (λ k, k = t) ks).
Proof.
  intros Hn. rewrite filter_app, length_app.
  rewrite (filter_none (λ x, x = Some t) nones).
  2:{ eapply Forall_impl; [exact Hn|]. by intros ? ->. }
  simpl. rewrite Nat.add_0_r.
  induction ks as [|k ks IH]; [done|].
  rewrite fmap_cons, !filter_cons.
  destruct (decide (k = t)) as [->|Hne].
  - rewrite decide_True by done. simpl. by rewrite IH.
  - rewrite decide_False by congruence. done.
Qed.

Lemma list_find_present (ks : list Z) (nones : list (option Z)) (t : Z) :
  StronglySorted Z.le ks → Forall (λ x, x = None) nones →
  list_find (λ x, x = Some t) ((Some <$> ks) ++ nones) =
    if bool_decide (t ∈ ks) then Some (length (filter (λ k, k < t) ks), Some t)
    else None.
Proof.
  intros Hs Hn. induction Hs as [|k ks Hs IH Hk].
  - rewrite bool_decide_eq_false_2 by (by intros ?%elem_of_nil). simpl.
    apply list_find_None. eapply Forall_impl; [exact Hn|]. by intros ? ->.
  - rewrite fmap_cons. cbn [app list_find]. rewrite filter_cons.
    destruct (decide (Some k = Some t)) as [[= ->]|Hne].
    + rewrite bool_decide_eq_true_2 by apply list_elem_of_here.
      rewrite decide_False by lia.
      rewrite (filter_none (λ k, k < t) ks); [done|].
      eapply Forall_impl; [exact Hk|]. simpl. lia.
    + rewrite IH. case_bool_decide as Hin.
      * rewrite bool_decide_eq_true_2 by (by apply list_elem_of_further).
        rewrite Forall_forall in Hk. specialize (Hk t Hin).
        rewrite decide_True by (assert (k ≠ t) by congruence; lia). done.
      * rewrite bool_decide_eq_false_2; [done|].
        intros [->|?]%elem_of_cons; done.
Qed.

Lemma list_find_missing (ks : list Z) (nones : list (option Z)) (d : option Z) :
  d = None → nones ≠ [] → Forall (λ x, x = None) nones →
  list_find (λ x, x = d) ((Some <$> ks) ++ nones) = Some (length ks, None).
Proof.
  intros Hd Hne Hn. induction ks as [|k ks IH].
  - destruct nones as [|x nones]; [done|].
    apply Forall_cons in Hn as [-> _]. cbn [fmap list_fmap app list_find].
    by rewrite decide_True by (by subst).
  - rewrite fmap_cons. cbn [app list_find]. rewrite decide_False by (by subst).
    by rewrite IH.
Qed.

Lemma count_missing (ks : list Z) (nones : list (option Z)) (d : option Z) :
  d = None → Forall (λ x, x = None) nones →
  length (filter (λ x, x = d) ((Some <$> ks) ++ nones)) = length nones.
Proof.
  intros Hd Hn. rewrite filter_app, length_app.
  rewrite (filter_none (λ x, x = d) (Some <$> ks)).
  2:{ apply Forall_fmap, Forall_forall. intros. by subst. }
  rewrite (filter_all (λ x, x = d) nones); [done|].
  eapply Forall_impl; [exact Hn|]. intros. by subst.
Qed.

Lemma index_form (A : list (Z * list scalar)) (N : list (option Z * list scalar)) :
  ((present <$> A) ++ N).*1 = (Some <$> A.*1) ++ N.*1.
Proof. rewrite fmap_app. f_equal. rewrite <- !list_fmap_compose. done. Qed.

Lemma missing_index (N : list (option Z * list scalar)) :
  Forall is_missing N → Forall (λ x, x = None) N.*1.
Proof. intros H. by apply Forall_fmap. Qed.

Lemma get_loc_bound_date (right : bool) (A : list (Z * list scalar))
    (N : list (option Z * list scalar)) (t : Z) :
  StronglySorted key_le A → Forall is_missing N →
  get_loc_bound right ((present <$> A) ++ N).*1 (Some t) =
    if bool_decide (t ∈ A.*1) then Returns (searchsorted right A.*1 (Some t))
    else Raises KeyError.
Proof.
  intros Hs HN. unfold get_loc_bound. rewrite index_form.
  assert (Hks : StronglySorted Z.le A.*1)
    by (apply (Sorted_StronglySorted _); by apply keys_sorted).
  rewrite (list_find_present _ _ _ Hks (missing_index _ HN)).
  case_bool_decide; [|done].
  rewrite (count_present _ _ _ (missing_index _ HN)). simpl.
  destruct right; [|done]. unfold searchsorted_right. by rewrite count_le.
Qed.

Lemma get_loc_bound_missing (right : bool) (A : list (Z * list scalar))
    (N : list (option Z * list scalar)) :
  N ≠ [] → Forall is_missing N →
  get_loc_bound right ((present <$> A) ++ N).*1 None =
    Returns (if right then length ((present <$> A) ++ N) else length A).
Proof.
  intros Hne HN. unfold get_loc_bound. rewrite index_form.
  rewrite (list_find_missing _ _ None eq_refl).
  2:{ by destruct N. }
  2:{ by apply missing_index. }
  rewrite (count_missing _ _ None eq_refl) by (by apply missing_index).
  rewrite !length_app, !length_fmap. by destruct right.
Qed.
End Slices.

(** *** The call as a function of the table *)

Section Organized.
Import Dataset.
Variable parse_datetime : list scalar → scalar → option (option Z).
Variable parse_slice_bound : bool → string → option (option Z).
Variable tie_rank : list Z → nat → nat.

#[local] Abbreviation to_datetime := (to_datetime parse_datetime).
#[local] Abbreviation to_datetime_from := (to_datetime_from parse_datetime).
#[local] Abbreviation dated := (dated parse_datetime).
#[local] Abbreviation argsort := (argsort tie_rank).
#[local] Abbreviation ascending := (ascending tie_rank).
#[local] Abbreviation sort_dates := (sort_dates tie_rank).
#[local] Abbreviation sort_index_frame := (sort_index_frame tie_rank).
#[local] Abbreviation organized := (organized parse_datetime parse_slice_bound tie_rank).
#[local] Abbreviation cast_slice_bound := (cast_slice_bound parse_slice_bound).
#[local] Abbreviation kept_to := (kept_to parse_slice_bound).
#[local] Abbreviation kept_from := (kept_from parse_slice_bound).
#[local] Abbreviation loc_to_frame := (loc_to_frame parse_slice_bound).
#[local] Abbreviation loc_from_frame := (loc_from_frame parse_slice_bound).

Lemma to_datetime_from_length (labels vs : list scalar) (ds : list (option Z)) :
  to_datetime_from labels vs = Returns ds → length ds = length vs.
Proof.
  revert ds. induction vs as [|v vs IH]; intros ds; simpl.
  - by intros [= <-].
  - destruct (to_datetime1 parse_datetime labels v) as [d|x]; simpl; [|done].
    destruct (to_datetime_from labels vs) as [ds'|x]; simpl; [|done].
    intros [= <-]. simpl. f_equal. by apply IH.
Qed.

Lemma to_datetime_length (labels : list scalar) (ds : list (option Z)) :
  to_datetime labels = Returns ds → length ds = length labels.
Proof. apply to_datetime_from_length. Qed.

Lemma with_index_rows (f fd : DataFrame) (idx : list (option Z)) :
  with_index f idx = Returns fd →
  columns fd = columns f ∧ integer_columns fd = integer_columns f ∧
  rows fd = relabel <$> zip idx (rows f).*2.
Proof.
  unfold with_index. case_bool_decide as Hlen; [|done]. intros [= <-]. simpl.
  do 2 (split; [done|]).
  clear Hlen. revert idx. induction (rows f) as [|r rs IH]; intros [|t idx]; simpl; try done.
  by rewrite IH.
Qed.

Lemma with_index_date_index (f fd : DataFrame) (idx : list (option Z)) :
  with_index f idx = Returns fd →
  date_index fd = Returns (zip idx (rows f).*2).
Proof.
  intros (Hc & Hi & Hr)%with_index_rows. destruct fd as [c ic r]. simpl in *. subst.
  apply date_index_relabel.
Qed.

Lemma dated_date_index (f fd : DataFrame) :
  dated f = Returns fd → ∃ keyed, date_index fd = Returns keyed.
Proof.
  unfold Dataset.dated.
  destruct (columns_str_lower f) as [cols|x]; simpl; [|done].
  destruct (if bool_decide _ then _ else _) as [f1|x]; simpl; [|done].
  destruct (Dataset.to_datetime _ _) as [idx|x]; simpl; [|done].
  intros Hw. eexists. by eapply with_index_date_index.
Qed.

(** **** [sort_index] *)

Lemma argsort_Permutation (rs : list (Z * list scalar)) : argsort rs ≡ₚ rs.
Proof.
  unfold Dataset.argsort. rewrite merge_sort_Permutation.
  match goal with |- ?l ≡ₚ _ => assert (l = rs) as ->; [|done] end.
  apply list_eq. intros i.
  rewrite list_lookup_fmap, list_lookup_imap. by destruct (rs !! i).
Qed.

Lemma argsort_sorted (rs : list (Z * list scalar)) : StronglySorted key_le (argsort rs).
Proof.
  unfold Dataset.argsort.
  eapply (StronglySorted_fmap fst rank_le key_le).
  - intros x y. unfold rank_le, key_le. lia.
  - apply (StronglySorted_merge_sort _).
Qed.

(** Rows in ascending order with no date twice are in the order [argsort]
    gives. *)
Lemma argsort_ascending (rs : list (Z * list scalar)) :
  StronglySorted key_le rs → NoDup rs.*1 → argsort rs = rs.
Proof.
  intros Hs Hnd. apply (StronglySorted_unique_strong key_le).
  - intros x1 x2 H1 H2 H12 H21. unfold key_le in *.
    rewrite argsort_Permutation in H1.
    apply list_elem_of_lookup in H1 as [i Hi], H2 as [j Hj].
    assert (i = j) as ->.
    { eapply NoDup_lookup; [exact Hnd|..]; rewrite list_lookup_fmap.
      - by rewrite Hi.
      - rewrite Hj. simpl. f_equal. lia. }
    congruence.
  - apply argsort_sorted.
  - done.
  - apply argsort_Permutation.
Qed.

Lemma ascending_Permutation (keyed : list (option Z * list scalar)) :
  ascending keyed ≡ₚ timestamps keyed.
Proof.
  unfold Dataset.ascending. destruct (is_monotonic_increasing _); [done|].
  apply argsort_Permutation.
Qed.

Lemma ascending_sorted (keyed : list (option Z * list scalar)) :
  StronglySorted key_le (ascending keyed).
Proof.
  unfold Dataset.ascending. destruct (is_monotonic_increasing _) eqn:Hm.
  - by apply monotonic_inv in Hm as (_ & Hs & _).
  - apply argsort_sorted.
Qed.

Lemma ascending_NoDup (keyed : list (option Z * list scalar)) :
  StronglySorted key_le (timestamps keyed) → NoDup (timestamps keyed).*1 →
  ascending keyed = timestamps keyed.
Proof.
  intros Hs Hnd. unfold Dataset.ascending.
  destruct (is_monotonic_increasing _); [done|]. by apply argsort_ascending.
Qed.

(** The rows as [sort_index] leaves them: the rows that have a date, in
    ascending order, then the rows that have none. *)
Lemma sort_dates_form (keyed : list (option Z * list scalar)) :
  sort_dates keyed = (present <$> ascending keyed) ++ missing keyed.
Proof.
  unfold Dataset.sort_dates, Dataset.ascending.
  destruct (is_monotonic_increasing _) eqn:Hm; [|done].
  apply monotonic_inv in Hm as (Hk & _ & ->). by rewrite app_nil_r.
Qed.

Lemma sort_index_frame_form (f : DataFrame) (keyed : list (option Z * list scalar)) :
  date_index f = Returns keyed →
  sort_index_frame f =
    Returns {| columns := columns f; integer_columns := integer_columns f;
               rows := relabel <$> ((present <$> ascending keyed) ++ missing keyed) |}.
Proof.
  intros Hk. unfold Dataset.sort_index_frame. rewrite Hk. simpl.
  by rewrite sort_dates_form.
Qed.

(** **** The slices *)

Lemma elem_of_index_form (A : list (Z * list scalar))
    (N : list (option Z * list scalar)) (t : Z) :
  Forall is_missing N →
  Some t ∈ ((present <$> A) ++ N).*1 ↔ t ∈ A.*1.
Proof.
  intros HN. rewrite index_form, elem_of_app. split.
  - intros [Hin|Hin].
    + apply list_elem_of_fmap in Hin as (k & [= ->] & Hk). done.
    + apply missing_index in HN. rewrite Forall_forall in HN.
      by specialize (HN _ Hin).
  - intros Hin. left. by apply list_elem_of_fmap_2.
Qed.

Lemma filter_dated_at_most (A : list (Z * list scalar))
    (N : list (option Z * list scalar)) (t : Z) :
  Forall is_missing N →
  filter (dated_at_most t) (relabel <$> ((present <$> A) ++ N))
  = relabel <$> (present <$> filter (λ kr, kr.1 ≤ t) A).
Proof.
  intros HN. rewrite fmap_app, filter_app.
  rewrite (filter_none (dated_at_most t) (relabel <$> N)).
  2:{ apply Forall_fmap. eapply Forall_impl; [exact HN|].
      intros [d c] Hd. unfold is_missing in Hd. simpl in Hd. subst d. by intros ?. }
  rewrite app_nil_r. induction A as [|[k c] A IH]; [done|].
  rewrite !fmap_cons, !filter_cons.
  change (dated_at_most t (relabel (present (k, c)))) with (k ≤ t).
  simpl. destruct (decide (k ≤ t)); [|done].
  by rewrite !fmap_cons, IH.
Qed.

Lemma filter_dated_at_least (A : list (Z * list scalar))
    (N : list (option Z * list scalar)) (t : Z) :
  Forall is_missing N →
  filter (dated_at_least t) (relabel <$> ((present <$> A) ++ N))
  = relabel <$> (present <$> filter (λ kr, t ≤ kr.1) A).
Proof.
  intros HN. rewrite fmap_app, filter_app.
  rewrite (filter_none (dated_at_least t) (relabel <$> N)).
  2:{ apply Forall_fmap. eapply Forall_impl; [exact HN|].
      intros [d c] Hd. unfold is_missing in Hd. simpl in Hd. subst d. by intros ?. }
  rewrite app_nil_r. induction A as [|[k c] A IH]; [done|].
  rewrite !fmap_cons, !filter_cons.
  change (dated_at_least t (relabel (present (k, c)))) with (t ≤ k).
  simpl. destruct (decide (t ≤ k)); [|done].
  by rewrite !fmap_cons, IH.
Qed.

Lemma take_form (A : list (Z * list scalar)) (N : list (option Z * list scalar))
    (t : Z) :
  StronglySorted key_le A →
  take (searchsorted_right A.*1 t) (relabel <$> ((present <$> A) ++ N))
  = relabel <$> (present <$> filter (λ kr, kr.1 ≤ t) A).
Proof.
  intros Hs. rewrite <- fmap_take, take_app_le.
  2:{ rewrite length_fmap. unfold searchsorted_right.
      rewrite <- (length_fmap fst A). apply length_filter. }
  by rewrite <- fmap_take, take_searchsorted_right.
Qed.

Lemma drop_form (A : list (Z * list scalar)) (N : list (option Z * list scalar))
    (t : Z) :
  StronglySorted key_le A →
  drop (searchsorted_left A.*1 t) (relabel <$> ((present <$> A) ++ N))
  = relabel <$> ((present <$> filter (λ kr, t ≤ kr.1) A) ++ N).
Proof.
  intros Hs. rewrite <- fmap_drop, drop_app_le.
  2:{ rewrite length_fmap. unfold searchsorted_left.
      rewrite <- (length_fmap fst A). apply length_filter. }
  by rewrite <- fmap_drop, drop_searchsorted_left.
Qed.

(** [.loc[:bound]] on the rows that [sort_index] has left. *)
Lemma loc_to_frame_form (bound : scalar) (cols : list colname) (ic : bool)
    (A : list (Z * list scalar)) (N : list (option Z * list scalar)) :
  StronglySorted key_le A → Forall is_missing N →
  loc_to_frame bound
    {| columns := cols; integer_columns := ic;
       rows := relabel <$> ((present <$> A) ++ N) |}
  = (rs ← kept_to (Some bound) (A, N);
     Returns {| columns := cols; integer_columns := ic;
                rows := relabel <$> ((present <$> rs.1) ++ rs.2) |}).
Proof.
  intros Hs HN. unfold Dataset.loc_to_frame, Dataset.kept_to.
  rewrite date_index_relabel. cbn [mbind outcome_bind columns integer_columns rows fst snd].
  destruct (cast_slice_bound true bound) as [d|x]; [|done].
  cbn [mbind outcome_bind].
  destruct (decide (N = [])) as [->|Hne].
  - rewrite app_nil_r, (monotonic_present _ Hs), timestamps_present.
    rewrite (bool_decide_eq_true_2 ([] = [])) by done.
    rewrite andb_false_r. cbn [negb andb mbind outcome_bind fst snd].
    destruct d as [t|]; cbn [searchsorted mbind outcome_bind fst snd].
    + rewrite <- (app_nil_r (present <$> A)) at 1. by rewrite take_form, app_nil_r.
    + rewrite app_nil_r, firstn_all2; [done|]. by rewrite !length_fmap.
  - rewrite (monotonic_missing _ _ Hne HN).
    rewrite (bool_decide_eq_false_2 (N = [])) by done. cbn [negb andb].
    destruct (is_SStr bound); cbn [andb].
    + destruct d as [t|]; [|done].
      rewrite (bool_decide_ext _ _ (elem_of_index_form A N t HN)).
      case_bool_decide; cbn [negb mbind outcome_bind fst snd]; [|done].
      by rewrite filter_dated_at_most, app_nil_r.
    + destruct d as [t|].
      * rewrite (get_loc_bound_date _ _ _ _ Hs HN).
        case_bool_decide; cbn [negb mbind outcome_bind fst snd searchsorted]; [|done].
        by rewrite take_form, app_nil_r.
      * rewrite (get_loc_bound_missing _ _ _ Hne HN).
        cbn [mbind outcome_bind fst snd].
        rewrite firstn_all2; [done|]. by rewrite !length_fmap.
Qed.

(** [.loc[bound:]] on the rows that [sort_index] has left. *)
Lemma loc_from_frame_form (bound : scalar) (cols : list colname) (ic : bool)
    (A : list (Z * list scalar)) (N : list (option Z * list scalar)) :
  StronglySorted key_le A → Forall is_missing N →
  loc_from_frame bound
    {| columns := cols; integer_columns := ic;
       rows := relabel <$> ((present <$> A) ++ N) |}
  = (rs ← kept_from (Some bound) (A, N);
     Returns {| columns := cols; integer_columns := ic;
                rows := relabel <$> ((present <$> rs.1) ++ rs.2) |}).
Proof.
  intros Hs HN. unfold Dataset.loc_from_frame, Dataset.kept_from.
  rewrite date_index_relabel. cbn [mbind outcome_bind columns integer_columns rows fst snd].
  destruct (cast_slice_bound false bound) as [d|x]; [|done].
  cbn [mbind outcome_bind].
  destruct (decide (N = [])) as [->|Hne].
  - rewrite app_nil_r, (monotonic_present _ Hs), timestamps_present.
    rewrite (bool_decide_eq_true_2 ([] = [])) by done.
    rewrite andb_false_r. cbn [negb andb mbind outcome_bind fst snd].
    destruct d as [t|]; cbn [searchsorted mbind outcome_bind fst snd].
    + rewrite <- (app_nil_r (present <$> A)) at 1. by rewrite drop_form.
    + rewrite drop_ge; [done|]. by rewrite !length_fmap.
  - rewrite (monotonic_missing _ _ Hne HN).
    rewrite (bool_decide_eq_false_2 (N = [])) by done. cbn [negb andb].
    destruct (is_SStr bound); cbn [andb].
    + destruct d as [t|]; [|done].
      rewrite (bool_decide_ext _ _ (elem_of_index_form A N t HN)).
      case_bool_decide; cbn [negb mbind outcome_bind fst snd]; [|done].
      by rewrite filter_dated_at_least, app_nil_r.
    + destruct d as [t|].
      * rewrite (get_loc_bound_date _ _ _ _ Hs HN).
        case_bool_decide; cbn [negb mbind outcome_bind fst snd searchsorted]; [|done].
        by rewrite drop_form.
      * rewrite (get_loc_bound_missing _ _ _ Hne HN).
        cbn [mbind outcome_bind fst snd].
        rewrite fmap_app, drop_app_length'; [done|]. by rewrite !length_fmap.
Qed.

(** What the slices keep is in the same order, and of the same form. *)
Lemma kept_to_inv (bound : option scalar) (A A' : list (Z * list scalar))
    (N N' : list (option Z * list scalar)) :
  kept_to bound (A, N) = Returns (A', N') →
  A' `sublist_of` A ∧ (N' = N ∨ N' = []).
Proof.
  unfold Dataset.kept_to. destruct bound as [b|]; [|by intros [= <- <-]; auto].
  destruct (cast_slice_bound true b) as [[t|]|x]; cbn [mbind outcome_bind fst snd]; [| |done].
  - destruct (_ && _); [done|]. intros [= <- <-]. split; [apply sublist_filter | by right].
  - destruct (_ && _); [done|]. intros [= <- <-]. auto.
Qed.

Lemma kept_from_inv (bound : option scalar) (A A' : list (Z * list scalar))
    (N N' : list (option Z * list scalar)) :
  kept_from bound (A, N) = Returns (A', N') →
  A' `sublist_of` A ∧ (N' = N ∨ N' = []).
Proof.
  unfold Dataset.kept_from. destruct bound as [b|]; [|by intros [= <- <-]; auto].
  destruct (cast_slice_bound false b) as [[t|]|x]; cbn [mbind outcome_bind fst snd]; [| |done].
  - case_bool_decide.
    + intros [= <- <-]. split; [apply sublist_filter | by right].
    + destruct (negb _); [done|]. intros [= <- <-].
      split; [apply sublist_filter|]. destruct (is_SStr b); auto.
  - destruct (_ && _); [done|]. intros [= <- <-]. split; [apply sublist_nil_l | by left].
Qed.

Lemma sublist_sorted (A A' : list (Z * list scalar)) :
  A' `sublist_of` A → StronglySorted key_le A → StronglySorted key_le A'.
Proof.
  induction 1 as [|x l1 l2 Hsub IH|x l1 l2 Hsub IH]; intros Hs; [done|..].
  - apply StronglySorted_inv in Hs as [Hs Hx]. constructor; [by apply IH|].
    rewrite Forall_forall in Hx |- *. intros y Hy. apply Hx.
    by eapply elem_of_sublist.
  - apply StronglySorted_inv in Hs as [Hs _]. by apply IH.
Qed.

Lemma kept_missing (N N' : list (option Z * list scalar)) :
  N' = N ∨ N' = [] → Forall is_missing N → Forall is_missing N'.
Proof. by intros [-> | ->]. Qed.

(** The table the call computes: the dated rows are sorted, the end slice is
    taken, then the start slice. *)
Lemma organized_eq (f fd : DataFrame) (keyed : list (option Z * list scalar))
    (s e : option scalar) :
  dated f = Returns fd → date_index fd = Returns keyed →
  organized f s e =
    (r1 ← kept_to e (ascending keyed, missing keyed);
     r2 ← kept_from s r1;
     Returns {| columns := columns fd; integer_columns := integer_columns fd;
                rows := relabel <$> ((present <$> r2.1) ++ r2.2) |}).
Proof.
  intros Hd Hk. unfold Dataset.organized. rewrite Hd. cbn [mbind outcome_bind].
  rewrite (sort_index_frame_form _ _ Hk). cbn [mbind outcome_bind].
  pose proof (ascending_sorted keyed) as Hs.
  pose proof (missing_are_missing keyed) as HN.
  assert (Hfrom : ∀ A N, StronglySorted key_le A → Forall is_missing N →
            match s with
            | Some s0 => loc_from_frame s0
                {| columns := columns fd; integer_columns := integer_columns fd;
                   rows := relabel <$> ((present <$> A) ++ N) |}
            | None => Returns
                {| columns := columns fd; integer_columns := integer_columns fd;
                   rows := relabel <$> ((present <$> A) ++ N) |}
            end
            = (r2 ← kept_from s (A, N);
               Returns {| columns := columns fd; integer_columns := integer_columns fd;
                          rows := relabel <$> ((present <$> r2.1) ++ r2.2) |})).
  { intros A N HA HN'. destruct s as [s0|]; [by apply loc_from_frame_form | done]. }
  destruct e as [e0|].
  - rewrite (loc_to_frame_form _ _ _ _ _ Hs HN).
    destruct (kept_to (Some e0) _) as [[A1 N1]|x] eqn:Hto; cbn [mbind outcome_bind fst snd]; [|done].
    apply kept_to_inv in Hto as [Hsub HN1].
    apply Hfrom; [by eapply sublist_sorted | by eapply kept_missing].
  - cbn [Dataset.kept_to mbind outcome_bind]. by apply Hfrom.
Qed.

Lemma organized_raises (f : DataFrame) (s e : option scalar) x :
  dated f = Raises x → organized f s e = Raises x.
Proof. intros Hd. unfold Dataset.organized. by rewrite Hd. Qed.

(** What a returned table is made of. *)
Lemma organized_inv (f f' : DataFrame) (s e : option scalar) :
  organized f s e = Returns f' →
  ∃ fd keyed A1 N1 A' N',
    dated f = Returns fd ∧ date_index fd = Returns keyed ∧
    kept_to e (ascending keyed, missing keyed) = Returns (A1, N1) ∧
    kept_from s (A1, N1) = Returns (A', N') ∧
    StronglySorted key_le A' ∧ Forall is_missing N' ∧
    A' `sublist_of` ascending keyed ∧ (N' = missing keyed ∨ N' = []) ∧
    columns f' = columns fd ∧ integer_columns f' = integer_columns fd ∧
    rows f' = relabel <$> ((present <$> A') ++ N').
Proof.
  intros Ho. destruct (dated f) as [fd|x] eqn:Hd.
  2:{ by rewrite (organized_raises _ _ _ _ Hd) in Ho. }
  destruct (dated_date_index _ _ Hd) as [keyed Hk].
  rewrite (organized_eq _ _ _ _ _ Hd Hk) in Ho.
  destruct (kept_to e _) as [[A1 N1]|x] eqn:Hto; cbn [mbind outcome_bind] in Ho; [|done].
  destruct (kept_from s _) as [[A' N']|x] eqn:Hfrom; cbn [mbind outcome_bind] in Ho; [|done].
  injection Ho as <-.
  pose proof (ascending_sorted keyed) as Hs.
  pose proof (missing_are_missing keyed) as HN.
  destruct (kept_to_inv _ _ _ _ _ Hto) as [Hsub1 HN1].
  destruct (kept_from_inv _ _ _ _ _ Hfrom) as [Hsub2 HN2].
  exists fd, keyed, A1, N1, A', N'. do 4 (split; [done|]).
  split. { eapply sublist_sorted; [|exact Hs]. by etrans. }
  split. { eapply kept_missing; [exact HN2|]. by eapply kept_missing. }
  split; [by etrans|]. split; [|done].
  destruct HN2 as [-> | ->]; [done | by right].
Qed.

(** With bounds that are timestamps or absent: the rows that have a date are
    kept when it is within the bounds, the rows that have none when there is
    no end bound; the call fails when a bound meets rows without a date and
    is no date of the index. *)
Lemma kept_timestamps (s e : option Z) (A A1 A' : list (Z * list scalar))
    (N N1 N' : list (option Z * list scalar)) :
  Dataset.kept_to parse_slice_bound (STs <$> e) (A, N) = Returns (A1, N1) →
  Dataset.kept_from parse_slice_bound (STs <$> s) (A1, N1) = Returns (A', N') →
  A' = filter (λ kr, not_before s kr.1) (filter (λ kr, not_after e kr.1) A) ∧
  N' = match e with Some _ => [] | None => N end.
Proof.
  unfold Dataset.kept_to, Dataset.kept_from.
  destruct e as [e|]; cbn [fmap option_fmap option_map Dataset.cast_slice_bound mbind outcome_bind fst snd].
  - destruct (_ && _); [done|]. intros [= <- <-].
    destruct s as [s|]; cbn [fmap option_fmap option_map Dataset.cast_slice_bound mbind outcome_bind fst snd].
    + rewrite (bool_decide_eq_true_2 ([] = [])) by done. by intros [= <- <-].
    + intros [= <- <-]. split; [|done].
      symmetry. apply filter_all. by apply Forall_true.
  - intros [= <- <-]. rewrite (filter_all (λ kr, not_after None kr.1)) by (by apply Forall_true).
    destruct s as [s|]; cbn [fmap option_fmap option_map Dataset.cast_slice_bound mbind outcome_bind fst snd].
    + case_bool_decide as HN.
      * intros [= <- <-]. by subst.
      * destruct (negb _); [done|]. by intros [= <- <-].
    + intros [= <- <-]. split; [|done].
      symmetry. apply filter_all. by apply Forall_true.
Qed.

(** With such bounds the slices return on rows that all have a date. *)
Lemma kept_timestamps_returns (s e : option Z) (A : list (Z * list scalar)) :
  ∃ A',
    (r1 ← Dataset.kept_to parse_slice_bound (STs <$> e) (A, []);
     Dataset.kept_from parse_slice_bound (STs <$> s) r1) = Returns (A', []).
Proof.
  unfold Dataset.kept_to, Dataset.kept_from.
  destruct e as [e|], s as [s|];
    cbn [fmap option_fmap option_map Dataset.cast_slice_bound mbind outcome_bind fst snd];
    rewrite ?(bool_decide_eq_true_2 ([] = [])) by done;
    cbn [negb andb mbind outcome_bind fst snd];
    rewrite ?(bool_decide_eq_true_2 ([] = [])) by done; eauto.
Qed.

(** The call returns whenever the dates convert, none is missing, and the
    bounds are timestamps. *)
Lemma organized_returns (f fd : DataFrame) (keyed : list (Z * list scalar))
    (s e : option Z) :
  dated f = Returns fd → datetime_index fd = Returns keyed →
  ∃ f', organized f (STs <$> s) (STs <$> e) = Returns f'.
Proof.
  intros Hd Hk%datetime_date_index.
  rewrite (organized_eq _ _ _ _ _ Hd Hk), missing_present.
  destruct (kept_timestamps_returns s e (ascending (present <$> keyed))) as [A' HA'].
  destruct (Dataset.kept_to _ _ _) as [r1|x]; cbn [mbind outcome_bind] in *; [|done].
  rewrite HA'. cbn [mbind outcome_bind]. eauto.
Qed.
End Organized.
(** *** The call on the store *)

Section Store.
Import Dataset.
Variable parse_datetime : list scalar → scalar → option (option Z).
Variable parse_slice_bound : bool → string → option (option Z).
Variable tie_rank : list Z → nat → nat.

#[local] Abbreviation to_datetime := (to_datetime parse_datetime).
#[local] Abbreviation organized := (organized parse_datetime parse_slice_bound tie_rank).
#[local] Abbreviation organized_obj := (organized_obj parse_datetime parse_slice_bound tie_rank).
#[local] Abbreviation reindexed := (reindexed parse_datetime).
#[local] Abbreviation argument_after := (argument_after parse_datetime).
#[local] Abbreviation sort_index := (sort_index tie_rank).
#[local] Abbreviation sort_index_frame := (sort_index_frame tie_rank).
#[local] Abbreviation loc_to := (loc_to parse_slice_bound).
#[local] Abbreviation loc_from := (loc_from parse_slice_bound).
#[local] Abbreviation loc_to_frame := (loc_to_frame parse_slice_bound).
#[local] Abbreviation loc_from_frame := (loc_from_frame parse_slice_bound).
#[local] Abbreviation convert_sort_slice :=
  (convert_sort_slice parse_datetime parse_slice_bound tie_rank).
#[local] Abbreviation organize_time_series :=
  (organize_time_series parse_datetime parse_slice_bound tie_rank).

Lemma deref_run (h : heap) (l : loc) (o : obj) :
  h !! l = Some o → deref l h = (Returns o, h).
Proof. intros Hl. unfold deref. by rewrite Hl. Qed.

Lemma deref_dangling (h : heap) (l : loc) :
  h !! l = None → deref l h = (Raises Malformed, h).
Proof. intros Hl. unfold deref. by rewrite Hl. Qed.

Lemma as_frame_run (h : heap) (l : loc) (f : DataFrame) :
  h !! l = Some (OFrame f) → as_frame (PRef l) h = (Returns (l, f), h).
Proof. intros Hl. unfold as_frame. by erewrite bind_run; [|by apply deref_run]. Qed.

Lemma new_frame_run (r : outcome DataFrame) (h : heap) :
  new_frame r h =
    match r with
    | Returns f => (Returns (PRef (length h)), h ++ [OFrame f])
    | Raises x => (Raises x, h)
    end.
Proof. by destruct r. Qed.

(** A method of the frame at [l] that returns a new frame. *)
Lemma method_run (F : DataFrame → outcome DataFrame) (h : heap) (l : loc)
    (f : DataFrame) :
  h !! l = Some (OFrame f) →
  (lf ← as_frame (PRef l); new_frame (F lf.2)) h = new_frame (F f) h.
Proof. intros Hl. by erewrite bind_run; [|by apply as_frame_run]. Qed.

Lemma lookup_alloc (h : heap) (o : obj) : (h ++ [o]) !! length h = Some o.
Proof. by rewrite lookup_app_r, Nat.sub_diag by lia. Qed.

Lemma insert_alloc (h : heap) (o o' : obj) :
  <[length h := o']> (h ++ [o]) = h ++ [o'].
Proof. induction h as [|x h IH]; simpl; [done|]. by rewrite IH. Qed.

(** A slice with an optional bound: the frame itself, or a new frame. *)
Lemma slice_run (op : pyval → scalar → Py heap pyval)
    (F : scalar → DataFrame → outcome DataFrame) (bound : option scalar)
    (h : heap) (l : loc) (f : DataFrame) :
  h !! l = Some (OFrame f) →
  (∀ b, op (PRef l) b h = new_frame (F b f) h) →
  ∃ r h',
    (match bound with Some b => op (PRef l) b | None => mret (PRef l) end) h = (r, h') ∧
    h `prefix_of` h' ∧
    match (match bound with Some b => F b f | None => Returns f end) with
    | Returns f' => ∃ l', r = Returns (PRef l') ∧ (l' = l ∨ length h ≤ l')%nat ∧
                          h' !! l' = Some (OFrame f')
    | Raises x => r = Raises x
    end.
Proof.
  intros Hl Hop. destruct bound as [b|].
  - rewrite Hop, new_frame_run. destruct (F b f) as [f'|x].
    + eexists _, _. split; [done|]. split; [by apply prefix_app_r|].
      exists (length h). split; [done|]. split; [by right|]. apply lookup_alloc.
    + by eexists _, _.
  - eexists _, _. split; [done|]. split; [done|]. exists l. eauto.
Qed.

Lemma reindexed_raises (f : DataFrame) x :
  to_datetime (rows f).*1 = Raises x → reindexed f = f.
Proof. intros H. unfold Dataset.reindexed. by rewrite H. Qed.

Lemma reindexed_returns (f fd : DataFrame) idx :
  to_datetime (rows f).*1 = Returns idx → with_index f idx = Returns fd →
  reindexed f = fd.
Proof. intros H Hw. unfold Dataset.reindexed. rewrite H. simpl. by rewrite Hw. Qed.

Lemma with_index_returns (f : DataFrame) idx :
  to_datetime (rows f).*1 = Returns idx → ∃ fd, with_index f idx = Returns fd.
Proof.
  intros H%to_datetime_length. unfold with_index.
  rewrite length_fmap in H. rewrite bool_decide_eq_true_2 by done. eauto.
Qed.

(** The statements from the conversion of the index on, at the frame they
    act on: that frame gets the converted index, every other object of the
    store stays, and the result is a new frame. *)
Lemma convert_sort_slice_run (h : heap) (l : loc) (f : DataFrame)
    (s e : option scalar) :
  h !! l = Some (OFrame f) →
  ∃ r h', convert_sort_slice (PRef l) s e h = (r, h') ∧
    (∀ l0 o0, h !! l0 = Some o0 →
       h' !! l0 = Some (if decide (l0 = l) then OFrame (reindexed f) else o0)) ∧
    match (idx ← to_datetime (rows f).*1;
           fd ← with_index f idx;
           f2 ← sort_index_frame fd;
           f3 ← match e with
                | Some e => loc_to_frame e f2
                | None => Returns f2
                end;
           match s with
           | Some s => loc_from_frame s f3
           | None => Returns f3
           end) with
    | Returns f' => ∃ l', r = Returns (PRef l') ∧ (length h ≤ l')%nat ∧
                          h' !! l' = Some (OFrame f')
    | Raises x => r = Raises x
    end.
Proof.
  intros Hl.
  assert (Hlt : (l < length h)%nat) by (by eapply lookup_lt_Some).
  assert (Hkeep : ∀ l0 o0, h !! l0 = Some o0 →
            h !! l0 = Some (if decide (l0 = l) then OFrame f else o0)).
  { intros l0 o0 H0. destruct (decide (l0 = l)) as [->|]; congruence. }
  unfold Dataset.convert_sort_slice.
  assert (Hidx : (lf ← as_frame (PRef l); lift (to_datetime (rows lf.2).*1)) h
                 = (to_datetime (rows f).*1, h))
    by (by erewrite bind_run; [|by apply as_frame_run]).
  destruct (to_datetime (rows f).*1) as [idx|x] eqn:Hdt; simpl.
  2:{ erewrite bind_raise by done. eexists _, _. split; [done|].
      rewrite (reindexed_raises _ _ Hdt). eauto. }
  erewrite bind_run by done.
  destruct (with_index_returns _ _ Hdt) as [fd Hw]. rewrite Hw. simpl.
  rewrite (reindexed_returns _ _ _ Hdt Hw).
  set (h1 := <[l := OFrame fd]> h).
  assert (Hassign : assign_index (PRef l) idx h = (Returns (), h1)).
  { unfold assign_index. erewrite bind_run by (by apply as_frame_run).
    simpl. by rewrite Hw. }
  erewrite bind_run by done.
  assert (Hl1 : h1 !! l = Some (OFrame fd)) by (by apply list_lookup_insert_eq).
  assert (Hlen1 : length h1 = length h) by apply length_insert.
  assert (Hkeep1 : ∀ l0 o0, h !! l0 = Some o0 →
            h1 !! l0 = Some (if decide (l0 = l) then OFrame fd else o0)).
  { intros l0 o0 H0. destruct (decide (l0 = l)) as [->|Hne]; [done|].
    unfold h1. by rewrite list_lookup_insert_ne. }
  assert (Hsort : sort_index (PRef l) h1 = new_frame (sort_index_frame fd) h1)
    by (unfold sort_index; by apply method_run).
  rewrite new_frame_run in Hsort.
  destruct (sort_index_frame fd) as [f2|x]; simpl.
  2:{ erewrite bind_raise by done. eexists _, _. split; [done|]. eauto. }
  erewrite bind_run by done.
  set (h2 := h1 ++ [OFrame f2]).
  assert (Hl2 : h2 !! length h1 = Some (OFrame f2)) by apply lookup_alloc.
  destruct (slice_run loc_to loc_to_frame e h2 (length h1) f2 Hl2)
    as (r3 & h3 & Hrun3 & Hpre3 & Hres3).
  { intros b. unfold Dataset.loc_to. apply (method_run (loc_to_frame b)), Hl2. }
  assert (Hkeep3 : ∀ l0 o0, h !! l0 = Some o0 →
            h3 !! l0 = Some (if decide (l0 = l) then OFrame fd else o0)).
  { intros l0 o0 H0. eapply prefix_lookup_Some; [|exact Hpre3].
    unfold h2. rewrite lookup_app_l by (apply lookup_lt_Some in H0; lia). eauto. }
  destruct (match e with Some e0 => loc_to_frame e0 f2 | None => Returns f2 end)
    as [f3|x]; simpl.
  2:{ subst r3. erewrite bind_raise by done. eexists _, _. split; [done|]. eauto. }
  destruct Hres3 as (l3 & -> & Hfresh3 & Hl3).
  erewrite bind_run by done.
  destruct (slice_run loc_from loc_from_frame s h3 l3 f3 Hl3)
    as (r4 & h4 & Hrun4 & Hpre4 & Hres4).
  { intros b. unfold Dataset.loc_from. apply (method_run (loc_from_frame b)), Hl3. }
  assert (Hlen2 : length h2 = S (length h1))
    by (unfold h2; rewrite length_app; simpl; lia).
  assert (Hlen3 : (length h1 < length h3)%nat)
    by (apply prefix_length in Hpre3; lia).
  assert (Hkeep4 : ∀ l0 o0, h !! l0 = Some o0 →
            h4 !! l0 = Some (if decide (l0 = l) then OFrame fd else o0)).
  { intros l0 o0 H0. eapply prefix_lookup_Some; [|exact Hpre4]. eauto. }
  destruct (match s with Some s0 => loc_from_frame s0 f3 | None => Returns f3 end)
    as [f4|x]; simpl.
  2:{ subst r4. erewrite bind_raise by done. eexists _, _. split; [done|]. eauto. }
  destruct Hres4 as (l4 & -> & Hfresh4 & Hl4).
  erewrite bind_run by done.
  eexists _, _. split; [done|]. split; [done|].
  exists l4. split; [done|]. split; [|done]. lia.
Qed.

Lemma organized_steps (f f1 : DataFrame) (cols : list (option string))
    (s e : option scalar) :
  columns_str_lower f = Returns cols →
  (if bool_decide (Some "date" ∈ cols)
   then set_index_frame "date" f else Returns f) = Returns f1 →
  organized f s e =
    (idx ← to_datetime (rows f1).*1;
     fd ← with_index f1 idx;
     f2 ← sort_index_frame fd;
     f3 ← match e with
          | Some e => loc_to_frame e f2
          | None => Returns f2
          end;
     match s with
     | Some s => loc_from_frame s f3
     | None => Returns f3
     end).
Proof.
  intros Hc Hf1. unfold Dataset.organized, dated. rewrite Hc. simpl. rewrite Hf1. simpl.
  destruct (to_datetime (rows f1).*1) as [idx|x]; simpl; [|done].
  by destruct (with_index f1 idx).
Qed.

(** The call from the test on the columns on, at a frame. *)
Lemma organize_frame_run (h : heap) (l : loc) (f : DataFrame) (s e : option scalar) :
  h !! l = Some (OFrame f) →
  ∃ r h',
    (cols ← (lf ← as_frame (PRef l); lift (columns_str_lower lf.2));
     ts ← (if bool_decide (Some "date" ∈ cols)
           then set_index (PRef l) "date" else mret (PRef l));
     convert_sort_slice ts s e) h = (r, h') ∧
    (∀ l0 o0, h !! l0 = Some o0 →
       h' !! l0 = Some (if decide (l0 = l) then argument_after o0 else o0)) ∧
    match organized f s e with
    | Returns f' => ∃ l', r = Returns (PRef l') ∧ (length h ≤ l')%nat ∧
                          h' !! l' = Some (OFrame f')
    | Raises x => r = Raises x
    end.
Proof.
  intros Hl.
  assert (Hsame : ∀ l0 o0, h !! l0 = Some o0 →
            (∀ x, x = OFrame f → argument_after x = x) →
            h !! l0 = Some (if decide (l0 = l) then argument_after o0 else o0)).
  { intros l0 o0 H0 Harg. destruct (decide (l0 = l)) as [->|]; [|done].
    rewrite Harg; congruence. }
  assert (Hcols : (lf ← as_frame (PRef l); lift (columns_str_lower lf.2)) h
                  = (columns_str_lower f, h))
    by (by erewrite bind_run; [|by apply as_frame_run]).
  destruct (columns_str_lower f) as [cols|x] eqn:Hc.
  2:{ erewrite bind_raise by done. eexists _, _. split; [done|]. split.
      - intros l0 o0 H0. apply Hsame; [done|]. intros ? ->. simpl. by rewrite Hc.
      - unfold Dataset.organized, dated. by rewrite Hc. }
  erewrite bind_run by done.
  case_bool_decide as Hdate.
  - assert (Hset : set_index (PRef l) "date" h = new_frame (set_index_frame "date" f) h)
      by (unfold set_index; by apply method_run).
    rewrite new_frame_run in Hset.
    assert (Harg : ∀ x, x = OFrame f → argument_after x = x).
    { intros ? ->. simpl. rewrite Hc. by rewrite bool_decide_eq_true_2. }
    destruct (set_index_frame "date" f) as [f1|x] eqn:Hf1.
    2:{ erewrite bind_raise by done. eexists _, _. split; [done|]. split; [by auto|].
        unfold Dataset.organized, dated. rewrite Hc. simpl.
        rewrite bool_decide_eq_true_2 by done. by rewrite Hf1. }
    erewrite bind_run by done.
    destruct (convert_sort_slice_run (h ++ [OFrame f1]) (length h) f1 s e)
      as (r & h' & Hrun & Hkeep & Hres); [apply lookup_alloc|].
    exists r, h'. split; [done|]. split.
    + intros l0 o0 H0.
      assert (l0 < length h)%nat by (by eapply lookup_lt_Some).
      rewrite (Hkeep l0 o0) by (by rewrite lookup_app_l).
      rewrite decide_False by lia.
      destruct (decide (l0 = l)) as [->|]; [|done]. rewrite Harg; congruence.
    + rewrite (organized_steps f f1 cols) by (by rewrite ?bool_decide_eq_true_2).
      match type of Hres with
      | match ?X with _ => _ end => destruct X as [f'|x]; [|done]
      end.
      destruct Hres as (l' & -> & Hge & Hl'). exists l'.
      rewrite length_app in Hge. simpl in Hge. split; [done|]. split; [lia|done].
  - erewrite bind_run by done.
    destruct (convert_sort_slice_run h l f s e Hl) as (r & h' & Hrun & Hkeep & Hres).
    exists r, h'. split; [done|]. split.
    + intros l0 o0 H0. rewrite (Hkeep l0 o0 H0).
      destruct (decide (l0 = l)) as [->|]; [|done].
      assert (o0 = OFrame f) as -> by congruence. simpl. rewrite Hc.
      by rewrite bool_decide_eq_false_2.
    + by rewrite (organized_steps f f cols) by (by rewrite ?bool_decide_eq_false_2).
Qed.

Lemma organize_time_series_body (ts : pyval) (s e : option scalar) (b : bool) :
  ts ≠ PNone →
  organize_time_series ts s e b =
    (series ← is_Series ts;
     ts ← (if series : bool then to_frame ts else mret ts);
     cols ← (lf ← as_frame ts; lift (columns_str_lower lf.2));
     ts ← (if bool_decide (Some "date" ∈ cols)
           then set_index ts "date" else mret ts);
     convert_sort_slice ts s e).
Proof. by destruct ts. Qed.

(** The call on an object of the store: its outcome is that of [organized],
    its result a new frame; the argument becomes [argument_after], every
    other object of the store stays. *)
Lemma organize_time_series_run (h : heap) (l : loc) (o : obj)
    (s e : option scalar) (b : bool) :
  h !! l = Some o →
  ∃ r h', organize_time_series (PRef l) s e b h = (r, h') ∧
    (∀ l0 o0, h !! l0 = Some o0 →
       h' !! l0 = Some (if decide (l0 = l) then argument_after o0 else o0)) ∧
    match organized_obj o s e with
    | Returns f' => ∃ l', r = Returns (PRef l') ∧ (length h ≤ l')%nat ∧
                          h' !! l' = Some (OFrame f')
    | Raises x => r = Raises x
    end.
Proof.
  intros Hl. rewrite organize_time_series_body by done.
  assert (Hser : is_Series (PRef l) h
                 = (Returns (match o with OSeries _ => true | _ => false end), h)).
  { unfold is_Series. by erewrite bind_run; [|by apply deref_run]. }
  erewrite bind_run by done.
  destruct o as [f|sr|d].
  - erewrite bind_run by done. by apply organize_frame_run.
  - assert (Hto : to_frame (PRef l) h
                  = (Returns (PRef (length h)), h ++ [OFrame (frame_of_series sr)])).
    { unfold to_frame. by erewrite bind_run; [|by apply deref_run]. }
    erewrite bind_run by done.
    destruct (organize_frame_run (h ++ [OFrame (frame_of_series sr)]) (length h)
                (frame_of_series sr) s e) as (r & h' & Hrun & Hkeep & Hres);
      [apply lookup_alloc|].
    exists r, h'. split; [done|]. split.
    + intros l0 o0 H0.
      assert (l0 < length h)%nat by (by eapply lookup_lt_Some).
      rewrite (Hkeep l0 o0) by (by rewrite lookup_app_l).
      rewrite decide_False by lia.
      destruct (decide (l0 = l)) as [->|]; [|done].
      by assert (o0 = OSeries sr) as -> by congruence.
    + unfold Dataset.organized_obj. simpl.
      destruct (organized _ s e) as [f'|x]; [|done].
      destruct Hres as (l' & -> & Hge & Hl'). exists l'.
      rewrite length_app in Hge. simpl in Hge. split; [done|]. split; [lia|done].
  - erewrite bind_run by done.
    assert (Hfr : (lf ← as_frame (PRef l); lift (columns_str_lower lf.2)) h
                  = (Raises AttributeError, h)).
    { erewrite bind_raise; [done|]. unfold as_frame.
      by erewrite bind_run; [|by apply deref_run]. }
    erewrite bind_raise by done.
    eexists _, _. split; [done|]. split; [|done].
    intros l0 o0 H0. destruct (decide (l0 = l)) as [->|]; [|done].
    by assert (o0 = OInstance d) as -> by congruence.
Qed.
End Store.
(** *** What a call that returns has done *)

Lemma bind_raises {St A B} (m : Py St A) (k : A → Py St B) s e s' :
  (m ≫= k) s = (Raises e, s') →
  m s = (Raises e, s') ∨ ∃ a s1, m s = (Returns a, s1) ∧ k a s1 = (Raises e, s').
Proof.
  unfold mbind, Py_bind. destruct (m s) as [[a|x] s1]; [by eauto|].
  intros [= -> ->]. by left.
Qed.

Section Returned.
Import Dataset.
Variable parse_datetime : list scalar → scalar → option (option Z).
Variable parse_slice_bound : bool → string → option (option Z).
Variable tie_rank : list Z → nat → nat.

#[local] Abbreviation dated := (dated parse_datetime).
#[local] Abbreviation organized := (organized parse_datetime parse_slice_bound tie_rank).
#[local] Abbreviation organized_obj := (organized_obj parse_datetime parse_slice_bound tie_rank).
#[local] Abbreviation argument_after := (argument_after parse_datetime).
#[local] Abbreviation organize_time_series :=
  (organize_time_series parse_datetime parse_slice_bound tie_rank).

Lemma organize_scalar (x : scalar) (s e : option scalar) (b : bool) (h : heap) :
  organize_time_series (PScalar x) s e b h = (Raises AttributeError, h).
Proof. reflexivity. Qed.

Lemma organize_dangling (l : loc) (s e : option scalar) (b : bool) (h : heap) :
  h !! l = None →
  organize_time_series (PRef l) s e b h = (Raises Malformed, h).
Proof.
  intros Hl. rewrite organize_time_series_body by done.
  erewrite bind_raise; [done|]. unfold is_Series.
  by erewrite bind_raise; [|by apply deref_dangling].
Qed.

Lemma organize_returns_inv (ts : pyval) (s e : option scalar) (b : bool)
    (h h' : heap) (v : pyval) :
  ts ≠ PNone →
  organize_time_series ts s e b h = (Returns v, h') →
  ∃ l o f f' l',
    ts = PRef l ∧ h !! l = Some o ∧ table_of o = Some f ∧
    organized f s e = Returns f' ∧
    v = PRef l' ∧ (length h ≤ l')%nat ∧ h' !! l' = Some (OFrame f').
Proof.
  intros Hts Hrun. destruct ts as [|l|x]; [done| |by rewrite organize_scalar in Hrun].
  destruct (h !! l) as [o|] eqn:Hl; [|by rewrite organize_dangling in Hrun].
  destruct (organize_time_series_run parse_datetime parse_slice_bound tie_rank h l o s e b Hl)
    as (r & h1 & Hrun1 & _ & Hres).
  rewrite Hrun in Hrun1. injection Hrun1 as <- <-.
  unfold Dataset.organized_obj in Hres.
  destruct (table_of o) as [f|] eqn:Ho; [|done].
  destruct (organized f s e) as [f'|x] eqn:Hf; [|done].
  destruct Hres as (l' & [= ->] & Hge & Hl'). by exists l, o, f, f', l'.
Qed.

(** The call returns on a table whose dates convert, none of them missing,
    with bounds that are timestamps. *)
Lemma organize_time_series_returns (l : loc) (o : obj) (f fd : DataFrame)
    (keyed : list (Z * list scalar)) (s e : option Z) (b : bool) (h : heap) :
  h !! l = Some o → table_of o = Some f → dated f = Returns fd →
  datetime_index fd = Returns keyed →
  ∃ l' h', organize_time_series (PRef l) (STs <$> s) (STs <$> e) b h
             = (Returns (PRef l'), h').
Proof.
  intros Hl Ho Hd Hk.
  destruct (organize_time_series_run parse_datetime parse_slice_bound tie_rank h l o
              (STs <$> s) (STs <$> e) b Hl) as (r & h' & Hrun & _ & Hres).
  unfold Dataset.organized_obj in Hres. rewrite Ho in Hres.
  destruct (organized_returns parse_datetime parse_slice_bound tie_rank f fd keyed s e
              Hd Hk) as [f' Hf].
  rewrite Hf in Hres. destruct Hres as (l' & -> & _). eauto.
Qed.

(** The store after the call, whatever its outcome: the argument is
    [argument_after], every other object is as it was. *)
Lemma organize_store (ts : pyval) (s e : option scalar) (b : bool)
    (h h' : heap) (r : outcome pyval) :
  organize_time_series ts s e b h = (r, h') →
  ∀ l0 o0, h !! l0 = Some o0 →
    (ts ≠ PRef l0 → h' !! l0 = Some o0) ∧
    (ts = PRef l0 → h' !! l0 = Some (argument_after o0)).
Proof.
  intros Hrun l0 o0 H0. destruct ts as [|l|x].
  - assert (h' = h) as -> by (destruct b; by injection Hrun). by split; [|done].
  - destruct (h !! l) as [o|] eqn:Hl.
    + destruct (organize_time_series_run parse_datetime parse_slice_bound tie_rank h l o s e b Hl)
        as (r1 & h1 & Hrun1 & Hkeep & _).
      rewrite Hrun in Hrun1. injection Hrun1 as <- <-.
      specialize (Hkeep l0 o0 H0). split.
      * intros Hne. rewrite decide_False in Hkeep; [done|]. congruence.
      * intros [= ->]. by rewrite decide_True in Hkeep.
    + rewrite organize_dangling in Hrun by done. injection Hrun as <- <-.
      split; [done|]. intros [= ->]. congruence.
  - rewrite organize_scalar in Hrun. injection Hrun as <- <-. by split; [|done].
Qed.

Lemma sublist_keys_NoDup (A A' : list (Z * list scalar)) :
  A' `sublist_of` A → NoDup A.*1 → NoDup A'.*1.
Proof. intros Hsub Hnd. eapply sublist_NoDup; [exact Hnd|]. by apply fmap_sublist. Qed.

(** C5 (amended).  When the call returns on an input that is not null, the
    rows of the returned table that have a date come first, in ascending
    order of date, and the rows whose date is missing come after them.  The
    dates are strictly ascending exactly when none occurs twice, and that is
    so whenever the dates of the input are pairwise distinct; duplicate dates
    are kept.  When no date of the input is missing, none is in the returned
    table, whose index is then ascending as a whole. *)
Theorem organized_index_is_ascending (ts : pyval) (s e : option scalar) (b : bool)
    (h h' : heap) (v : pyval) :
  ts ≠ PNone →
  organize_time_series ts s e b h = (Returns v, h') →
  ∃ l o f fd keyed0 l' f' kept undated,
    ts = PRef l ∧ h !! l = Some o ∧ table_of o = Some f ∧
    dated f = Returns fd ∧ date_index fd = Returns keyed0 ∧
    v = PRef l' ∧ h' !! l' = Some (OFrame f') ∧
    date_index f' = Returns ((present <$> kept) ++ undated) ∧
    Forall is_missing undated ∧
    Sorted Z.le kept.*1 ∧
    (Sorted Z.lt kept.*1 ↔ NoDup kept.*1) ∧
    (NoDup (timestamps keyed0).*1 → Sorted Z.lt kept.*1) ∧
    (missing keyed0 = [] → undated = [] ∧ datetime_index f' = Returns kept).
Proof.
  intros Hts Hrun.
  destruct (organize_returns_inv _ _ _ _ _ _ _ Hts Hrun)
    as (l & o & f & f' & l' & -> & Hl & Ho & Hf & -> & _ & Hl').
  destruct (organized_inv _ _ _ _ _ _ _ Hf)
    as (fd & keyed0 & A1 & N1 & kept & undated & Hd & Hk & _ & _ & Hs & HN & Hsub
        & Hund & Hcols & Hic & Hrows).
  assert (Hidx : date_index f' = Returns ((present <$> kept) ++ undated)).
  { destruct f' as [c ic r]. simpl in *. subst r. apply date_index_relabel. }
  assert (Hsorted : Sorted Z.le kept.*1) by (by apply keys_sorted).
  exists l, o, f, fd, keyed0, l', f', kept, undated.
  do 9 (split; [done|]). split; [done|].
  split; [by apply strictly_ascending_NoDup|]. split.
  - intros Hnd. apply strictly_ascending_NoDup; [done|].
    eapply sublist_keys_NoDup; [exact Hsub|].
    by rewrite (ascending_Permutation tie_rank keyed0).
  - intros Hnone. assert (undated = []) as -> by (destruct Hund; congruence).
    split; [done|]. apply datetime_date_index. by rewrite app_nil_r in Hidx.
Qed.

(** C6.  When the call returns with bounds that are timestamps, a row of the
    input that has a date is in the returned table exactly when its date is
    not after [end_date] (if given) and not before [start_date] (if given):
    the rows after [end_date] are dropped first, then those before
    [start_date], and a row dated [end_date] or [start_date] is kept by the
    slice of that bound.  The rows whose date is missing are dropped by the
    slice of [end_date], and kept when there is no [end_date]. *)
Theorem filtering_is_inclusive (ts : pyval) (s e : option Z) (b : bool)
    (h h' : heap) (v : pyval) :
  ts ≠ PNone →
  organize_time_series ts (STs <$> s) (STs <$> e) b h = (Returns v, h') →
  ∃ l o f fd keyed l' f',
    ts = PRef l ∧ h !! l = Some o ∧ table_of o = Some f ∧
    dated f = Returns fd ∧ date_index fd = Returns keyed ∧
    v = PRef l' ∧ h' !! l' = Some (OFrame f') ∧
    rows f' ≡ₚ
      (unkey <$> filter (λ kr, not_before s kr.1)
                   (filter (λ kr, not_after e kr.1) (timestamps keyed)))
      ++ match e with Some _ => [] | None => relabel <$> missing keyed end ∧
    (∀ kr, kr ∈ timestamps keyed →
       (unkey kr ∈ rows f' ↔ not_after e kr.1 ∧ not_before s kr.1)) ∧
    (∀ kr, kr ∈ timestamps keyed → e = Some kr.1 → not_before s kr.1 →
       unkey kr ∈ rows f') ∧
    (∀ kr, kr ∈ timestamps keyed → s = Some kr.1 → not_after e kr.1 →
       unkey kr ∈ rows f').
Proof.
  intros Hts Hrun.
  destruct (organize_returns_inv _ _ _ _ _ _ _ Hts Hrun)
    as (l & o & f & f' & l' & -> & Hl & Ho & Hf & -> & _ & Hl').
  destruct (organized_inv _ _ _ _ _ _ _ Hf)
    as (fd & keyed & A1 & N1 & A' & N' & Hd & Hk & Hto & Hfrom & _ & HN & _ & _
        & _ & _ & Hrows).
  destruct (kept_timestamps _ _ _ _ _ _ _ _ _ Hto Hfrom) as [HA' HN'].
  assert (Hperm : rows f' ≡ₚ
            (unkey <$> filter (λ kr, not_before s kr.1)
                         (filter (λ kr, not_after e kr.1) (timestamps keyed)))
            ++ match e with Some _ => [] | None => relabel <$> missing keyed end).
  { rewrite Hrows, fmap_app, relabel_present, HA', HN'.
    rewrite (ascending_Permutation tie_rank keyed). by destruct e. }
  assert (Hin : ∀ kr, kr ∈ timestamps keyed →
            (unkey kr ∈ rows f' ↔ not_after e kr.1 ∧ not_before s kr.1)).
  { intros kr Hkr. rewrite Hperm, elem_of_app, (list_elem_of_fmap_inj unkey).
    rewrite !list_elem_of_filter. split; [|tauto].
    intros [?|Hmiss]; [tauto|]. exfalso. destruct e; [by apply elem_of_nil in Hmiss|].
    apply list_elem_of_fmap in Hmiss as ([d c] & Heq & Hm).
    apply list_elem_of_filter in Hm as [Hm _]. unfold is_missing in Hm. simpl in Hm.
    subst d. discriminate Heq. }
  exists l, o, f, fd, keyed, l', f'.
  do 8 (split; [done|]). split; [done|]. split.
  - intros kr Hkr -> Hs'. apply Hin; [done|]. split; [simpl; lia | done].
  - intros kr Hkr -> He'. apply Hin; [done|]. split; [done | simpl; lia].
Qed.
End Returned.

(** *** class [Dataset] *)

Section Instances.
Import Dataset.
Variable parse_datetime : list scalar → scalar → option (option Z).
Variable parse_slice_bound : bool → string → option (option Z).
Variable tie_rank : list Z → nat → nat.

#[local] Abbreviation argument_after := (argument_after parse_datetime).
#[local] Abbreviation organize_time_series :=
  (organize_time_series parse_datetime parse_slice_bound tie_rank).
#[local] Abbreviation set_y_pred := (set_y_pred parse_datetime parse_slice_bound tie_rank).
#[local] Abbreviation __init__ := (__init__ parse_datetime parse_slice_bound tie_rank).
#[local] Abbreviation Dataset := (Dataset parse_datetime parse_slice_bound tie_rank).

Lemma getattr_run (h : heap) (self : loc) (d : gmap string pyval) (attr : string) :
  h !! self = Some (OInstance d) →
  getattr self attr h =
    (match d !! attr with Some v => Returns v | None => Raises AttributeError end, h).
Proof.
  intros Hs. unfold getattr. erewrite bind_run by (by apply deref_run).
  simpl. by destruct (d !! attr).
Qed.

Lemma setattr_run (h : heap) (self : loc) (d : gmap string pyval) (attr : string)
    (v : pyval) :
  h !! self = Some (OInstance d) →
  setattr self attr v h = (Returns (), <[self := OInstance (<[attr := v]> d)]> h).
Proof. intros Hs. unfold setattr. by erewrite bind_run by (by apply deref_run). Qed.

Lemma setattr_returns (h h' : heap) (self : loc) (attr : string) (v : pyval) u :
  setattr self attr v h = (Returns u, h') →
  ∃ d, h !! self = Some (OInstance d) ∧
       h' = <[self := OInstance (<[attr := v]> d)]> h.
Proof.
  unfold setattr, deref, mbind, Py_bind.
  destruct (h !! self) as [[f|sr|d]|] eqn:Hs; try done.
  intros [= <-]. eauto.
Qed.

(** Reading an attribute that has just been assigned. *)
Lemma getattr_setattr (h h' : heap) (self : loc) (attr : string) (v : pyval) u :
  setattr self attr v h = (Returns u, h') →
  getattr self attr h' = (Returns v, h').
Proof.
  intros (d & Hs & ->)%setattr_returns.
  erewrite getattr_run; [|apply list_lookup_insert_eq; by eapply lookup_lt_Some].
  by rewrite lookup_insert_eq.
Qed.

Lemma getattr_store (h h' : heap) (self : loc) (attr : string) r :
  getattr self attr h = (r, h') → h' = h.
Proof.
  unfold getattr, deref, mbind, Py_bind.
  destruct (h !! self) as [[f|sr|d]|]; try (by intros [= _ <-]).
  destruct (d !! attr); by intros [= _ <-].
Qed.

Lemma index_at_store (h h' : heap) (v : pyval) (last : bool) r :
  index_at v last h = (r, h') → h' = h.
Proof.
  unfold index_at, deref, mbind, Py_bind.
  destruct v as [|l|[]]; try (by intros [= _ <-]).
  destruct (h !! l) as [[f|sr|d]|]; try (by intros [= _ <-]).
  - simpl. destruct (if last then _ else _); by intros [= _ <-].
  - simpl. destruct (if last then _ else _); by intros [= _ <-].
Qed.

(** C7.  Whatever the bounds, the call on a null series with
    [enforce_not_none=True] raises [ValueError], so constructing a [Dataset]
    with a null [y] raises [ValueError]; with [enforce_not_none=False] the
    call returns null and leaves the store as it is. *)
Theorem null_series_is_refused :
  (∀ s e h, organize_time_series PNone s e true h = (Raises ValueError, h)) ∧
  (∀ X s e tf h, ∃ h', Dataset PNone X s e tf h = (Raises ValueError, h')) ∧
  (∀ s e h, organize_time_series PNone s e false h = (Returns PNone, h)).
Proof.
  split; [done|]. split; [|done].
  intros X s e tf h. by eexists.
Qed.

Lemma from_organized_time_series_run (y X tf : pyval) (h : heap) :
  from_organized_time_series y X tf h =
    (Returns (length h),
     h ++ [OInstance (<["time_frequency" := tf]> (<["X" := X]> (<["y" := y]> ∅)))]).
Proof.
  unfold from_organized_time_series, __new__.
  erewrite bind_run by reflexivity.
  erewrite bind_run by (apply setattr_run, lookup_alloc).
  rewrite insert_alloc.
  erewrite bind_run by (apply setattr_run, lookup_alloc).
  rewrite insert_alloc.
  erewrite bind_run by (apply setattr_run, lookup_alloc).
  by rewrite insert_alloc.
Qed.

(** C10.  An instance made by [from_organized_time_series] (and so by
    [create_from_y]) has no attribute [y_pred]: [get_y_pred] raises
    [AttributeError], until [set_y_pred] has been called; an instance that
    [__init__] has initialised has [y_pred] null. *)
Theorem y_pred_is_set_by_init_only :
  (∀ y X tf h, ∃ self d h',
     from_organized_time_series y X tf h = (Returns self, h') ∧
     h' !! self = Some (OInstance d) ∧ d !! "y_pred" = None ∧
     get_y_pred self h' = (Raises AttributeError, h') ∧
     ∀ v, ∃ h'', set_y_pred self v false h' = (Returns (), h'') ∧
                 get_y_pred self h'' = (Returns v, h'')) ∧
  (∀ y tf h, create_from_y y tf h = from_organized_time_series y PNone tf h) ∧
  (∀ y X s e tf h self h',
     Dataset y X s e tf h = (Returns self, h') →
     get_y_pred self h' = (Returns PNone, h')).
Proof.
  split; [|split; [done|]].
  - intros y X tf h. eexists _, _, _. split; [apply from_organized_time_series_run|].
    split; [apply lookup_alloc|]. split; [done|]. split.
    + unfold get_y_pred. by erewrite getattr_run by apply lookup_alloc.
    + intros v. eexists. split.
      * unfold Dataset.set_y_pred. erewrite bind_run by reflexivity.
        apply setattr_run, lookup_alloc.
      * unfold get_y_pred.
        erewrite getattr_run by (rewrite insert_alloc; apply lookup_alloc).
        by rewrite lookup_insert_eq.
  - intros y X s e tf h self h'. unfold Dataset.Dataset.
    intros (self' & h0 & _ & (u & h1 & Hinit & [= <- <-])%bind_returns)%bind_returns.
    unfold Dataset.__init__ in Hinit.
    apply bind_returns in Hinit as (? & ? & _ & Hinit).
    apply bind_returns in Hinit as (? & ? & _ & Hinit).
    apply bind_returns in Hinit as (? & ? & _ & Hinit).
    apply bind_returns in Hinit as (? & ? & _ & Hinit).
    apply bind_returns in Hinit as (? & ? & _ & Hinit).
    by eapply getattr_setattr.
Qed.

Lemma setattr_instance (h : heap) (self : loc) (d : gmap string pyval)
    (attr : string) (v : pyval) r h' :
  h !! self = Some (OInstance d) → setattr self attr v h = (r, h') → r = Returns ().
Proof. intros Hs. rewrite (setattr_run _ _ _ _ _ Hs). by intros [= <- _]. Qed.

(** The call leaves an instance of the class as it is, whatever its
    outcome. *)
Lemma organize_keeps_instance (ts : pyval) (s e : option scalar) (b : bool)
    (h h' : heap) (r : outcome pyval) (self : loc) (d : gmap string pyval) :
  organize_time_series ts s e b h = (r, h') →
  h !! self = Some (OInstance d) → h' !! self = Some (OInstance d).
Proof.
  intros Hrun Hs.
  destruct (organize_store parse_datetime parse_slice_bound tie_rank _ _ _ _ _ _ _ Hrun
              self _ Hs) as [Hother Harg].
  destruct ts as [|l|x]; [by apply Hother|..|by apply Hother].
  destruct (decide (l = self)) as [->|Hne]; [by apply Harg|].
  apply Hother. congruence.
Qed.

(** C4 (amended).  With [organize=False] the call stores the argument as
    [self.y_pred].  With [organize=True] it stores the argument too, not the
    organized table, whenever it returns, and the argument, when it is a frame
    without a column "date", has by then had its index converted in place.
    When the organizing raises, or [self.y] has no first label, the call
    raises that exception; and whenever the call raises, the instance is as it
    was: nothing has been stored. *)
Theorem set_y_pred_stores_the_argument :
  (∀ self d y_pred h,
     h !! self = Some (OInstance d) →
     set_y_pred self y_pred false h =
       (Returns (), <[self := OInstance (<["y_pred" := y_pred]> d)]> h)) ∧
  (∀ self y_pred organize h h',
     set_y_pred self y_pred organize h = (Returns (), h') →
     get_y_pred self h' = (Returns y_pred, h')) ∧
  (∀ self l o h h',
     set_y_pred self (PRef l) true h = (Returns (), h') →
     h !! l = Some o → l ≠ self →
     h' !! l = Some (argument_after o)) ∧
  (∀ self d y first last y_pred x h h',
     h !! self = Some (OInstance d) → d !! "y" = Some y →
     index_at y false h = (Returns first, h) →
     index_at y true h = (Returns last, h) →
     organize_time_series y_pred (Some first) (Some last) false h = (Raises x, h') →
     set_y_pred self y_pred true h = (Raises x, h')) ∧
  (∀ self d y y_pred x h,
     h !! self = Some (OInstance d) → d !! "y" = Some y →
     index_at y false h = (Raises x, h) →
     set_y_pred self y_pred true h = (Raises x, h)) ∧
  (∀ self d y_pred organize x h h',
     h !! self = Some (OInstance d) →
     set_y_pred self y_pred organize h = (Raises x, h') →
     organize = true ∧ h' !! self = Some (OInstance d)).
Proof.
  split; [|split; [|split; [|split; [|split]]]].
  - intros self d y_pred h Hs. unfold Dataset.set_y_pred.
    erewrite bind_run by reflexivity. by apply setattr_run.
  - intros self y_pred organize h h' Hrun. unfold Dataset.set_y_pred in Hrun.
    apply bind_returns in Hrun as ([] & h1 & _ & Hset).
    by eapply getattr_setattr.
  - intros self l o h h' Hrun Hl Hne. unfold Dataset.set_y_pred in Hrun.
    apply bind_returns in Hrun as ([] & h1 & Horg & Hset).
    apply bind_returns in Horg as (y & ? & ->%getattr_store & Horg).
    apply bind_returns in Horg as (s & ? & ->%index_at_store & Horg).
    apply bind_returns in Horg as (y' & ? & ->%getattr_store & Horg).
    apply bind_returns in Horg as (e & ? & ->%index_at_store & Horg).
    apply bind_returns in Horg as (v & h2 & Horg & Hset0).
    destruct (organize_store _ _ _ _ _ _ _ _ _ _ Horg l o Hl) as [_ Harg].
    specialize (Harg eq_refl).
    apply setattr_returns in Hset0 as (d0 & _ & ->).
    apply setattr_returns in Hset as (d1 & _ & ->).
    by rewrite !list_lookup_insert_ne.
  - intros self d y first last y_pred x h h' Hs Hy Hfirst Hlast Horg.
    assert (Hget : getattr self "y" h = (Returns y, h))
      by (by rewrite (getattr_run _ _ _ _ Hs), Hy).
    unfold Dataset.set_y_pred. erewrite bind_raise; [done|].
    erewrite bind_run by exact Hget. erewrite bind_run by exact Hfirst.
    erewrite bind_run by exact Hget. erewrite bind_run by exact Hlast.
    by erewrite bind_raise by exact Horg.
  - intros self d y y_pred x h Hs Hy Hfirst.
    assert (Hget : getattr self "y" h = (Returns y, h))
      by (by rewrite (getattr_run _ _ _ _ Hs), Hy).
    unfold Dataset.set_y_pred. erewrite bind_raise; [done|].
    erewrite bind_run by exact Hget. by erewrite bind_raise by exact Hfirst.
  - intros self d y_pred organize x h h' Hs Hrun.
    destruct organize.
    2:{ unfold Dataset.set_y_pred in Hrun. erewrite bind_run in Hrun by reflexivity.
        by rewrite (setattr_run _ _ _ _ _ Hs) in Hrun. }
    split; [done|]. unfold Dataset.set_y_pred in Hrun.
    apply bind_raises in Hrun as [Horg|([] & h1 & Horg & Hset)].
    + apply bind_raises in Horg as [Hget|(y & ? & ->%getattr_store & Horg)];
        [by apply getattr_store in Hget as ->|].
      apply bind_raises in Horg as [Hidx|(s & ? & ->%index_at_store & Horg)];
        [by apply index_at_store in Hidx as ->|].
      apply bind_raises in Horg as [Hget|(y' & ? & ->%getattr_store & Horg)];
        [by apply getattr_store in Hget as ->|].
      apply bind_raises in Horg as [Hidx|(e & ? & ->%index_at_store & Horg)];
        [by apply index_at_store in Hidx as ->|].
      apply bind_raises in Horg as [Horg|(v & h2 & Horg & Hset0)].
      * by eapply organize_keeps_instance.
      * pose proof (organize_keeps_instance _ _ _ _ _ _ _ _ _ Horg Hs) as Hs2.
        by apply (setattr_instance _ _ _ _ _ _ _ Hs2) in Hset0.
    + apply bind_returns in Horg as (y & ? & ->%getattr_store & Horg).
      apply bind_returns in Horg as (s & ? & ->%index_at_store & Horg).
      apply bind_returns in Horg as (y' & ? & ->%getattr_store & Horg).
      apply bind_returns in Horg as (e & ? & ->%index_at_store & Horg).
      apply bind_returns in Horg as (v & h2 & Horg & Hset0).
      pose proof (organize_keeps_instance _ _ _ _ _ _ _ _ _ Horg Hs) as Hs2.
      apply setattr_returns in Hset0 as (d0 & Hd0 & ->).
      assert (Hs3 : <[self:=OInstance (<["y_pred":=v]> d0)]> h2 !! self
                    = Some (OInstance (<["y_pred":=v]> d0))).
      { apply list_lookup_insert_eq. by eapply lookup_lt_Some. }
      by apply (setattr_instance _ _ _ _ _ _ _ Hs3) in Hset.
Qed.
End Instances.

(** ** The calls and the caller's objects *)

(** C8 (amended).  Neither call leaves the caller's table as it was.
    [apply_delisting_returns] returns the very object it was given, with the
    columns [dlret], [dlretx], [ret] and [retx] assigned in place and the other
    columns kept.  [organize_time_series] returns a new object and leaves every
    object of the store but its argument unchanged; the argument stays as it
    was when it is a Series or has a column "date", and has its index
    converted in place when it is a frame without one. *)
Theorem calls_assign_in_place :
  (∀ (h : CRSP.heap) (df : loc) (f : gmap string (list float)),
     h !! df = Some f →
     is_Some (f !! "dlstcd") → is_Some (f !! "dlret") → is_Some (f !! "dlretx") →
     is_Some (f !! "ret") → is_Some (f !! "retx") →
     ∃ f', CRSP.apply_delisting_returns df h = (Returns df, <[df := f']> h) ∧
       ∀ name : string,
         name ≠ "dlret" → name ≠ "dlretx" → name ≠ "ret" → name ≠ "retx" →
         f' !! name = f !! name) ∧
  (∀ parse_datetime parse_slice_bound tie_rank ts s e b (h h' : Dataset.heap) r,
     Dataset.organize_time_series parse_datetime parse_slice_bound tie_rank ts s e b h
       = (r, h') →
     (∀ l o, h !! l = Some o →
        (ts ≠ Dataset.PRef l → h' !! l = Some o) ∧
        (ts = Dataset.PRef l →
           h' !! l = Some (Dataset.argument_after parse_datetime o))) ∧
     (∀ v, ts ≠ Dataset.PNone → r = Returns v →
        ∃ l', v = Dataset.PRef l' ∧ (length h ≤ l')%nat)) ∧
  (∀ parse_datetime sr,
     Dataset.argument_after parse_datetime (Dataset.OSeries sr) = Dataset.OSeries sr).
Proof.
  split; [|split; [|done]].
  - intros h df f Hf [c Hc] [d Hd] [dx Hdx] [r Hr] [rx Hrx].
    eexists. split; [by eapply apply_delisting_returns_run|].
    intros name H1 H2 H3 H4. by rewrite !lookup_insert_ne.
  - intros p1 p2 p3 ts s e b h h' r Hrun. split.
    + by eapply organize_store.
    + intros v Hts ->.
      destruct (organize_returns_inv _ _ _ _ _ _ _ _ _ _ Hts Hrun)
        as (l & o & f & f' & l' & _ & _ & _ & _ & -> & Hge & _).
      eauto.
Qed.

Lemma calls_assign_in_place_witness :
  (∃ f', CRSP.apply_delisting_returns 0%nat [CRSP.monthly_file]
           = (Returns 0%nat, <[0%nat := f']> [CRSP.monthly_file]) ∧
     ∀ name : string,
       name ≠ "dlret" → name ≠ "dlretx" → name ≠ "ret" → name ≠ "retx" →
       f' !! name = CRSP.monthly_file !! name) ∧
  (∀ l o, [Dataset.OFrame Dataset.forecasts] !! l = Some o →
     (Dataset.PRef 0 ≠ Dataset.PRef l →
        (Dataset.organize_time_series Dataset.no_parse Dataset.no_bound
           Dataset.input_order
           (Dataset.PRef 0) None None false [Dataset.OFrame Dataset.forecasts]).2
          !! l = Some o) ∧
     (Dataset.PRef 0 = Dataset.PRef l →
        (Dataset.organize_time_series Dataset.no_parse Dataset.no_bound
           Dataset.input_order
           (Dataset.PRef 0) None None false [Dataset.OFrame Dataset.forecasts]).2
          !! l = Some (Dataset.argument_after Dataset.no_parse o))).
Proof.
  destruct calls_assign_in_place as (Hcrsp & Horg & _). split.
  - apply (Hcrsp [CRSP.monthly_file] 0%nat CRSP.monthly_file);
      [reflexivity | eexists; vm_compute; reflexivity ..].
  - apply (Horg Dataset.no_parse Dataset.no_bound Dataset.input_order
             (Dataset.PRef 0) None None false
             [Dataset.OFrame Dataset.forecasts] _ (Returns (Dataset.PRef 1))).
    vm_compute. reflexivity.
Defined.

(** C8 as stated fails: after [apply_delisting_returns] the caller's monthly
    file has its delisting return imputed, and after [organize_time_series]
    the caller's table of forecasts is indexed by timestamps. *)
Lemma callers_table_is_changed :
  (∃ h', CRSP.apply_delisting_returns 0%nat [CRSP.monthly_file] = (Returns 0%nat, h') ∧
         CRSP.cell [CRSP.monthly_file] 0%nat "dlret" 1 = Some nan ∧
         CRSP.cell h' 0%nat "dlret" 1 = Some CRSP.minus_03) ∧
  (∃ h', Dataset.organize_time_series Dataset.no_parse Dataset.no_bound
           Dataset.input_order
           (Dataset.PRef 0) None None false [Dataset.OFrame Dataset.forecasts]
         = (Returns (Dataset.PRef 1), h') ∧
         h' !! 0%nat = Some (Dataset.OFrame
           {| Dataset.columns := [Dataset.CName "forecast"];
              Dataset.integer_columns := false;
              Dataset.rows := [(Dataset.STs 2, [Dataset.SInt 20]);
                               (Dataset.STs 1, [Dataset.SInt 10])] |}) ∧
         h' !! 0%nat ≠ Some (Dataset.OFrame Dataset.forecasts)).
Proof.
  split.
  - eexists. repeat split; vm_compute; reflexivity.
  - eexists. split; [vm_compute; reflexivity|]. split; [reflexivity|].
    vm_compute. intros [=].
Qed.

(** ** The examples of the claims *)

Section Examples.
Import Dataset.

#[local] Abbreviation organize_example :=
  (organize_time_series no_parse no_bound input_order).

(** C5 as stated fails: the table of prices has two rows dated 3, and so has
    the returned table, whose index 1, 3, 3, 5 is not strictly ascending. *)
Lemma duplicate_dates_are_kept :
  ∃ h' f' keyed,
    organize_example (PRef 0) None None false [OFrame prices]
      = (Returns (PRef 1), h') ∧
    h' !! 1%nat = Some (OFrame f') ∧
    datetime_index f' = Returns keyed ∧
    keyed.*1 = [1; 3; 3; 5] ∧
    ¬ Sorted Z.lt keyed.*1 ∧ ¬ NoDup keyed.*1.
Proof.
  eexists _, _, _. split; [vm_compute; reflexivity|].
  split; [reflexivity|]. split; [vm_compute; reflexivity|].
  split; [reflexivity|]. simpl. split.
  - intros H. apply Sorted_inv in H as [H _]. apply Sorted_inv in H as [_ H].
    apply HdRel_inv in H. lia.
  - intros H. apply NoDup_cons in H as [_ H]. apply NoDup_cons in H as [H _].
    apply H. by left.
Qed.

(** The two rows dated 3 are in the returned table whichever of them the sort
    puts first. *)
Example duplicate_dates_in_either_order :
  ∃ h' f' keyed,
    organize_time_series no_parse no_bound reverse_order (PRef 0) None None false
      [OFrame prices] = (Returns (PRef 1), h') ∧
    h' !! 1%nat = Some (OFrame f') ∧
    datetime_index f' = Returns keyed ∧
    keyed = [(1, [SInt 10]); (3, [SInt 31]); (3, [SInt 30]); (5, [SInt 50])].
Proof. eexists _, _, _. repeat split; vm_compute; reflexivity. Qed.

(** A row whose date is missing comes last, and is cut by the slice of an end
    bound; an end bound that is no date of such an index is refused. *)
Example missing_dates_come_last :
  (∃ h', organize_example (PRef 0) None None false [OFrame gappy]
           = (Returns (PRef 1), h') ∧
         h' !! 1%nat = Some (OFrame
           {| columns := [CName "price"]; integer_columns := false;
              rows := [(STs 1, [SInt 10]); (STs 5, [SInt 50]); (SNaT, [SInt 0])] |})) ∧
  (∃ h', organize_example (PRef 0) (Some (STs 1)) None false [OFrame gappy]
           = (Returns (PRef 2), h') ∧
         h' !! 2%nat = Some (OFrame
           {| columns := [CName "price"]; integer_columns := false;
              rows := [(STs 1, [SInt 10]); (STs 5, [SInt 50]); (SNaT, [SInt 0])] |})) ∧
  (∃ h', organize_example (PRef 0) None (Some (STs 5)) false [OFrame gappy]
           = (Returns (PRef 2), h') ∧
         h' !! 2%nat = Some (OFrame
           {| columns := [CName "price"]; integer_columns := false;
              rows := [(STs 1, [SInt 10]); (STs 5, [SInt 50])] |})) ∧
  (∃ h', organize_example (PRef 0) None (Some (STs 4)) false [OFrame gappy]
           = (Raises KeyError, h')).
Proof.
  split; [|split; [|split]]; eexists; repeat split; vm_compute; reflexivity.
Qed.

Lemma organized_index_is_ascending_witness :
  ∃ l o f fd keyed0 l' f' kept undated,
    PRef 0 = PRef l ∧ [OFrame gappy] !! l = Some o ∧ table_of o = Some f ∧
    dated no_parse f = Returns fd ∧ date_index fd = Returns keyed0 ∧
    PRef 1 = PRef l' ∧
    (organize_example (PRef 0) None None false [OFrame gappy]).2 !! l'
      = Some (OFrame f') ∧
    date_index f' = Returns ((present <$> kept) ++ undated) ∧
    Forall is_missing undated ∧
    Sorted Z.le kept.*1 ∧
    (Sorted Z.lt kept.*1 ↔ NoDup kept.*1) ∧
    (NoDup (timestamps keyed0).*1 → Sorted Z.lt kept.*1) ∧
    (missing keyed0 = [] → undated = [] ∧ datetime_index f' = Returns kept).
Proof.
  apply (organized_index_is_ascending no_parse no_bound input_order (PRef 0) None None
           false [OFrame gappy]); [discriminate | vm_compute; reflexivity].
Defined.

Lemma filtering_is_inclusive_witness :
  ∃ l o f fd keyed l' f',
    PRef 0 = PRef l ∧ [OFrame prices] !! l = Some o ∧ table_of o = Some f ∧
    dated no_parse f = Returns fd ∧ date_index fd = Returns keyed ∧
    PRef 3 = PRef l' ∧
    (organize_example (PRef 0) (Some (STs 3)) (Some (STs 5)) false [OFrame prices]).2
      !! l' = Some (OFrame f') ∧
    rows f' ≡ₚ
      (unkey <$> filter (λ kr, not_before (Some 3) kr.1)
                   (filter (λ kr, not_after (Some 5) kr.1) (timestamps keyed)))
      ++ [] ∧
    (∀ kr, kr ∈ timestamps keyed →
       (unkey kr ∈ rows f' ↔ not_after (Some 5) kr.1 ∧ not_before (Some 3) kr.1)) ∧
    (∀ kr, kr ∈ timestamps keyed → Some 5 = Some kr.1 → not_before (Some 3) kr.1 →
       unkey kr ∈ rows f') ∧
    (∀ kr, kr ∈ timestamps keyed → Some 3 = Some kr.1 → not_after (Some 5) kr.1 →
       unkey kr ∈ rows f').
Proof.
  apply (filtering_is_inclusive no_parse no_bound input_order (PRef 0) (Some 3)
           (Some 5) false [OFrame prices]); [discriminate | vm_compute; reflexivity].
Defined.

(** The rows on the bounds 3 and 5 are in the table returned for them. *)
Example rows_on_the_bounds_are_kept :
  ∃ h' f',
    organize_example (PRef 0) (Some (STs 3)) (Some (STs 5)) false [OFrame prices]
      = (Returns (PRef 3), h') ∧
    h' !! 3%nat = Some (OFrame f') ∧
    rows f' = [(STs 3, [SInt 30]); (STs 3, [SInt 31]); (STs 5, [SInt 50])].
Proof. eexists _, _. repeat split; vm_compute; reflexivity. Qed.

(** A store with the table of prices, a table of forecasts, a table with a
    column "Date", and then an instance made from the prices. *)
#[local] Abbreviation with_instance :=
  (create_from_y (PRef 0) PNone
     [OFrame prices; OFrame forecasts; OFrame capitalised]).

#[local] Abbreviation made_from_prices :=
  (<["time_frequency" := PNone]> (<["X" := PNone]> (<["y" := PRef 0]> ∅))
     : gmap string pyval).

(** An instance made from a table without rows. *)
#[local] Abbreviation without_rows := (create_from_y (PRef 0) PNone [OFrame no_rows]).

(** C4 as stated fails: with [organize=True] and a table whose column of
    dates is spelled "Date" the call raises [KeyError], and [self.y_pred] is
    still not the argument. *)
Lemma set_y_pred_can_raise :
  with_instance.1 = Returns 3%nat ∧
  ∃ h', set_y_pred no_parse no_bound input_order 3%nat (PRef 2) true with_instance.2
          = (Raises KeyError, h') ∧
        get_y_pred 3%nat h' = (Raises AttributeError, h').
Proof. split; [reflexivity|]. eexists. split; vm_compute; reflexivity. Qed.

(** With [organize=True] the stored object is the argument, its index
    converted; with [organize=False] it is the argument as it was. *)
Example organize_flag_converts_the_argument :
  (∃ h', set_y_pred no_parse no_bound input_order 3%nat (PRef 1) true with_instance.2
           = (Returns (), h') ∧
         get_y_pred 3%nat h' = (Returns (PRef 1), h') ∧
         h' !! 1%nat = Some (OFrame
           {| columns := [CName "forecast"];
              integer_columns := false;
              rows := [(STs 2, [SInt 20]); (STs 1, [SInt 10])] |})) ∧
  (∃ h', set_y_pred no_parse no_bound input_order 3%nat (PRef 1) false with_instance.2
           = (Returns (), h') ∧
         get_y_pred 3%nat h' = (Returns (PRef 1), h') ∧
         h' !! 1%nat = Some (OFrame forecasts)).
Proof. split; eexists; repeat split; vm_compute; reflexivity. Qed.

Lemma set_y_pred_stores_the_argument_witness :
  set_y_pred no_parse no_bound input_order 3%nat (PRef 1) false with_instance.2
    = (Returns (),
       <[3%nat := OInstance (<["y_pred" := PRef 1]> made_from_prices)]>
         with_instance.2) ∧
  get_y_pred 3%nat
    (set_y_pred no_parse no_bound input_order 3%nat (PRef 1) true with_instance.2).2
    = (Returns (PRef 1),
       (set_y_pred no_parse no_bound input_order 3%nat (PRef 1) true
          with_instance.2).2) ∧
  (set_y_pred no_parse no_bound input_order 3%nat (PRef 1) true with_instance.2).2
    !! 1%nat
    = Some (argument_after no_parse (OFrame forecasts)) ∧
  set_y_pred no_parse no_bound input_order 3%nat (PRef 2) true with_instance.2
    = (Raises KeyError, with_instance.2) ∧
  set_y_pred no_parse no_bound input_order 1%nat (PRef 0) true without_rows.2
    = (Raises IndexError, without_rows.2) ∧
  (true = true ∧ with_instance.2 !! 3%nat = Some (OInstance made_from_prices)).
Proof.
  destruct (set_y_pred_stores_the_argument no_parse no_bound input_order)
    as (Hraw & Hret & Harg & Horg & Hidx & Hkeep).
  split; [|split; [|split; [|split; [|split]]]].
  - apply Hraw. vm_compute. reflexivity.
  - apply (Hret 3%nat (PRef 1) true with_instance.2). vm_compute. reflexivity.
  - apply (Harg 3%nat 1%nat (OFrame forecasts) with_instance.2);
      [vm_compute; reflexivity | reflexivity | discriminate].
  - apply (Horg 3%nat made_from_prices (PRef 0) (STs 5) (STs 3) (PRef 2) KeyError
             with_instance.2 with_instance.2); vm_compute; reflexivity.
  - apply (Hidx 1%nat (<["time_frequency" := PNone]> (<["X" := PNone]>
                         (<["y" := PRef 0]> ∅))) (PRef 0) (PRef 0) IndexError
             without_rows.2); vm_compute; reflexivity.
  - apply (Hkeep 3%nat made_from_prices (PRef 2) true KeyError with_instance.2
             with_instance.2); vm_compute; reflexivity.
Defined.

Lemma y_pred_is_set_by_init_only_witness :
  Dataset no_parse no_bound input_order (PRef 0) PNone None None PNone [OFrame prices]
    = (Returns 1%nat,
       (Dataset no_parse no_bound input_order (PRef 0) PNone None None PNone
          [OFrame prices]).2) ∧
  get_y_pred 1%nat
    (Dataset no_parse no_bound input_order (PRef 0) PNone None None PNone
       [OFrame prices]).2
    = (Returns PNone,
       (Dataset no_parse no_bound input_order (PRef 0) PNone None None PNone
          [OFrame prices]).2).
Proof.
  destruct (y_pred_is_set_by_init_only no_parse no_bound input_order)
    as (_ & _ & Hinit).
  assert (Hrun : Dataset no_parse no_bound input_order (PRef 0) PNone None None PNone
                   [OFrame prices]
    = (Returns 1%nat,
       (Dataset no_parse no_bound input_order (PRef 0) PNone None None PNone
          [OFrame prices]).2))
    by (vm_compute; reflexivity).
  split; [exact Hrun|].
  exact (Hinit (PRef 0) PNone None None PNone [OFrame prices] 1%nat _ Hrun).
Defined.
End Examples.
(** * Further properties *)

(** ** [pull_CRSP_stock.py] *)

Lemma lookup_snoc {A} (l : list A) (x : A) : (l ++ [x]) !! length l = Some x.
Proof. by rewrite lookup_app_r, Nat.sub_diag by lia. Qed.

Lemma insert_snoc {A} (l : list A) (x y : A) :
  <[length l := y]> (l ++ [x]) = l ++ [y].
Proof. induction l as [|a l IH]; simpl; [done|]. by rewrite IH. Qed.

Section CRSP_further.
Import CRSP.

Lemma getitem_missing (h : heap) df (f : gmap string column) name :
  h !! df = Some f → f !! name = None →
  getitem df name h = (Raises KeyError, h).
Proof. intros Hf Hc. unfold getitem. by rewrite Hf, Hc. Qed.

(** [np.select] with the three conditions and choices of the source, row by
    row. *)
Lemma imputed_zip (c d : column) : imputed c d = zip_with impute_cell c d.
Proof.
  apply list_eq. intros i. rewrite lookup_zip_with.
  destruct (c !! i) as [ci|] eqn:Hc, (d !! i) as [di|] eqn:Hd; simpl;
    [by apply imputed_lookup|..].
  all: assert (Hnone : and_ (isin c S1_codes) (isna d) !! i = None)
    by (unfold and_, isin, isna;
        by rewrite lookup_zip_with, !list_lookup_fmap, Hc, ?Hd).
  all: unfold imputed; cbn [np_select broadcast].
  all: by rewrite lookup_zip_with, Hnone.
Qed.

Lemma impute_cell_idem (c d : float) :
  impute_cell c (impute_cell c d) = impute_cell c d.
Proof.
  unfold impute_cell.
  destruct (in_S1_codes c), (PrimFloat.is_nan d) eqn:Hd; simpl; try done.
  by rewrite Hd.
Qed.

Lemma imputed_idem (c d : column) : imputed c (imputed c d) = imputed c d.
Proof.
  rewrite !imputed_zip. revert d.
  induction c as [|ci c IH]; intros [|di d]; simpl; [done..|].
  by rewrite impute_cell_idem, IH.
Qed.

Lemma fillna_idem (r d : column) : fillna (fillna r d) d = fillna r d.
Proof.
  unfold fillna. revert d.
  induction r as [|x r IH]; intros [|y d]; simpl; [done..|].
  rewrite IH. f_equal. by destruct (PrimFloat.is_nan x) eqn:Hx; [destruct (PrimFloat.is_nan y)|rewrite Hx].
Qed.

(** X1.  Adjusting a monthly file that has been adjusted changes nothing:
    the second call returns and leaves the store as the first left it. *)
Theorem apply_delisting_returns_idempotent (h : heap) (df : loc)
    (f : gmap string column) :
  h !! df = Some f →
  is_Some (f !! "dlstcd") → is_Some (f !! "dlret") → is_Some (f !! "dlretx") →
  is_Some (f !! "ret") → is_Some (f !! "retx") →
  ∃ h1, apply_delisting_returns df h = (Returns df, h1) ∧
        apply_delisting_returns df h1 = (Returns df, h1).
Proof.
  intros Hf [c Hc] [d Hd] [dx Hdx] [r Hr] [rx Hrx].
  assert (Hlt : (df < length h)%nat) by (by eapply lookup_lt_Some).
  eexists. split; [by eapply apply_delisting_returns_run|].
  erewrite apply_delisting_returns_run; cycle 1.
  { by apply list_lookup_insert_eq. }
  { by rewrite !lookup_insert_ne. }
  { rewrite !lookup_insert_ne by done. by rewrite lookup_insert_eq. }
  { rewrite !lookup_insert_ne by done. by rewrite lookup_insert_eq. }
  { rewrite !lookup_insert_ne by done. by rewrite lookup_insert_eq. }
  { by rewrite lookup_insert_eq. }
  rewrite list_insert_insert_eq, !imputed_idem, !fillna_idem.
  do 2 f_equal.
  rewrite (insert_id _ "dlret") by (rewrite !lookup_insert_ne by done; by rewrite lookup_insert_eq).
  rewrite (insert_id _ "dlretx") by (rewrite !lookup_insert_ne by done; by rewrite lookup_insert_eq).
  rewrite (insert_id _ "ret") by (rewrite !lookup_insert_ne by done; by rewrite lookup_insert_eq).
  by rewrite insert_id by (by rewrite lookup_insert_eq).
Qed.

Lemma apply_delisting_returns_idempotent_witness :
  ∃ h1, apply_delisting_returns 0%nat [monthly_file] = (Returns 0%nat, h1) ∧
        apply_delisting_returns 0%nat h1 = (Returns 0%nat, h1).
Proof.
  apply (apply_delisting_returns_idempotent [monthly_file] 0%nat monthly_file);
    [reflexivity | eexists; vm_compute; reflexivity ..].
Defined.
End CRSP_further.

Section CRSP_further2.
Import CRSP.

(** X2.  After the adjustment a return ([ret], and likewise [retx]) is
    missing exactly when it was missing, the delisting return was missing too,
    and the delisting code is not one of the listed codes. *)
Theorem return_missing_after_adjustment (h : heap) (df : loc)
    (f : gmap string column) :
  h !! df = Some f →
  is_Some (f !! "dlstcd") → is_Some (f !! "dlret") → is_Some (f !! "dlretx") →
  is_Some (f !! "ret") → is_Some (f !! "retx") →
  ∃ h', apply_delisting_returns df h = (Returns df, h') ∧
    ∀ primary delisting : string,
      (primary = "ret" ∧ delisting = "dlret") ∨
      (primary = "retx" ∧ delisting = "dlretx") →
    ∀ (i : nat) (c d r : float),
      cell h df "dlstcd" i = Some c → cell h df delisting i = Some d →
      cell h df primary i = Some r →
      ∃ x, cell h' df primary i = Some x ∧
        (PrimFloat.is_nan x = true ↔
           PrimFloat.is_nan r = true ∧ PrimFloat.is_nan d = true ∧
           in_S1_codes c = false).
Proof.
  intros Hf H1 H2 H3 H4 H5.
  destruct (apply_delisting_returns_cells h df f Hf H1 H2 H3 H4 H5) as (h' & Hrun & Hrows).
  exists h'. split; [done|].
  intros primary delisting Hpair i c d r Hc Hd Hr.
  destruct (Hrows i c Hc) as (_ & _ & Hret & Hretx).
  eexists. split.
  { destruct Hpair as [[-> ->] | [-> ->]]; eauto. }
  unfold impute_cell.
  assert (Hm : PrimFloat.is_nan minus_03 = false) by reflexivity.
  destruct (PrimFloat.is_nan r) eqn:Hnr.
  - destruct (in_S1_codes c), (PrimFloat.is_nan d) eqn:Hnd; simpl;
      (split; [intros Hx; repeat split; congruence | intros (_ & ? & ?); congruence]).
  - rewrite Hnr. split; [done | by intros (? & _)].
Qed.

Lemma return_missing_after_adjustment_witness :
  ∃ h', apply_delisting_returns 0%nat [monthly_file] = (Returns 0%nat, h') ∧
    ∀ primary delisting : string,
      (primary = "ret" ∧ delisting = "dlret") ∨
      (primary = "retx" ∧ delisting = "dlretx") →
    ∀ (i : nat) (c d r : float),
      cell [monthly_file] 0%nat "dlstcd" i = Some c →
      cell [monthly_file] 0%nat delisting i = Some d →
      cell [monthly_file] 0%nat primary i = Some r →
      ∃ x, cell h' 0%nat primary i = Some x ∧
        (PrimFloat.is_nan x = true ↔
           PrimFloat.is_nan r = true ∧ PrimFloat.is_nan d = true ∧
           in_S1_codes c = false).
Proof.
  apply (return_missing_after_adjustment [monthly_file] 0%nat monthly_file);
    [reflexivity | eexists; vm_compute; reflexivity ..].
Defined.

Lemma impute_missing (h : heap) df (f : gmap string column) field :
  h !! df = Some f → f !! "dlstcd" = None ∨ f !! field = None →
  impute df field h = (Raises KeyError, h).
Proof.
  intros Hf Hmiss. unfold impute.
  erewrite bind_raise; [done|].
  destruct (f !! "dlstcd") as [c|] eqn:Hc.
  - destruct Hmiss as [|Hd]; [done|].
    erewrite bind_run by (by eapply getitem_run).
    erewrite bind_raise; [done|]. by eapply getitem_missing.
  - erewrite bind_raise; [done|]. by eapply getitem_missing.
Qed.

(** X3.  A monthly file without the column [dlstcd] or [dlret] makes the call
    raise [KeyError] with the store untouched; one that has the delisting
    columns but no [ret] makes it raise [KeyError] once [dlret] and [dlretx]
    have been imputed in place. *)
Theorem missing_column_raises_KeyError (h : heap) (df : loc)
    (f : gmap string column) :
  h !! df = Some f →
  (f !! "dlstcd" = None ∨ f !! "dlret" = None →
     apply_delisting_returns df h = (Raises KeyError, h)) ∧
  (∀ c d dx,
     f !! "dlstcd" = Some c → f !! "dlret" = Some d → f !! "dlretx" = Some dx →
     f !! "ret" = None →
     apply_delisting_returns df h =
       (Raises KeyError,
        <[df := <["dlretx" := imputed c dx]> (<["dlret" := imputed c d]> f)]> h)).
Proof.
  intros Hf.
  assert (Hlt : (df < length h)%nat) by (by eapply lookup_lt_Some).
  split.
  - intros Hmiss. unfold apply_delisting_returns.
    erewrite bind_raise; [done|]. by eapply impute_missing.
  - intros c d dx Hc Hd Hdx Hr. unfold apply_delisting_returns.
    erewrite bind_run by (by eapply impute_run).
    erewrite bind_run; cycle 1.
    { eapply impute_run; [by apply list_lookup_insert_eq | |];
        by rewrite lookup_insert_ne. }
    rewrite list_insert_insert_eq.
    erewrite bind_raise; [done|]. unfold backfill.
    erewrite bind_raise; [done|].
    eapply getitem_missing; [by apply list_lookup_insert_eq|].
    by rewrite !lookup_insert_ne.
Qed.

Lemma missing_column_raises_KeyError_witness :
  apply_delisting_returns 0%nat [delete "dlstcd" monthly_file]
    = (Raises KeyError, [delete "dlstcd" monthly_file]) ∧
  apply_delisting_returns 0%nat [delete "ret" monthly_file]
    = (Raises KeyError,
       <[0%nat := <["dlretx" := imputed [400%float; 560%float; nan; 100%float]
                                  [nan; nan; nan; 0x1p-1%float]]>
                    (<["dlret" := imputed [400%float; 560%float; nan; 100%float]
                                    [nan; nan; nan; nan]]>
                       (delete "ret" monthly_file))]>
         [delete "ret" monthly_file]).
Proof.
  split.
  - apply (missing_column_raises_KeyError [delete "dlstcd" monthly_file] 0%nat
             (delete "dlstcd" monthly_file)); [reflexivity | left; reflexivity].
  - apply (missing_column_raises_KeyError [delete "ret" monthly_file] 0%nat
             (delete "ret" monthly_file)); reflexivity.
Defined.

(** A file without [ret]: the call raises, and [dlret] has been imputed. *)
Example missing_ret_after_imputation :
  ∃ h', apply_delisting_returns 0%nat [delete "ret" monthly_file]
          = (Raises KeyError, h') ∧
        cell [delete "ret" monthly_file] 0%nat "dlret" 1 = Some nan ∧
        cell h' 0%nat "dlret" 1 = Some minus_03.
Proof. eexists. repeat split; vm_compute; reflexivity. Qed.

(** X4.  The alternate policy leaves no delisting return missing: it returns
    with every cell of [dlret] a number, and raises [KeyError] with [dlret]
    already filled when the file has [dlret] but no [ret]. *)
Theorem alternate_policy_fills_dlret (h : heap) (df : loc)
    (f : gmap string column) (d : column) :
  h !! df = Some f → f !! "dlret" = Some d →
  (is_Some (f !! "ret") →
     ∃ h', apply_delisting_returns_alt df h = (Returns df, h') ∧
       (∀ i : nat, is_Some (cell h' df "dlret" i) ↔ is_Some (cell h df "dlret" i)) ∧
       ∀ (i : nat) (x : float),
         cell h' df "dlret" i = Some x → PrimFloat.is_nan x = false) ∧
  (f !! "ret" = None →
     apply_delisting_returns_alt df h =
       (Raises KeyError, <[df := <["dlret" := fillna_scalar d 0%float]> f]> h)).
Proof.
  intros Hf Hd.
  assert (Hlt : (df < length h)%nat) by (by eapply lookup_lt_Some).
  split.
  - intros [r Hr]. eexists. split; [by eapply apply_delisting_returns_alt_run|].
    assert (Hcell : ∀ i : nat,
              cell (<[df := <["ret" := np_where
                        (and_ (isna (add r (fillna_scalar d 0%float)))
                           (ne_scalar (fillna_scalar d 0%float) 0%float))
                        (fillna_scalar d 0%float) (add r (fillna_scalar d 0%float))]>
                      (<["ret" := add r (fillna_scalar d 0%float)]>
                         (<["dlret" := fillna_scalar d 0%float]> f))]> h)
                df "dlret" i
              = (λ x, if PrimFloat.is_nan x then 0%float else x) <$> d !! i).
    { intros i. rewrite cell_insert by done.
      rewrite !lookup_insert_ne, lookup_insert_eq by done. simpl.
      unfold fillna_scalar. by rewrite list_lookup_fmap. }
    split.
    + intros i. rewrite Hcell. unfold cell. rewrite Hf. simpl. rewrite Hd. simpl.
      by rewrite fmap_is_Some.
    + intros i x. rewrite Hcell. destruct (d !! i) as [di|]; simpl; [|done].
      intros [= <-]. by destruct (PrimFloat.is_nan di) eqn:Hn.
  - intros Hr. unfold apply_delisting_returns_alt.
    erewrite bind_run; cycle 1.
    { erewrite bind_run by (by eapply getitem_run). by eapply setitem_run. }
    erewrite bind_raise; [done|].
    erewrite bind_raise; [done|].
    eapply getitem_missing; [by apply list_lookup_insert_eq|].
    by rewrite lookup_insert_ne.
Qed.

Lemma alternate_policy_fills_dlret_witness :
  (∃ h', apply_delisting_returns_alt 0%nat [monthly_file] = (Returns 0%nat, h') ∧
     (∀ i : nat, is_Some (cell h' 0%nat "dlret" i)
                 ↔ is_Some (cell [monthly_file] 0%nat "dlret" i)) ∧
     ∀ (i : nat) (x : float),
       cell h' 0%nat "dlret" i = Some x → PrimFloat.is_nan x = false) ∧
  apply_delisting_returns_alt 0%nat [delete "ret" monthly_file] =
    (Raises KeyError,
     <[0%nat := <["dlret" := fillna_scalar [nan; nan; nan; nan] 0%float]>
                  (delete "ret" monthly_file)]> [delete "ret" monthly_file]).
Proof.
  split.
  - apply (alternate_policy_fills_dlret [monthly_file] 0%nat monthly_file
             [nan; nan; nan; nan]); [reflexivity | reflexivity |].
    eexists. vm_compute. reflexivity.
  - apply (alternate_policy_fills_dlret [delete "ret" monthly_file] 0%nat
             (delete "ret" monthly_file) [nan; nan; nan; nan]); reflexivity.
Defined.
End CRSP_further2.

Section CRSP_pull.
Import CRSP.

Lemma abs_opp (x : float) : PrimFloat.abs (- x) = PrimFloat.abs x.
Proof.
  apply Prim2SF_inj. rewrite !abs_spec, opp_spec.
  by destruct (Prim2SF x).
Qed.

(** The call, when the fetch returns a frame with the columns it reads. *)
Lemma pull_CRSP_monthly_file_run (raw_sql : Py heap loc) (h h0 : heap) (l0 : loc)
    (f : gmap string column) s cs p cp c d dx r rx :
  raw_sql h = (Returns l0, h0) → h0 !! l0 = Some f →
  f !! "shrout" = Some s → f !! "cfacshr" = Some cs →
  f !! "prc" = Some p → f !! "cfacpr" = Some cp →
  f !! "dlstcd" = Some c → f !! "dlret" = Some d → f !! "dlretx" = Some dx →
  f !! "ret" = Some r → f !! "retx" = Some rx →
  pull_CRSP_monthly_file raw_sql h =
    (Returns (length h0),
     h0 ++ [<["retx" := fillna rx (imputed c dx)]>
            (<["ret" := fillna r (imputed c d)]>
             (<["dlretx" := imputed c dx]>
              (<["dlret" := imputed c d]>
               (<["market_cap" := mul (div (abs p) cp) (mul (mul_scalar s 1000%float) cs)]>
                (<["adj_prc" := div (abs p) cp]>
                 (<["adj_shrout" := mul (mul_scalar s 1000%float) cs]>
                  (<["shrout" := mul_scalar s 1000%float]> f)))))))]).
Proof.
  intros Hraw Hl0 Hs Hcs Hp Hcp Hc Hd Hdx Hr Hrx.
  unfold pull_CRSP_monthly_file.
  erewrite bind_run by done.
  erewrite bind_run by (unfold loc_not_duplicated; by rewrite Hl0).
  erewrite bind_run; cycle 1.
  { erewrite bind_run by (eapply getitem_run; [apply lookup_snoc | done]).
    eapply setitem_run, lookup_snoc. }
  rewrite insert_snoc.
  erewrite bind_run; cycle 1.
  { erewrite bind_run
      by (eapply getitem_run; [apply lookup_snoc | by rewrite lookup_insert_eq]).
    erewrite bind_run
      by (eapply getitem_run; [apply lookup_snoc | by rewrite lookup_insert_ne]).
    eapply setitem_run, lookup_snoc. }
  rewrite insert_snoc.
  erewrite bind_run; cycle 1.
  { erewrite bind_run
      by (eapply getitem_run; [apply lookup_snoc | by rewrite !lookup_insert_ne]).
    erewrite bind_run
      by (eapply getitem_run; [apply lookup_snoc | by rewrite !lookup_insert_ne]).
    eapply setitem_run, lookup_snoc. }
  rewrite insert_snoc.
  erewrite bind_run; cycle 1.
  { erewrite bind_run
      by (eapply getitem_run; [apply lookup_snoc | by rewrite lookup_insert_eq]).
    erewrite bind_run
      by (eapply getitem_run; [apply lookup_snoc |
          rewrite lookup_insert_ne by done; by rewrite lookup_insert_eq]).
    eapply setitem_run, lookup_snoc. }
  rewrite insert_snoc.
  erewrite bind_run; cycle 1.
  { eapply apply_delisting_returns_run; [apply lookup_snoc|..];
      by rewrite !lookup_insert_ne. }
  by rewrite insert_snoc.
Qed.

(** X5.  When the fetch returns a frame with the columns the function reads,
    the function returns a new frame in which the number of shares of a record
    is a thousand times the fetched one and its market capitalisation is
    [|prc| / cfacpr * (shrout * 1000 * cfacshr)]: the sign of the price, which
    CRSP makes negative for a bid-ask average, does not enter it. *)
Theorem market_cap_ignores_price_sign (raw_sql : Py heap loc) (h h0 : heap)
    (l0 : loc) (f : gmap string column) :
  raw_sql h = (Returns l0, h0) → h0 !! l0 = Some f →
  is_Some (f !! "shrout") → is_Some (f !! "cfacshr") →
  is_Some (f !! "prc") → is_Some (f !! "cfacpr") →
  is_Some (f !! "dlstcd") → is_Some (f !! "dlret") → is_Some (f !! "dlretx") →
  is_Some (f !! "ret") → is_Some (f !! "retx") →
  ∃ l' h', pull_CRSP_monthly_file raw_sql h = (Returns l', h') ∧
    ∀ (i : nat) (p cp s cs : float),
      cell h0 l0 "prc" i = Some p → cell h0 l0 "cfacpr" i = Some cp →
      cell h0 l0 "shrout" i = Some s → cell h0 l0 "cfacshr" i = Some cs →
      cell h' l' "shrout" i = Some (s * 1000)%float ∧
      cell h' l' "market_cap" i
        = Some (PrimFloat.abs p / cp * (s * 1000 * cs))%float ∧
      cell h' l' "market_cap" i
        = Some (PrimFloat.abs (- p) / cp * (s * 1000 * cs))%float.
Proof.
  intros Hraw Hl0 [s Hs] [cs Hcs] [p Hp] [cp Hcp] [c Hc] [d Hd] [dx Hdx] [r Hr] [rx Hrx].
  eexists _, _. split; [by eapply pull_CRSP_monthly_file_run|].
  intros i pi cpi si csi Hpi Hcpi Hsi Hcsi.
  apply (cell_Some _ _ _ _ _ _ _ Hl0 Hp) in Hpi.
  apply (cell_Some _ _ _ _ _ _ _ Hl0 Hcp) in Hcpi.
  apply (cell_Some _ _ _ _ _ _ _ Hl0 Hs) in Hsi.
  apply (cell_Some _ _ _ _ _ _ _ Hl0 Hcs) in Hcsi.
  assert (Hsh : mul_scalar s 1000%float !! i = Some (si * 1000)%float)
    by (unfold mul_scalar; by rewrite list_lookup_fmap, Hsi).
  assert (Hmc : mul (div (abs p) cp) (mul (mul_scalar s 1000%float) cs) !! i
                = Some (PrimFloat.abs pi / cpi * (si * 1000 * csi))%float).
  { assert (Habs : abs p !! i = Some (PrimFloat.abs pi))
      by (unfold abs; by rewrite list_lookup_fmap, Hpi).
    assert (Hadj : div (abs p) cp !! i = Some (PrimFloat.abs pi / cpi)%float)
      by (unfold div; by rewrite lookup_zip_with, Habs, Hcpi).
    assert (Hshr : mul (mul_scalar s 1000%float) cs !! i = Some (si * 1000 * csi)%float)
      by (unfold mul; by rewrite lookup_zip_with, Hsh, Hcsi).
    unfold mul at 1. by rewrite lookup_zip_with, Hadj, Hshr. }
  rewrite abs_opp. unfold cell. rewrite lookup_snoc. simpl.
  repeat split.
  - rewrite !lookup_insert_ne by done. by rewrite lookup_insert_eq.
  - rewrite !lookup_insert_ne by done. by rewrite lookup_insert_eq.
  - rewrite !lookup_insert_ne by done. by rewrite lookup_insert_eq.
Qed.

Lemma market_cap_ignores_price_sign_witness :
  ∃ l' h', pull_CRSP_monthly_file (fetch_of fetched_file) [] = (Returns l', h') ∧
    ∀ (i : nat) (p cp s cs : float),
      cell [fetched_file] 0%nat "prc" i = Some p →
      cell [fetched_file] 0%nat "cfacpr" i = Some cp →
      cell [fetched_file] 0%nat "shrout" i = Some s →
      cell [fetched_file] 0%nat "cfacshr" i = Some cs →
      cell h' l' "shrout" i = Some (s * 1000)%float ∧
      cell h' l' "market_cap" i
        = Some (PrimFloat.abs p / cp * (s * 1000 * cs))%float ∧
      cell h' l' "market_cap" i
        = Some (PrimFloat.abs (- p) / cp * (s * 1000 * cs))%float.
Proof.
  apply (market_cap_ignores_price_sign (fetch_of fetched_file) [] [fetched_file]
           0%nat fetched_file);
    [reflexivity | reflexivity | eexists; vm_compute; reflexivity ..].
Defined.

(** X6.  The function works on a copy and then applies the delisting policy:
    the frame the fetch returned, like every object of the store, is left as
    it was, and the return columns of the result are those that
    [apply_delisting_returns] gives on the fetched frame. *)
Theorem pull_applies_the_delisting_policy (raw_sql : Py heap loc) (h h0 : heap)
    (l0 : loc) (f : gmap string column) :
  raw_sql h = (Returns l0, h0) → h0 !! l0 = Some f →
  is_Some (f !! "shrout") → is_Some (f !! "cfacshr") →
  is_Some (f !! "prc") → is_Some (f !! "cfacpr") →
  is_Some (f !! "dlstcd") → is_Some (f !! "dlret") → is_Some (f !! "dlretx") →
  is_Some (f !! "ret") → is_Some (f !! "retx") →
  ∃ f' h'',
    pull_CRSP_monthly_file raw_sql h = (Returns (length h0), h0 ++ [f']) ∧
    apply_delisting_returns l0 h0 = (Returns l0, h'') ∧
    ∀ name : string,
      name = "dlstcd" ∨ name = "dlret" ∨ name = "dlretx" ∨ name = "ret"
        ∨ name = "retx" →
      ∀ i : nat, cell (h0 ++ [f']) (length h0) name i = cell h'' l0 name i.
Proof.
  intros Hraw Hl0 [s Hs] [cs Hcs] [p Hp] [cp Hcp] [c Hc] [d Hd] [dx Hdx] [r Hr] [rx Hrx].
  assert (Hlt : (l0 < length h0)%nat) by (by eapply lookup_lt_Some).
  eexists _, _. split; [by eapply pull_CRSP_monthly_file_run|].
  split; [by eapply apply_delisting_returns_run|].
  intros name Hname i. rewrite cell_insert by done.
  unfold cell. rewrite lookup_snoc. simpl.
  destruct Hname as [->|[->|[->|[->| ->]]]];
    repeat (first [rewrite lookup_insert_eq | rewrite lookup_insert_ne by done]);
    done.
Qed.

Lemma pull_applies_the_delisting_policy_witness :
  ∃ f' h'',
    pull_CRSP_monthly_file (fetch_of fetched_file) []
      = (Returns (length [fetched_file]), [fetched_file] ++ [f']) ∧
    apply_delisting_returns 0%nat [fetched_file] = (Returns 0%nat, h'') ∧
    ∀ name : string,
      name = "dlstcd" ∨ name = "dlret" ∨ name = "dlretx" ∨ name = "ret"
        ∨ name = "retx" →
      ∀ i : nat, cell ([fetched_file] ++ [f']) (length [fetched_file]) name i
                 = cell h'' 0%nat name i.
Proof.
  apply (pull_applies_the_delisting_policy (fetch_of fetched_file) [] [fetched_file]
           0%nat fetched_file);
    [reflexivity | reflexivity | eexists; vm_compute; reflexivity ..].
Defined.

(** A failed fetch is passed on. *)
Lemma pull_fails_with_the_fetch (raw_sql : Py heap loc) (h h0 : heap) x :
  raw_sql h = (Raises x, h0) →
  pull_CRSP_monthly_file raw_sql h = (Raises x, h0).
Proof. intros Hraw. unfold pull_CRSP_monthly_file. by erewrite bind_raise. Qed.
End CRSP_pull.

(** ** [models/dataset.py] *)

Section Dataset_further.
Import Dataset.
Variable parse_datetime : list scalar → scalar → option (option Z).
Variable parse_slice_bound : bool → string → option (option Z).
Variable tie_rank : list Z → nat → nat.

#[local] Abbreviation to_datetime := (to_datetime parse_datetime).
#[local] Abbreviation to_datetime_from := (to_datetime_from parse_datetime).
#[local] Abbreviation dated := (dated parse_datetime).
#[local] Abbreviation ascending := (ascending tie_rank).
#[local] Abbreviation organized := (organized parse_datetime parse_slice_bound tie_rank).
#[local] Abbreviation organized_obj :=
  (organized_obj parse_datetime parse_slice_bound tie_rank).
#[local] Abbreviation reindexed := (reindexed parse_datetime).
#[local] Abbreviation argument_after := (argument_after parse_datetime).
#[local] Abbreviation kept_to := (kept_to parse_slice_bound).
#[local] Abbreviation kept_from := (kept_from parse_slice_bound).
#[local] Abbreviation organize_time_series :=
  (organize_time_series parse_datetime parse_slice_bound tie_rank).

(** *** The column of dates *)

Lemma positions_none (key : string) (cs : list colname) (i : nat) :
  CName key ∉ cs → positions key cs i = [].
Proof.
  revert i. induction cs as [|c cs IH]; intros i Hnin; simpl; [done|].
  apply not_elem_of_cons in Hnin as [Hne Hnin].
  destruct c as [s|n]; [|by apply IH].
  case_bool_decide; [congruence | by apply IH].
Qed.

Lemma positions_lookup (key : string) (cs : list colname) (i k : nat) :
  k ∈ positions key cs i → ∃ j, k = (i + j)%nat ∧ cs !! j = Some (CName key).
Proof.
  revert i. induction cs as [|c cs IH]; intros i; simpl; [by intros ?%elem_of_nil|].
  assert (Hrest : k ∈ positions key cs (S i) →
            ∃ j, k = (i + j)%nat ∧ (c :: cs) !! j = Some (CName key)).
  { intros (j & -> & Hj)%IH. exists (S j). split; [lia | done]. }
  destruct c as [s|n]; [|done].
  case_bool_decide as Hs; [|done].
  intros [->|Hin]%elem_of_cons; [|by apply Hrest].
  exists 0%nat. split; [lia | by rewrite Hs].
Qed.

Lemma spelled_date_is_found (f : DataFrame) :
  (∃ c, c ∈ columns f ∧ spells_date c) →
  ∃ cols, columns_str_lower f = Returns cols ∧ Some "date" ∈ cols.
Proof.
  intros (c & Hin & Hc). unfold columns_str_lower.
  destruct (columns f) as [|c0 cs] eqn:Hcols; [by apply elem_of_nil in Hin|].
  destruct (forallb is_CPos (c0 :: cs)) eqn:Hall.
  - rewrite forallb_forall in Hall. apply list_elem_of_In, Hall in Hin.
    by destruct c.
  - eexists. split; [done|]. apply list_elem_of_fmap. exists c.
    split; [|done]. destruct c as [s|n]; [|done]. simpl in Hc. by rewrite Hc.
Qed.

Lemma is_Series_run (h : heap) (l : loc) (o : obj) :
  h !! l = Some o →
  is_Series (PRef l) h = (Returns (match o with OSeries _ => true | _ => false end), h).
Proof.
  intros Hl. unfold is_Series. by erewrite bind_run by (by apply deref_run).
Qed.

(** X7.  A table with a column spelled "Date" or "DATE" and no column spelled
    "date" exactly is refused: the test on the columns ignores case, the
    lookup of the column does not, so the call raises [KeyError]; the store
    is as it was. *)
Theorem date_column_must_be_lower_case (h : heap) (l : loc) (f : DataFrame)
    (s e : option scalar) (b : bool) :
  h !! l = Some (OFrame f) →
  (∃ c, c ∈ columns f ∧ spells_date c) →
  CName "date" ∉ columns f →
  organize_time_series (PRef l) s e b h = (Raises KeyError, h).
Proof.
  intros Hl Hc Hnin.
  destruct (spelled_date_is_found f Hc) as (cols & Hcols & Hdate).
  rewrite organize_time_series_body by done.
  erewrite bind_run by (by apply is_Series_run).
  erewrite bind_run by reflexivity.
  erewrite bind_run.
  2:{ erewrite bind_run by (by apply as_frame_run). simpl. by rewrite Hcols. }
  rewrite bool_decide_eq_true_2 by done.
  erewrite bind_raise; [done|].
  unfold set_index. rewrite (method_run (set_index_frame "date") h l f Hl).
  rewrite new_frame_run. unfold set_index_frame.
  by rewrite positions_none.
Qed.

(** *** A Series as the argument *)

Lemma to_frame_run (h : heap) (l : loc) (sr : Series) :
  h !! l = Some (OSeries sr) →
  to_frame (PRef l) h = (Returns (PRef (length h)), h ++ [OFrame (frame_of_series sr)]).
Proof.
  intros Hl. unfold to_frame. by erewrite bind_run by (by apply deref_run).
Qed.

(** X8.  A Series without a name is refused: [to_frame] gives it the column
    label 0, and the [.str] accessor on integer labels raises
    [AttributeError].  The frame made by [to_frame] stays in the store, the
    Series is as it was. *)
Theorem unnamed_series_is_refused (h : heap) (l : loc) (sr : Series)
    (s e : option scalar) (b : bool) :
  h !! l = Some (OSeries sr) → name sr = None →
  organize_time_series (PRef l) s e b h
    = (Raises AttributeError, h ++ [OFrame (frame_of_series sr)]).
Proof.
  intros Hl Hname.
  rewrite organize_time_series_body by done.
  erewrite bind_run by (by apply is_Series_run).
  erewrite bind_run by (by apply to_frame_run).
  erewrite bind_raise; [done|].
  erewrite bind_run by (apply as_frame_run, lookup_alloc).
  simpl. unfold columns_str_lower, frame_of_series. simpl. by rewrite Hname.
Qed.

Lemma with_index_columns (f fd : DataFrame) (idx : list (option Z)) :
  with_index f idx = Returns fd → columns fd = columns f.
Proof. by intros [Hc _]%with_index_rows. Qed.

Lemma with_index_length (f fd : DataFrame) (idx : list (option Z)) :
  with_index f idx = Returns fd → length (rows fd) = length (rows f).
Proof.
  unfold with_index. case_bool_decide as Hlen; [|done]. intros [= <-]. simpl.
  rewrite length_zip_with. lia.
Qed.

(** The columns and the number of rows of the dated table. *)
Lemma dated_shape (f fd : DataFrame) :
  dated f = Returns fd →
  length (rows fd) = length (rows f) ∧
  (((CName "date" ∉ columns f) ∧ columns fd = columns f) ∨
   (∃ k, columns f !! k = Some (CName "date") ∧ columns fd = delete k (columns f))).
Proof.
  unfold Dataset.dated.
  destruct (columns_str_lower f) as [cols|x] eqn:Hcols; simpl; [|done].
  case_bool_decide as Hdate.
  - unfold set_index_frame.
    destruct (positions "date" (columns f) 0) as [|k [|k' ks]] eqn:Hpos; simpl; try done.
    destruct (mapM (promote k) (rows f)) as [rs|] eqn:Hm; simpl; [|done].
    destruct (to_datetime _) as [idx|x] eqn:Hdt; simpl; [|done].
    intros Hw. split.
    + rewrite (with_index_length _ _ _ Hw). simpl. symmetry. by eapply length_mapM.
    + right. exists k. rewrite (with_index_columns _ _ _ Hw). simpl. split; [|done].
      destruct (positions_lookup "date" (columns f) 0 k) as (j & -> & Hj); [|done].
      rewrite Hpos. apply list_elem_of_here.
  - simpl. destruct (to_datetime _) as [idx|x] eqn:Hdt; simpl; [|done].
    intros Hw. split; [by eapply with_index_length|].
    left. split; [|by eapply with_index_columns].
    intros Hin. apply Hdate. unfold columns_str_lower in Hcols.
    destruct (columns f) as [|c0 cs]; [by apply elem_of_nil in Hin|].
    destruct (forallb is_CPos (c0 :: cs)); [done|]. injection Hcols as <-.
    exact (list_elem_of_fmap_2
             (λ c, match c with CName s => Some (lower s) | CPos _ => None end)
             _ (CName "date") Hin).
Qed.

(** X9.  A Series with a name is organized as the one-column frame
    [to_frame] makes of it, and is itself left as it was.  The column keeps
    the name of the Series, unless that name is "date": then the values of
    the Series become the index and the returned table has no column. *)
Theorem named_series_becomes_a_frame (h h' : heap) (l : loc) (sr : Series)
    (n : string) (s e : option scalar) (b : bool) (v : pyval) :
  h !! l = Some (OSeries sr) → name sr = Some n →
  organize_time_series (PRef l) s e b h = (Returns v, h') →
  ∃ l' f',
    v = PRef l' ∧ l' ≠ l ∧ h' !! l' = Some (OFrame f') ∧
    organized (frame_of_series sr) s e = Returns f' ∧
    h' !! l = Some (OSeries sr) ∧
    (lower n ≠ "date" → columns f' = [CName n]) ∧
    (n = "date" → columns f' = []).
Proof.
  intros Hl Hname Hrun.
  destruct (organize_returns_inv parse_datetime parse_slice_bound tie_rank (PRef l) s e b h h' v
              ltac:(done) Hrun) as (l0 & o & f & f' & l' & [= <-] & Hl0 & Ho & Hf & -> & Hge & Hl').
  rewrite Hl in Hl0. injection Hl0 as <-. simpl in Ho. injection Ho as <-.
  destruct (organize_store parse_datetime parse_slice_bound tie_rank _ _ _ _ _ _ _ Hrun l _ Hl)
    as [_ Harg]. specialize (Harg eq_refl). simpl in Harg.
  exists l', f'. split; [done|].
  split. { apply lookup_lt_Some in Hl. lia. }
  do 3 (split; [done|]).
  apply organized_inv in Hf
    as (fd & keyed & A1 & N1 & A' & N' & Hd & _ & _ & _ & _ & _ & _ & _ & -> & _).
  apply dated_shape in Hd as [_ Hcols]. unfold frame_of_series in Hcols.
  rewrite Hname in Hcols. simpl in Hcols.
  split.
  - intros Hn. destruct Hcols as [[_ ->]|(k & Hk & ->)]; [done|].
    destruct k as [|k]; simpl in Hk; [|done]. injection Hk as ->. done.
  - intros ->. destruct Hcols as [[Hnin _]|(k & Hk & ->)].
    + exfalso. apply Hnin, list_elem_of_here.
    + destruct k as [|k]; simpl in Hk; [done|done].
Qed.

(** *** A table that is already indexed by dates *)

Lemma to_datetime_from_dates (labels : list scalar) (ds : list (option Z)) :
  to_datetime_from labels (label_of <$> ds) = Returns ds.
Proof.
  induction ds as [|[t|] ds IH]; [done|..]; rewrite fmap_cons;
    cbn [Dataset.to_datetime_from Dataset.to_datetime1 label_of mbind outcome_bind];
    by rewrite IH.
Qed.

Lemma relabel_labels (keyed : list (option Z * list scalar)) :
  (relabel <$> keyed).*1 = label_of <$> keyed.*1.
Proof. by rewrite <- !list_fmap_compose. Qed.

Lemma zip_with_relabel (keyed : list (option Z * list scalar)) :
  zip_with (λ d (r : row), (label_of d, r.2)) keyed.*1 (relabel <$> keyed)
  = relabel <$> keyed.
Proof.
  induction keyed as [|kr keyed IH]; [done|].
  rewrite !fmap_cons. cbn [zip_with]. by rewrite IH.
Qed.

Lemma with_index_dates (f : DataFrame) (keyed : list (option Z * list scalar)) :
  date_index f = Returns keyed → with_index f keyed.*1 = Returns f.
Proof.
  intros Hr%date_index_rows. unfold with_index.
  rewrite Hr, !length_fmap, bool_decide_eq_true_2 by done.
  rewrite zip_with_relabel. destruct f as [cs ic rs]. simpl in *. by subst rs.
Qed.

Lemma to_datetime_dates (f : DataFrame) (keyed : list (option Z * list scalar)) :
  date_index f = Returns keyed → to_datetime (rows f).*1 = Returns keyed.*1.
Proof.
  intros Hk. rewrite (date_index_rows _ _ Hk), relabel_labels.
  apply to_datetime_from_dates.
Qed.

Lemma reindexed_dates (f : DataFrame) (keyed : list (option Z * list scalar)) :
  date_index f = Returns keyed → reindexed f = f.
Proof.
  intros Hk. eapply reindexed_returns; [|by apply with_index_dates].
  by apply to_datetime_dates.
Qed.

Lemma argument_after_dates (f : DataFrame) (keyed : list (option Z * list scalar)) :
  date_index f = Returns keyed → argument_after (OFrame f) = OFrame f.
Proof.
  intros Hk. unfold Dataset.argument_after.
  destruct (columns_str_lower f) as [cols|x]; [|done].
  case_bool_decide; [done|]. by rewrite (reindexed_dates _ _ Hk).
Qed.

Lemma dated_dates (f : DataFrame) (keyed : list (option Z * list scalar))
    (cols : list (option string)) :
  date_index f = Returns keyed →
  columns_str_lower f = Returns cols → Some "date" ∉ cols →
  dated f = Returns f.
Proof.
  intros Hk Hcols Hdate. unfold Dataset.dated. rewrite Hcols. simpl.
  rewrite bool_decide_eq_false_2 by done. simpl.
  rewrite (to_datetime_dates _ _ Hk). simpl.
  by apply with_index_dates.
Qed.

(** X10.  A table that is already indexed by timestamps is not changed by the
    call, whatever the outcome: the index the call assigns to it in place is
    the one it had.  So no object of the store differs after the call. *)
Theorem timestamp_indexed_argument_is_kept (h h' : heap) (l : loc) (f : DataFrame)
    (keyed : list (Z * list scalar)) (s e : option scalar) (b : bool)
    (r : outcome pyval) :
  h !! l = Some (OFrame f) → datetime_index f = Returns keyed →
  organize_time_series (PRef l) s e b h = (r, h') →
  ∀ l0 o0, h !! l0 = Some o0 → h' !! l0 = Some o0.
Proof.
  intros Hl Hk%datetime_date_index Hrun l0 o0 H0.
  destruct (organize_store parse_datetime parse_slice_bound tie_rank _ _ _ _ _ _ _ Hrun
              l0 o0 H0) as [Hother Harg].
  destruct (decide (l0 = l)) as [->|Hne].
  - rewrite Harg by done. rewrite Hl in H0. injection H0 as <-.
    by rewrite (argument_after_dates _ _ Hk).
  - apply Hother. congruence.
Qed.

(** *** The rows and the columns of the returned table *)

(** X11.  When the call returns, the returned table has the columns of the
    input, less the column "date" if there is one, and each of its rows is a
    row of the input under its date: the call makes up no row.  Without
    bounds it has every row of the input, each as many times as the input
    has it. *)
Theorem rows_are_kept_or_sliced_off (ts : pyval) (s e : option scalar) (b : bool)
    (h h' : heap) (v : pyval) :
  ts ≠ PNone →
  organize_time_series ts s e b h = (Returns v, h') →
  ∃ l o f fd l' f',
    ts = PRef l ∧ h !! l = Some o ∧ table_of o = Some f ∧ dated f = Returns fd ∧
    v = PRef l' ∧ h' !! l' = Some (OFrame f') ∧
    columns f' = columns fd ∧
    (((CName "date" ∉ columns f) ∧ columns fd = columns f) ∨
     (∃ k, columns f !! k = Some (CName "date") ∧
           columns fd = delete k (columns f))) ∧
    length (rows fd) = length (rows f) ∧
    rows f' ⊆+ rows fd ∧
    (s = None → e = None → rows f' ≡ₚ rows fd).
Proof.
  intros Hts Hrun.
  destruct (organize_returns_inv parse_datetime parse_slice_bound tie_rank ts s e b h h'
              v Hts Hrun) as (l & o & f & f' & l' & -> & Hl & Ho & Hf & -> & Hge & Hl').
  apply organized_inv in Hf
    as (fd & keyed & A1 & N1 & A' & N' & Hd & Hk & Hto & Hfrom & _ & _ & Hsub & Hund
        & Hc & _ & Hr).
  destruct (dated_shape _ _ Hd) as [Hlen Hcols].
  exists l, o, f, fd, l', f'. do 7 (split; [done|]). split; [done|].
  split; [done|]. rewrite Hr, (date_index_rows _ _ Hk). split.
  - apply fmap_submseteq.
    etrans; [|apply Permutation_submseteq; symmetry; apply (split_dates keyed)].
    apply submseteq_app.
    + apply fmap_submseteq. rewrite <- (ascending_Permutation tie_rank keyed).
      by apply sublist_submseteq.
    + destruct Hund as [-> | ->]; [done | apply submseteq_nil_l].
  - intros -> ->. injection Hto as <- <-. injection Hfrom as <- <-.
    apply fmap_Permutation. rewrite (ascending_Permutation tie_rank keyed).
    symmetry. apply split_dates.
Qed.

(** *** A call that fails *)

(** What [pd.to_datetime] raises is a [ValueError]. *)
Lemma to_datetime1_raises (labels : list scalar) (v : scalar) x :
  to_datetime1 parse_datetime labels v = Raises x → x = ValueError.
Proof.
  unfold to_datetime1. destruct v as [n|s1|t|]; try done.
  - destruct (existsb is_SStr labels).
    + destruct (parse_datetime labels (SInt n)); [done | by intros [= <-]].
    + repeat case_bool_decide; try done. by intros [= <-].
  - destruct (parse_datetime labels (SStr s1)); [done | by intros [= <-]].
Qed.

Lemma to_datetime_unparsed (labels vs : list scalar) (s0 : string) :
  SStr s0 ∈ vs → parse_datetime labels (SStr s0) = None →
  to_datetime_from labels vs = Raises ValueError.
Proof.
  intros Hin Hs0. induction vs as [|v vs IH]; [by apply elem_of_nil in Hin|].
  cbn [Dataset.to_datetime_from].
  destruct (to_datetime1 parse_datetime labels v) as [d|x] eqn:Hv.
  - apply elem_of_cons in Hin as [<-|Hin].
    + unfold to_datetime1 in Hv. by rewrite Hs0 in Hv.
    + cbn [mbind outcome_bind]. by rewrite IH.
  - by apply to_datetime1_raises in Hv as ->.
Qed.

Lemma argument_after_raises (o : obj) (f : DataFrame) x :
  table_of o = Some f → dated f = Raises x → argument_after o = o.
Proof.
  destruct o as [f0|sr|d]; simpl; [|done..]. intros [= ->].
  unfold Dataset.dated, Dataset.argument_after, Dataset.reindexed.
  destruct (columns_str_lower f) as [cols|y]; simpl; [|done].
  case_bool_decide; [done|]. simpl.
  by destruct (_ ≫= _).
Qed.

(** X12.  When the table cannot be given its dates (a column "date" that is
    not found or is there twice, an index entry that is no date) the call
    raises, and every object of the store, the argument included, is as it
    was.  In particular a table without a column "date" whose index has a
    string that is no date is refused with [ValueError]. *)
Theorem failed_conversion_keeps_the_store :
  (∀ (h : heap) (l : loc) (o : obj) (f : DataFrame) x s e b,
     h !! l = Some o → table_of o = Some f → dated f = Raises x →
     ∃ h', organize_time_series (PRef l) s e b h = (Raises x, h') ∧
           ∀ l0 o0, h !! l0 = Some o0 → h' !! l0 = Some o0) ∧
  (∀ (f : DataFrame) cols s0,
     columns_str_lower f = Returns cols → Some "date" ∉ cols →
     SStr s0 ∈ (rows f).*1 → parse_datetime (rows f).*1 (SStr s0) = None →
     dated f = Raises ValueError).
Proof.
  split.
  - intros h l o f x s e b Hl Ho Hd.
    destruct (organize_time_series_run parse_datetime parse_slice_bound tie_rank h l o
                s e b Hl) as (r & h' & Hrun & Hkeep & Hres).
    unfold Dataset.organized_obj in Hres. rewrite Ho in Hres.
    rewrite (organized_raises _ _ _ _ _ _ _ Hd) in Hres. subst r.
    exists h'. split; [done|]. intros l0 o0 H0.
    rewrite (Hkeep l0 o0 H0). destruct (decide (l0 = l)) as [->|]; [|done].
    rewrite Hl in H0. injection H0 as <-.
    by rewrite (argument_after_raises _ _ _ Ho Hd).
  - intros f cols s0 Hcols Hdate Hin Hs0. unfold Dataset.dated.
    rewrite Hcols. simpl. rewrite bool_decide_eq_false_2 by done. simpl.
    unfold Dataset.to_datetime. by rewrite (to_datetime_unparsed _ _ _ Hin Hs0).
Qed.

(** *** Organizing an organized table *)

Lemma filter_keeps_all (A A'' : list (Z * list scalar)) (P : Z * list scalar → Prop)
    `{∀ x, Decision (P x)} :
  (∀ kr, kr ∈ A'' → kr ∈ filter P A) → filter P A'' = A''.
Proof.
  intros Hin. apply filter_all, Forall_forall. intros kr Hkr.
  by apply Hin, list_elem_of_filter in Hkr as [? _].
Qed.

(** The slice of the end bound keeps all of what the two slices have left. *)
Lemma kept_to_again (e : option scalar) (A0 A1 A'' : list (Z * list scalar))
    (N0 N1 N' : list (option Z * list scalar)) :
  kept_to e (A0, N0) = Returns (A1, N1) →
  (∀ kr, kr ∈ A'' → kr ∈ A1) → N' = N1 ∨ N' = [] →
  kept_to e (A'', N') = Returns (A'', N').
Proof.
  unfold Dataset.kept_to. destruct e as [b|]; [|done].
  destruct (cast_slice_bound parse_slice_bound true b) as [[t|]|x];
    cbn [mbind outcome_bind fst snd]; [| |done].
  - destruct (_ && _); [done|]. intros [= <- <-] Hin HN.
    assert (N' = []) as -> by (by destruct HN).
    rewrite (bool_decide_eq_true_2 ([] = [])) by done. cbn [negb andb].
    f_equal. f_equal. by apply (filter_keeps_all A0).
  - destruct (is_SStr b); cbn [andb]; [|by intros [= <- <-]].
    case_bool_decide as HN0; cbn [negb]; [|done]. intros [= <- <-] _ HN.
    assert (N' = []) as -> by (destruct HN; congruence).
    by rewrite (bool_decide_eq_true_2 ([] = [])).
Qed.

(** So does the slice of the start bound. *)
Lemma kept_from_again (s : option scalar) (A1 A' A'' : list (Z * list scalar))
    (N1 N' : list (option Z * list scalar)) :
  kept_from s (A1, N1) = Returns (A', N') → A'' ≡ₚ A' →
  kept_from s (A'', N') = Returns (A'', N').
Proof.
  unfold Dataset.kept_from. destruct s as [b|]; [|done].
  destruct (cast_slice_bound parse_slice_bound false b) as [[t|]|x];
    cbn [mbind outcome_bind fst snd]; [| |done].
  - assert (Hall : A' = filter (λ kr, t ≤ kr.1) A1 → A'' ≡ₚ A' →
              filter (λ kr, t ≤ kr.1) A'' = A'').
    { intros -> Hperm. apply (filter_keeps_all A1). intros kr Hkr.
      by rewrite <- Hperm. }
    case_bool_decide as HN1.
    + intros [= <- <-] Hperm. rewrite (bool_decide_eq_true_2 ([] = [])) by done.
      by rewrite Hall.
    + case_bool_decide as Hin; cbn [negb]; [|done]. intros [= <- <-] Hperm.
      rewrite (Hall eq_refl Hperm). destruct (is_SStr b).
      * by rewrite (bool_decide_eq_true_2 ([] = [])).
      * rewrite (bool_decide_eq_false_2 (N1 = [])) by done.
        rewrite bool_decide_eq_true_2; [done|].
        apply list_elem_of_fmap in Hin as (kr & -> & Hkr).
        apply list_elem_of_fmap. exists kr. split; [done|].
        rewrite Hperm. apply list_elem_of_filter. split; [lia | done].
  - destruct (is_SStr b); cbn [andb].
    + case_bool_decide as HN1; cbn [negb]; [|done]. intros [= <- <-] Hperm.
      apply Permutation_nil_r in Hperm as ->.
      by rewrite bool_decide_eq_true_2.
    + intros [= <- <-] Hperm. by apply Permutation_nil_r in Hperm as ->.
Qed.

(** X13.  Organizing the returned table again, with the same bounds, returns
    a new table with the same columns, the same index and the same rows, and
    leaves the first one as it is, provided no column of it is spelled like
    "date" and its columns are not all unnamed.  When no date occurs twice
    the two tables are equal; rows of equal date may come in another
    order. *)
Theorem organizing_again_changes_nothing (ts : pyval) (s e : option scalar)
    (b b2 : bool) (h h' : heap) (l' : loc) (f' : DataFrame)
    (cols : list (option string)) :
  ts ≠ PNone →
  organize_time_series ts s e b h = (Returns (PRef l'), h') →
  h' !! l' = Some (OFrame f') →
  columns_str_lower f' = Returns cols → Some "date" ∉ cols →
  ∃ l'' f'' h'',
    organize_time_series (PRef l') s e b2 h' = (Returns (PRef l''), h'') ∧
    l'' ≠ l' ∧ h'' !! l'' = Some (OFrame f'') ∧ h'' !! l' = Some (OFrame f') ∧
    columns f'' = columns f' ∧
    (rows f'').*1 = (rows f').*1 ∧
    rows f'' ≡ₚ rows f' ∧
    (NoDup (rows f').*1 → f'' = f').
Proof.
  intros Hts Hrun Hl' Hcols Hdate.
  destruct (organize_returns_inv parse_datetime parse_slice_bound tie_rank ts s e b h h'
              _ Hts Hrun) as (l & o & f & f0 & l0 & -> & Hl & Ho & Hf & [= <-] & Hge & Hl0).
  rewrite Hl' in Hl0. injection Hl0 as <-.
  apply organized_inv in Hf
    as (fd & keyed & A1 & N1 & A' & N' & Hd & Hk & Hto & Hfrom & Hsorted & HN & Hsub
        & Hund & Hc & Hic & Hr).
  assert (Hk' : date_index f' = Returns ((present <$> A') ++ N')).
  { destruct f' as [cs ic rs]. simpl in Hr. subst rs. apply date_index_relabel. }
  assert (Hd' : dated f' = Returns f') by (by eapply dated_dates).
  assert (Hperm : ascending ((present <$> A') ++ N') ≡ₚ A').
  { rewrite (ascending_Permutation tie_rank ((present <$> A') ++ N')). by rewrite timestamps_form. }
  assert (Hsorted' : StronglySorted key_le (ascending ((present <$> A') ++ N'))) by apply ascending_sorted.
  pose proof (organized_eq parse_datetime parse_slice_bound tie_rank f' f' ((present <$> A') ++ N') s e Hd' Hk')
    as Hf'.
  assert (HmissK : missing ((present <$> A') ++ N') = N') by (by rewrite missing_form).
  rewrite HmissK in Hf'.
  destruct (kept_to_inv _ _ _ _ _ _ Hto) as [_ HN1].
  destruct (kept_from_inv _ _ _ _ _ _ Hfrom) as [Hsub2 HN2].
  rewrite (kept_to_again e _ A1 (ascending ((present <$> A') ++ N')) _ N1 N' Hto) in Hf'; [|
    intros kr Hkr; rewrite Hperm in Hkr; by eapply elem_of_sublist | done].
  cbn [mbind outcome_bind] in Hf'.
  rewrite (kept_from_again s A1 A' (ascending ((present <$> A') ++ N')) N1 N' Hfrom Hperm) in Hf'.
  cbn [mbind outcome_bind fst snd] in Hf'.
  destruct (organize_time_series_run parse_datetime parse_slice_bound tie_rank h' l' _
              s e b2 Hl') as (r & h'' & Hrun' & Hkeep & Hres).
  unfold Dataset.organized_obj in Hres. simpl in Hres. rewrite Hf' in Hres.
  destruct Hres as (l'' & -> & Hge' & Hl'').
  eexists l'', _, h''. split; [done|].
  split. { apply lookup_lt_Some in Hl'. lia. }
  split; [done|]. split.
  { rewrite (Hkeep l' _ Hl'), decide_True by done.
    by rewrite (argument_after_dates _ _ Hk'). }
  simpl. split; [done|]. rewrite Hr.
  split; [|split].
  - assert (Hkeys : (ascending ((present <$> A') ++ N')).*1 = A'.*1).
    { apply (Sorted_unique Z.le).
      - by apply keys_sorted.
      - by apply keys_sorted.
      - by apply fmap_Permutation. }
    by rewrite !relabel_labels, !index_form, Hkeys.
  - apply fmap_Permutation. by rewrite Hperm.
  - intros Hnd. rewrite relabel_labels in Hnd. apply NoDup_fmap_1 in Hnd.
    rewrite index_form in Hnd.
    apply NoDup_app in Hnd as (Hnd & _ & _). apply NoDup_fmap_1 in Hnd.
    assert (Hsame : ascending ((present <$> A') ++ N') = A').
    { rewrite <- (timestamps_form A' N' HN) at 2.
      apply ascending_NoDup; by rewrite timestamps_form. }
    rewrite Hsame. destruct f' as [cs ic rs]. simpl in *. by subst rs.
Qed.

(** *** class [Dataset] *)

#[local] Abbreviation Dataset := (Dataset parse_datetime parse_slice_bound tie_rank).
#[local] Abbreviation set_X := (set_X parse_datetime parse_slice_bound tie_rank).

(** What a returned table is made of, on the store: the rows that have a
    date, in ascending order, then the rows that have none. *)
Lemma organize_returns_keyed (ts : pyval) (s e : option scalar) (b : bool)
    (h h' : heap) (v : pyval) :
  ts ≠ PNone →
  organize_time_series ts s e b h = (Returns v, h') →
  ∃ l o f fd keyed0 A1 N1 l' f' kept undated,
    ts = PRef l ∧ h !! l = Some o ∧ table_of o = Some f ∧
    dated f = Returns fd ∧ date_index fd = Returns keyed0 ∧
    kept_to e (ascending keyed0, missing keyed0) = Returns (A1, N1) ∧
    kept_from s (A1, N1) = Returns (kept, undated) ∧
    v = PRef l' ∧ (length h ≤ l')%nat ∧ h' !! l' = Some (OFrame f') ∧
    date_index f' = Returns ((present <$> kept) ++ undated) ∧
    StronglySorted key_le kept ∧ Forall is_missing undated.
Proof.
  intros Hts Hrun.
  destruct (organize_returns_inv parse_datetime parse_slice_bound tie_rank ts s e b h h'
              v Hts Hrun) as (l & o & f & f' & l' & -> & Hl & Ho & Hf & -> & Hge & Hl').
  apply organized_inv in Hf
    as (fd & keyed0 & A1 & N1 & kept & undated & Hd & Hk & Hto & Hfrom & Hs & HN & _ & _
        & _ & _ & Hr).
  exists l, o, f, fd, keyed0, A1, N1, l', f', kept, undated.
  do 10 (split; [done|]). split; [|done].
  destruct f' as [cs ic rs]. simpl in Hr. subst rs. apply date_index_relabel.
Qed.

(** An object that the call would leave as it is if it were the argument is
    left as it is. *)
Lemma organize_keeps (ts : pyval) (s e : option scalar) (b : bool)
    (h h' : heap) (r : outcome pyval) (l0 : loc) (o0 : obj) :
  organize_time_series ts s e b h = (r, h') →
  h !! l0 = Some o0 → argument_after o0 = o0 → h' !! l0 = Some o0.
Proof.
  intros Hrun H0 Hsame.
  destruct (organize_store parse_datetime parse_slice_bound tie_rank _ _ _ _ _ _ _ Hrun l0 o0 H0)
    as [Hother Harg].
  destruct ts as [|l|x]; [by apply Hother..| |by apply Hother].
  destruct (decide (l = l0)) as [->|Hne].
  - rewrite Harg by done. by rewrite Hsame.
  - apply Hother. congruence.
Qed.

(** The store after a construction that returns. *)
Lemma Dataset_returns_inv (y X : pyval) (s e : option scalar) (tf : pyval)
    (h h' : heap) (self : loc) :
  Dataset y X s e tf h = (Returns self, h') →
  ∃ vy vx h1 h2,
    self = length h ∧
    organize_time_series y s e true (h ++ [OInstance ∅]) = (Returns vy, h1) ∧
    organize_time_series X s e false (<[self := OInstance (<["y" := vy]> ∅)]> h1)
      = (Returns vx, h2) ∧
    (self < length h2)%nat ∧
    h' = <[self := OInstance (<["y_pred" := PNone]> (<["time_frequency" := tf]>
                                (<["X" := vx]> (<["y" := vy]> ∅))))]> h2.
Proof.
  unfold Dataset.Dataset.
  intros (self' & h0 & Hnew & (u & h3 & Hinit & [= <- <-])%bind_returns)%bind_returns.
  injection Hnew as <- <-.
  unfold Dataset.__init__ in Hinit.
  apply bind_returns in Hinit as (vy & h1 & Hy & Hinit).
  apply bind_returns in Hinit as (? & h1a & Hsety & Hinit).
  apply bind_returns in Hinit as (vx & h2 & HX & Hinit).
  apply bind_returns in Hinit as (? & h2a & HsetX & Hinit).
  apply bind_returns in Hinit as (? & h2b & Hsettf & Hinit).
  assert (Hself1 : h1 !! length h = Some (OInstance ∅)).
  { eapply organize_keeps; [exact Hy | apply lookup_alloc | done]. }
  apply setattr_returns in Hsety as (d1 & Hd1 & ->).
  rewrite Hself1 in Hd1. injection Hd1 as <-.
  assert (Hself2 : h2 !! length h = Some (OInstance (<["y" := vy]> ∅))).
  { assert (Hin : <[length h := OInstance (<["y" := vy]> ∅)]> h1 !! length h
                  = Some (OInstance (<["y" := vy]> ∅))).
    { apply list_lookup_insert_eq. by eapply lookup_lt_Some. }
    eapply organize_keeps; [exact HX | exact Hin | done]. }
  assert (Hlt : (length h < length h2)%nat) by (by eapply lookup_lt_Some).
  apply setattr_returns in HsetX as (d2 & Hd2 & ->).
  rewrite Hself2 in Hd2. injection Hd2 as <-.
  apply setattr_returns in Hsettf as (d3 & Hd3 & ->).
  rewrite list_lookup_insert_eq in Hd3 by done. injection Hd3 as <-.
  apply setattr_returns in Hinit as (d4 & Hd4 & ->).
  rewrite list_lookup_insert_eq in Hd4 by (by rewrite length_insert).
  injection Hd4 as <-.
  exists vy, vx, h1, h2. rewrite !list_insert_insert_eq. done.
Qed.

(** X14.  A constructed [Dataset] is a new object that holds new tables: [y]
    is a table made by the construction, its rows that have a date in
    ascending order of date and those whose date is missing after them, and so
    is [X] unless it was given as null, in which case it is null; a table
    without a missing date is indexed by ascending timestamps.  The time
    frequency is the argument as given.  The objects that were in the store
    and are neither of the two arguments are as they were. *)
Theorem constructed_dataset_holds_new_tables (y X : pyval) (s e : option scalar)
    (tf : pyval) (h h' : heap) (self : loc) :
  Dataset y X s e tf h = (Returns self, h') →
  ∃ ly fy kept undated,
    self = length h ∧
    get_y self h' = (Returns (PRef ly), h') ∧ (length h < ly)%nat ∧
    h' !! ly = Some (OFrame fy) ∧
    date_index fy = Returns ((present <$> kept) ++ undated) ∧
    Forall is_missing undated ∧ Sorted Z.le kept.*1 ∧
    (undated = [] → datetime_index fy = Returns kept) ∧
    getattr self "time_frequency" h' = (Returns tf, h') ∧
    (∀ l o, h !! l = Some o → y ≠ PRef l → X ≠ PRef l → h' !! l = Some o) ∧
    (X = PNone → get_X self h' = (Returns PNone, h')) ∧
    (X ≠ PNone →
       ∃ lx fx keptx undatedx,
         get_X self h' = (Returns (PRef lx), h') ∧ (ly < lx)%nat ∧
         h' !! lx = Some (OFrame fx) ∧
         date_index fx = Returns ((present <$> keptx) ++ undatedx) ∧
         Forall is_missing undatedx ∧ Sorted Z.le keptx.*1 ∧
         (undatedx = [] → datetime_index fx = Returns keptx)).
Proof.
  intros (vy & vx & h1 & h2 & -> & Hy & HX & Hlt & ->)%Dataset_returns_inv.
  assert (Hy0 : y ≠ PNone) by (by intros ->).
  destruct (organize_returns_keyed _ _ _ _ _ _ _ Hy0 Hy)
    as (l & o & f & fd & keyed0 & A1 & N1 & ly & fy & kept & undated & -> & Hl & Ho & Hd
        & Hk0 & _ & _ & -> & Hge & Hly & Hk & Hsorted & Hund).
  rewrite length_app in Hge. simpl in Hge.
  set (h1a := <[length h := OInstance (<["y" := PRef ly]> ∅)]> h1) in *.
  assert (Hly1 : h1a !! ly = Some (OFrame fy)).
  { unfold h1a. rewrite list_lookup_insert_ne by lia. done. }
  assert (Hly2 : h2 !! ly = Some (OFrame fy)).
  { eapply organize_keeps; [exact HX | exact Hly1 |].
    by apply (argument_after_dates _ _ Hk). }
  set (attrs := <["y_pred" := PNone]> (<["time_frequency" := tf]>
                  (<["X" := vx]> (<["y" := PRef ly]> ∅)))).
  assert (Hself : <[length h := OInstance attrs]> h2 !! length h = Some (OInstance attrs))
    by (by apply list_lookup_insert_eq).
  exists ly, fy, kept, undated. split; [done|].
  split. { unfold get_y. by rewrite (getattr_run _ _ _ _ Hself). }
  split; [lia|].
  split. { rewrite list_lookup_insert_ne by lia. done. }
  split; [done|]. split; [done|]. split; [by apply keys_sorted|].
  split. { intros ->. rewrite app_nil_r in Hk. by apply datetime_date_index. }
  split. { by rewrite (getattr_run _ _ _ _ Hself). }
  split.
  { intros l0 o0 H0 Hny HnX.
    assert (Hl0 : (l0 < length h)%nat) by (by eapply lookup_lt_Some).
    rewrite list_lookup_insert_ne by lia.
    assert (H1 : h1 !! l0 = Some o0).
    { apply (organize_store parse_datetime parse_slice_bound tie_rank _ _ _ _ _ _ _ Hy);
        [|done]. by rewrite lookup_app_l. }
    apply (organize_store parse_datetime parse_slice_bound tie_rank _ _ _ _ _ _ _ HX);
      [|done].
    unfold h1a. rewrite list_lookup_insert_ne by lia. done. }
  split.
  - intros ->. injection HX as <- <-.
    unfold get_X. by rewrite (getattr_run _ _ _ _ Hself).
  - intros HX0.
    destruct (organize_returns_keyed _ _ _ _ _ _ _ HX0 HX)
      as (lX & oX & fX & fdX & keyedX0 & AX1 & NX1 & lx & fx & keptx & undatedx & _ & _
          & _ & _ & _ & _ & _ & -> & Hgex & Hlx & Hkx & Hsortedx & Hundx).
    assert (Hlen1 : (ly < length h1a)%nat) by (by eapply lookup_lt_Some).
    exists lx, fx, keptx, undatedx.
    split. { unfold get_X. by rewrite (getattr_run _ _ _ _ Hself). }
    split; [lia|].
    split. { rewrite list_lookup_insert_ne by lia. done. }
    split; [done|]. split; [done|]. split; [by apply keys_sorted|].
    intros ->. rewrite app_nil_r in Hkx. by apply datetime_date_index.
Qed.

(** X15.  The length of a [Dataset] constructed with bounds that are
    timestamps is the number of rows of [y] whose date is within the bounds,
    rows of equal date counting each, and, when there is no end bound, the
    rows whose date is missing besides. *)
Theorem len_counts_the_rows_within_bounds (y X : pyval) (s e : option Z)
    (tf : pyval) (h h' : heap) (self : loc) :
  Dataset y X (STs <$> s) (STs <$> e) tf h = (Returns self, h') →
  ∃ l o f fd keyed0,
    y = PRef l ∧ h !! l = Some o ∧ table_of o = Some f ∧
    dated f = Returns fd ∧ date_index fd = Returns keyed0 ∧
    ∀ depth,
      __len__ depth h' self =
        Len (length (filter (λ kr : Z * list scalar,
                               not_before s kr.1 ∧ not_after e kr.1)
                       (timestamps keyed0))
             + match e with
               | Some _ => 0
               | None => length (missing keyed0)
               end).
Proof.
  intros (vy & vx & h1 & h2 & -> & Hy & HX & Hlt & ->)%Dataset_returns_inv.
  assert (Hy0 : y ≠ PNone) by (by intros ->).
  destruct (organize_returns_keyed _ _ _ _ _ _ _ Hy0 Hy)
    as (l & o & f & fd & keyed0 & A1 & N1 & ly & fy & kept & undated & -> & Hl & Ho & Hd
        & Hk0 & Hto & Hfrom & -> & Hge & Hly & Hk & Hsorted & Hund).
  destruct (kept_timestamps _ _ _ _ _ _ _ _ _ Hto Hfrom) as [Hkept Hundated].
  rewrite length_app in Hge. simpl in Hge.
  set (h1a := <[length h := OInstance (<["y" := PRef ly]> ∅)]> h1) in *.
  assert (Hly1 : h1a !! ly = Some (OFrame fy)).
  { unfold h1a. rewrite list_lookup_insert_ne by lia. done. }
  assert (Hly2 : h2 !! ly = Some (OFrame fy)).
  { eapply organize_keeps; [exact HX | exact Hly1 |].
    by apply (argument_after_dates _ _ Hk). }
  assert (Hl0 : h !! l = Some o).
  { destruct (decide (l = length h)) as [->|Hne].
    - rewrite lookup_alloc in Hl. injection Hl as <-. done.
    - rewrite lookup_app_l in Hl; [done|]. apply lookup_lt_Some in Hl.
      rewrite length_app in Hl. simpl in Hl. lia. }
  assert (Hcount : length (rows fy) =
            (length (filter (λ kr : Z * list scalar,
                               not_before s kr.1 ∧ not_after e kr.1)
                       (timestamps keyed0))
             + match e with
               | Some _ => 0
               | None => length (missing keyed0)
               end)%nat).
  { rewrite (date_index_rows _ _ Hk), length_fmap, length_app, length_fmap.
    rewrite Hkept, Hundated, list_filter_filter. f_equal; [|by destruct e].
    apply Permutation_length, filter_Permutation, ascending_Permutation. }
  exists l, o, f, fd, keyed0. do 5 (split; [done|]).
  intros depth. unfold __len__. cbn [len].
  rewrite list_lookup_insert_eq by done.
  rewrite lookup_insert_ne, lookup_insert_ne, lookup_insert_ne, lookup_insert_eq by done.
  destruct depth; cbn [len]; rewrite list_lookup_insert_ne, Hly2 by lia.
  all: by rewrite Hcount.
Qed.

(** *** [set_X] *)

Lemma index_at_run (h : heap) (l : loc) (f : DataFrame) (at_end : bool) :
  h !! l = Some (OFrame f) →
  index_at (PRef l) at_end h =
    (match (if at_end then list.last (rows f).*1 else head (rows f).*1) with
     | Some x => Returns x
     | None => Raises IndexError
     end, h).
Proof.
  intros Hl. unfold index_at. erewrite bind_run by (by apply deref_run).
  erewrite bind_run by reflexivity. by destruct (if at_end then _ else _).
Qed.

(** X16.  [set_X] on a [Dataset] whose [y] is indexed from the date [t0] to
    the date [t1] stores as [X] a new table, indexed by ascending
    timestamps, all of them from [t0] to [t1]; [y] stays the table it
    was. *)
Theorem set_X_slices_to_the_dates_of_y (self ly : loc) (d : gmap string pyval)
    (fy : DataFrame) (t0 t1 : Z) (X : pyval) (h h' : heap) :
  h !! self = Some (OInstance d) → d !! "y" = Some (PRef ly) →
  h !! ly = Some (OFrame fy) →
  head (rows fy).*1 = Some (STs t0) → list.last (rows fy).*1 = Some (STs t1) →
  X ≠ PNone →
  set_X self X h = (Returns (), h') →
  ∃ lx fx keyed,
    get_X self h' = (Returns (PRef lx), h') ∧ (length h ≤ lx)%nat ∧
    h' !! lx = Some (OFrame fx) ∧
    datetime_index fx = Returns keyed ∧ Sorted Z.le keyed.*1 ∧
    Forall (λ t, t0 ≤ t ≤ t1) keyed.*1 ∧
    get_y self h' = (Returns (PRef ly), h').
Proof.
  intros Hself Hy Hly Hhead Hlast HX0 Hrun. unfold Dataset.set_X in Hrun.
  assert (Hgety : getattr self "y" h = (Returns (PRef ly), h))
    by (by rewrite (getattr_run _ _ _ _ Hself), Hy).
  erewrite bind_run in Hrun by exact Hgety.
  erewrite bind_run in Hrun by (by rewrite (index_at_run _ _ _ false Hly), Hhead).
  erewrite bind_run in Hrun by exact Hgety.
  erewrite bind_run in Hrun by (by rewrite (index_at_run _ _ _ true Hly), Hlast).
  apply bind_returns in Hrun as (vx & h2 & HX & Hset).
  destruct (organize_returns_keyed _ _ _ _ _ _ _ HX0 HX)
    as (l & o & f & fd & keyed0 & A1 & N1 & lx & fx & keyed & undated & -> & Hl & Ho
        & Hd & Hk0 & Hto & Hfrom & -> & Hge & Hlx & Hk & Hsorted & Hund).
  destruct (kept_timestamps parse_slice_bound (Some t0) (Some t1) _ _ _ _ _ _ Hto Hfrom)
    as [Hkeyed ->].
  rewrite app_nil_r in Hk. apply datetime_date_index in Hk.
  assert (Hself2 : h2 !! self = Some (OInstance d)).
  { eapply organize_keeps; [exact HX | exact Hself | done]. }
  rewrite (setattr_run _ _ _ _ _ Hself2) in Hset. injection Hset as <-.
  assert (Hlts : (self < length h)%nat) by (by eapply lookup_lt_Some).
  assert (Hlts2 : (self < length h2)%nat) by (by eapply lookup_lt_Some).
  assert (Hnew : <[self := OInstance (<["X" := PRef lx]> d)]> h2 !! self
                 = Some (OInstance (<["X" := PRef lx]> d)))
    by (by apply list_lookup_insert_eq).
  exists lx, fx, keyed.
  split. { unfold get_X. by rewrite (getattr_run _ _ _ _ Hnew), lookup_insert_eq. }
  split; [done|].
  split. { rewrite list_lookup_insert_ne by lia. done. }
  split; [done|]. split; [by apply keys_sorted|].
  split.
  - apply Forall_fmap, Forall_forall. intros kr. rewrite Hkeyed.
    intros [Hs [He _]%list_elem_of_filter]%list_elem_of_filter.
    simpl in Hs, He. simpl. lia.
  - unfold get_y. by rewrite (getattr_run _ _ _ _ Hnew), lookup_insert_ne, Hy.
Qed.

(** X17.  [set_X] reads the first and the last date of [y] before it looks at
    its argument: on a [Dataset] whose [y] is null it raises
    [AttributeError], on one whose [y] has no row it raises [IndexError],
    whatever [X] is, and the store is as it was.  With a [y] that has rows, a
    null [X] is stored as null. *)
Theorem set_X_reads_the_dates_of_y (self : loc) (d : gmap string pyval)
    (X : pyval) (h : heap) :
  h !! self = Some (OInstance d) →
  (d !! "y" = Some PNone → set_X self X h = (Raises AttributeError, h)) ∧
  (∀ ly fy, d !! "y" = Some (PRef ly) → h !! ly = Some (OFrame fy) →
     rows fy = [] → set_X self X h = (Raises IndexError, h)) ∧
  (∀ ly fy, d !! "y" = Some (PRef ly) → h !! ly = Some (OFrame fy) →
     rows fy ≠ [] →
     set_X self PNone h
       = (Returns (), <[self := OInstance (<["X" := PNone]> d)]> h)).
Proof.
  intros Hself. unfold Dataset.set_X. split; [|split].
  - intros Hy.
    erewrite bind_run by (by rewrite (getattr_run _ _ _ _ Hself), Hy).
    by erewrite bind_raise.
  - intros ly fy Hy Hly Hrows.
    erewrite bind_run by (by rewrite (getattr_run _ _ _ _ Hself), Hy).
    erewrite bind_raise; [done|].
    by rewrite (index_at_run _ _ _ false Hly), Hrows.
  - intros ly fy Hy Hly Hrows.
    assert (Hgety : getattr self "y" h = (Returns (PRef ly), h))
      by (by rewrite (getattr_run _ _ _ _ Hself), Hy).
    destruct (head (rows fy).*1) as [a|] eqn:Hhead.
    2:{ apply head_None, fmap_nil_inv in Hhead. done. }
    destruct (list.last (rows fy).*1) as [z|] eqn:Hlast.
    2:{ apply last_None, fmap_nil_inv in Hlast. done. }
    erewrite bind_run by exact Hgety.
    erewrite bind_run by (by rewrite (index_at_run _ _ _ false Hly), Hhead).
    erewrite bind_run by exact Hgety.
    erewrite bind_run by (by rewrite (index_at_run _ _ _ true Hly), Hlast).
    erewrite bind_run by reflexivity.
    by apply setattr_run.
Qed.

(** *** [from_organized_time_series] and [create_from_y] *)

(** X18.  [from_organized_time_series] makes one new object and nothing else:
    the arguments are stored as they are given, not organized, so [get_y],
    [get_X] and the time frequency give them back, and the length of the
    instance is the length of the [y] given.  [create_from_y] does the same
    with a null [X]. *)
Theorem from_organized_time_series_keeps_its_arguments :
  (∀ (y X tf : pyval) (h : heap),
     ∃ o, let h' := h ++ [o] in
       from_organized_time_series y X tf h = (Returns (length h), h') ∧
       get_y (length h) h' = (Returns y, h') ∧
       get_X (length h) h' = (Returns X, h') ∧
       getattr (length h) "time_frequency" h' = (Returns tf, h') ∧
       ∀ depth, __len__ depth h' (length h) = len depth h' y) ∧
  (∀ (y tf : pyval) (h : heap),
     ∃ o, let h' := h ++ [o] in
       create_from_y y tf h = (Returns (length h), h') ∧
       get_y (length h) h' = (Returns y, h') ∧
       get_X (length h) h' = (Returns PNone, h')).
Proof.
  assert (Hgen : ∀ (y X tf : pyval) (h : heap),
     ∃ o, let h' := h ++ [o] in
       from_organized_time_series y X tf h = (Returns (length h), h') ∧
       get_y (length h) h' = (Returns y, h') ∧
       get_X (length h) h' = (Returns X, h') ∧
       getattr (length h) "time_frequency" h' = (Returns tf, h') ∧
       ∀ depth, __len__ depth h' (length h) = len depth h' y).
  { intros y X tf h. eexists. cbn zeta.
    split; [apply from_organized_time_series_run|].
    unfold get_y, get_X.
    rewrite !(getattr_run _ _ _ _ (lookup_alloc _ _)).
    do 3 (split; [done|]).
    intros depth. unfold __len__. cbn [len]. by rewrite lookup_alloc. }
  split; [exact Hgen|].
  intros y tf h. destruct (Hgen y PNone tf h) as (o & Hrun & Hy & HX & _).
  exists o. done.
Qed.


(** *** Bounds that are no dates *)

(** X19.  A bound that is an integer is refused: on a table whose dates
    convert, the call with an integer as the end bound raises [TypeError] at
    the slice, and so does the call with an integer as the start bound when
    the end bound is absent, or is a timestamp that the slice of the end
    bound accepts: one that is a date of the index, or any when no date is
    missing.  By then the argument has had its index converted in place, as
    in a call that returns; every other object of the store is as it was. *)
Theorem integer_bound_is_refused (h : heap) (l : loc) (o : obj) (f fd : DataFrame)
    (keyed : list (option Z * list scalar)) (s e : option scalar) (b : bool) :
  h !! l = Some o → table_of o = Some f → dated f = Returns fd →
  date_index fd = Returns keyed →
  (∃ n, e = Some (SInt n)) ∨
  ((e = None ∨
    ∃ t, e = Some (STs t) ∧ (missing keyed = [] ∨ t ∈ (timestamps keyed).*1)) ∧
   ∃ n, s = Some (SInt n)) →
  ∃ h', organize_time_series (PRef l) s e b h = (Raises TypeError, h') ∧
        h' !! l = Some (argument_after o) ∧
        ∀ l0 o0, h !! l0 = Some o0 → l0 ≠ l → h' !! l0 = Some o0.
Proof.
  intros Hl Ho Hd Hk Hbound.
  destruct (organize_time_series_run parse_datetime parse_slice_bound tie_rank h l o
              s e b Hl) as (r & h' & Hrun & Hkeep & Hres).
  unfold Dataset.organized_obj in Hres. rewrite Ho in Hres.
  rewrite (organized_eq _ _ _ _ _ _ _ _ Hd Hk) in Hres.
  assert (Hcast : (r1 ← kept_to e (ascending keyed, missing keyed);
                   r2 ← kept_from s r1;
                   Returns {| columns := columns fd;
                              integer_columns := integer_columns fd;
                              rows := relabel <$> ((present <$> r2.1) ++ r2.2) |})
                  = Raises TypeError).
  { destruct Hbound as [[n ->] | [[-> | (t & -> & Ht)] [n ->]]]; [done..|].
    unfold Dataset.kept_to.
    cbn [Dataset.cast_slice_bound mbind outcome_bind fst snd].
    assert (Hcond : negb (bool_decide (missing keyed = []))
                    && negb (bool_decide (t ∈ (ascending keyed).*1)) = false).
    { destruct Ht as [Hnone|Hin].
      - by rewrite (bool_decide_eq_true_2 _ Hnone).
      - rewrite (bool_decide_eq_true_2 (t ∈ (ascending keyed).*1)).
        + apply andb_false_r.
        + by rewrite (ascending_Permutation tie_rank keyed). }
    by rewrite Hcond. }
  rewrite Hcast in Hres. subst r.
  exists h'. split; [done|]. split.
  - by rewrite (Hkeep l o Hl), decide_True.
  - intros l0 o0 H0 Hne. by rewrite (Hkeep l0 o0 H0), decide_False.
Qed.

(** *** A construction that returns *)

Lemma columns_str_lower_columns (f g : DataFrame) :
  columns f = columns g → integer_columns f = integer_columns g →
  columns_str_lower f = columns_str_lower g.
Proof. intros Hc Hi. unfold columns_str_lower. by rewrite Hc, Hi. Qed.

(** A table whose dates convert, none of them missing, is still one after a
    call has had it as its argument. *)
Lemma argument_after_dated (o : obj) (f fd : DataFrame)
    (keyed : list (Z * list scalar)) :
  table_of o = Some f → dated f = Returns fd → datetime_index fd = Returns keyed →
  ∃ f2 fd2, table_of (argument_after o) = Some f2 ∧ dated f2 = Returns fd2 ∧
            datetime_index fd2 = Returns keyed.
Proof.
  intros Ho Hd Hk. destruct o as [f0|sr|d]; [|by eauto|done].
  simpl in Ho. injection Ho as ->. unfold Dataset.argument_after.
  destruct (columns_str_lower f) as [cols|x] eqn:Hcols; [|by eauto].
  case_bool_decide as Hdate; [by eauto|].
  assert (Hfd : (idx ← to_datetime (rows f).*1; with_index f idx) = Returns fd).
  { unfold Dataset.dated in Hd. rewrite Hcols in Hd. simpl in Hd.
    by rewrite bool_decide_eq_false_2 in Hd. }
  assert (Hre : reindexed f = fd) by (unfold Dataset.reindexed; by rewrite Hfd).
  rewrite Hre. exists fd, fd. split; [done|]. split; [|done].
  apply (dated_dates fd (present <$> keyed) cols);
    [by apply datetime_date_index| |done].
  rewrite <- Hcols.
  destruct (to_datetime (rows f).*1) as [idx|x]; simpl in Hfd; [|done].
  apply with_index_rows in Hfd as (Hc & Hi & _).
  by apply columns_str_lower_columns.
Qed.

(** X20.  The construction returns whenever [y] is a table of the store whose
    dates convert, none of them missing, [X] is null or such a table too (it
    may be the same one), and the bounds are absent or timestamps. *)
Theorem Dataset_returns (h : heap) (l : loc) (o : obj) (f fd : DataFrame)
    (keyed : list (Z * list scalar)) (X : pyval) (s e : option Z) (tf : pyval) :
  h !! l = Some o → table_of o = Some f → dated f = Returns fd →
  datetime_index fd = Returns keyed →
  X = PNone ∨
  (∃ lX oX fX fdX keyedX,
     X = PRef lX ∧ h !! lX = Some oX ∧ table_of oX = Some fX ∧
     dated fX = Returns fdX ∧ datetime_index fdX = Returns keyedX) →
  ∃ h', Dataset (PRef l) X (STs <$> s) (STs <$> e) tf h = (Returns (length h), h').
Proof.
  intros Hl Ho Hd Hk HX. unfold Dataset.Dataset.
  erewrite bind_run by reflexivity.
  set (h0 := h ++ [OInstance ∅]).
  assert (Hself0 : h0 !! length h = Some (OInstance ∅)) by apply lookup_alloc.
  assert (Hl0 : h0 !! l = Some o).
  { unfold h0. rewrite lookup_app_l; [done|]. by eapply lookup_lt_Some. }
  destruct (organize_time_series_returns parse_datetime parse_slice_bound tie_rank l o f
              fd keyed s e true h0 Hl0 Ho Hd Hk) as (ly & h1 & Hy).
  assert (Hself1 : h1 !! length h = Some (OInstance ∅)).
  { eapply organize_keeps; [exact Hy | exact Hself0 | done]. }
  assert (Hlt1 : (length h < length h1)%nat) by (by eapply lookup_lt_Some).
  set (h1a := <[length h := OInstance (<["y" := PRef ly]> ∅)]> h1).
  assert (Hself1a : h1a !! length h = Some (OInstance (<["y" := PRef ly]> ∅)))
    by (by apply list_lookup_insert_eq).
  assert (HrunX : ∃ vx h2,
            organize_time_series X (STs <$> s) (STs <$> e) false h1a
              = (Returns vx, h2) ∧
            h2 !! length h = Some (OInstance (<["y" := PRef ly]> ∅))).
  { destruct HX as [->|(lX & oX & fX & fdX & keyedX & -> & HlX & HoX & HdX & HkX)].
    - by exists PNone, h1a.
    - assert (HltX : (lX < length h)%nat) by (by eapply lookup_lt_Some).
      assert (HX0 : h0 !! lX = Some oX) by (unfold h0; by rewrite lookup_app_l).
      destruct (organize_store parse_datetime parse_slice_bound tie_rank _ _ _ _ _ _ _ Hy
                  lX oX HX0) as [Hother Harg].
      assert (HX1 : ∃ oX1 fX1 fdX1, h1a !! lX = Some oX1 ∧
                      table_of oX1 = Some fX1 ∧ dated fX1 = Returns fdX1 ∧
                      datetime_index fdX1 = Returns keyedX).
      { unfold h1a. rewrite list_lookup_insert_ne by lia.
        destruct (decide (l = lX)) as [->|Hne].
        - rewrite Harg by done.
          destruct (argument_after_dated _ _ _ _ HoX HdX HkX)
            as (f2 & fd2 & H2 & Hd2 & Hk2).
          by exists (argument_after oX), f2, fd2.
        - rewrite Hother by congruence. by exists oX, fX, fdX. }
      destruct HX1 as (oX1 & fX1 & fdX1 & HlX1 & HoX1 & HdX1 & HkX1).
      destruct (organize_time_series_returns parse_datetime parse_slice_bound tie_rank
                  lX oX1 fX1 fdX1 keyedX s e false h1a HlX1 HoX1 HdX1 HkX1)
        as (lx & h2 & HrunX).
      exists (PRef lx), h2. split; [done|].
      eapply organize_keeps; [exact HrunX | exact Hself1a | done]. }
  destruct HrunX as (vx & h2 & HrunX & Hself2).
  assert (Hlt2 : (length h < length h2)%nat) by (by eapply lookup_lt_Some).
  eexists. erewrite bind_run; [reflexivity|].
  unfold Dataset.__init__.
  erewrite bind_run by exact Hy.
  erewrite bind_run by (by apply setattr_run).
  erewrite bind_run by exact HrunX.
  erewrite bind_run by (by apply setattr_run).
  erewrite bind_run.
  2:{ apply setattr_run. by apply list_lookup_insert_eq. }
  apply setattr_run. apply list_lookup_insert_eq. by rewrite length_insert.
Qed.

End Dataset_further.

(** ** Examples of the further properties *)

Section Further_examples.
Import Dataset.

#[local] Abbreviation organize_further :=
  (organize_time_series no_parse no_bound input_order).

Lemma date_column_must_be_lower_case_witness :
  organize_further (PRef 0) None None false [OFrame capitalised]
    = (Raises KeyError, [OFrame capitalised]).
Proof.
  apply (date_column_must_be_lower_case no_parse no_bound input_order
           [OFrame capitalised] 0 capitalised).
  - reflexivity.
  - exists (CName "Date"). split; [|reflexivity]. apply list_elem_of_here.
  - intros [H|H]%elem_of_cons; [discriminate|].
    apply elem_of_cons in H as [H|H]; [discriminate|]. by apply elem_of_nil in H.
Defined.

Lemma unnamed_series_is_refused_witness :
  organize_further (PRef 0) None None true [OSeries unnamed_series]
    = (Raises AttributeError,
       [OSeries unnamed_series; OFrame (frame_of_series unnamed_series)]).
Proof.
  apply (unnamed_series_is_refused no_parse no_bound input_order
           [OSeries unnamed_series] 0);
    reflexivity.
Defined.

Lemma named_series_becomes_a_frame_witness :
  ∃ l' f',
    PRef 2 = PRef l' ∧ l' ≠ 0%nat ∧
    (organize_further (PRef 0) None None false [OSeries named_series]).2 !! l'
      = Some (OFrame f') ∧
    organized no_parse no_bound input_order (frame_of_series named_series) None None
      = Returns f' ∧
    (organize_further (PRef 0) None None false [OSeries named_series]).2 !! 0%nat
      = Some (OSeries named_series) ∧
    (lower "price" ≠ "date" → columns f' = [CName "price"]) ∧
    ("price" = "date" → columns f' = []).
Proof.
  apply (named_series_becomes_a_frame no_parse no_bound input_order
           [OSeries named_series] _ 0 named_series "price" None None false);
    [reflexivity | reflexivity | vm_compute; reflexivity].
Defined.

(** The table of prices is indexed by timestamps: the call leaves it as it
    is. *)
Lemma timestamp_indexed_argument_is_kept_witness :
  (organize_further (PRef 0) None None false [OFrame prices]).2 !! 0%nat
    = Some (OFrame prices).
Proof.
  eapply (timestamp_indexed_argument_is_kept no_parse no_bound input_order
            [OFrame prices] _ 0 prices _ None None false _).
  - reflexivity.
  - vm_compute. reflexivity.
  - vm_compute. reflexivity.
  - reflexivity.
Defined.

Lemma rows_are_kept_or_sliced_off_witness :
  ∃ l o f fd l' f',
    PRef 0 = PRef l ∧ [OFrame prices] !! l = Some o ∧ table_of o = Some f ∧
    dated no_parse f = Returns fd ∧
    PRef 1 = PRef l' ∧
    (organize_further (PRef 0) None None false [OFrame prices]).2 !! l'
      = Some (OFrame f') ∧
    columns f' = columns fd ∧
    (((CName "date" ∉ columns f) ∧ columns fd = columns f) ∨
     (∃ k, columns f !! k = Some (CName "date") ∧
           columns fd = delete k (columns f))) ∧
    length (rows fd) = length (rows f) ∧
    rows f' ⊆+ rows fd ∧
    (@None scalar = None → @None scalar = None → rows f' ≡ₚ rows fd).
Proof.
  apply (rows_are_kept_or_sliced_off no_parse no_bound input_order (PRef 0) None None
           false [OFrame prices]); [discriminate | vm_compute; reflexivity].
Defined.

(** A table whose column of dates is spelled "Date", and a table whose index
    has a string that is no date. *)
Lemma failed_conversion_keeps_the_store_witness :
  (∃ h', organize_further (PRef 0) None None false [OFrame capitalised]
           = (Raises KeyError, h') ∧
         ∀ l0 o0, [OFrame capitalised] !! l0 = Some o0 → h' !! l0 = Some o0) ∧
  dated no_parse {| columns := [CName "price"]; integer_columns := false;
                    rows := [(SStr "soon", [SInt 1])] |}
    = Raises ValueError.
Proof.
  destruct (failed_conversion_keeps_the_store no_parse no_bound input_order)
    as [Hstore Hdate].
  split.
  - apply (Hstore [OFrame capitalised] 0%nat (OFrame capitalised) capitalised);
      reflexivity.
  - apply (Hdate _ [Some "price"] "soon").
    + reflexivity.
    + intros [H|H]%elem_of_cons; [discriminate | by apply elem_of_nil in H].
    + apply list_elem_of_here.
    + reflexivity.
Defined.

(** The table of prices, organized. *)
#[local] Abbreviation sorted_prices :=
  {| columns := [CName "price"];
     integer_columns := false;
     rows := [(STs 1, [SInt 10]); (STs 3, [SInt 30]);
              (STs 3, [SInt 31]); (STs 5, [SInt 50])] |}.

Lemma organizing_again_changes_nothing_witness :
  ∃ l'' f'' h'',
    organize_further (PRef 1) None None true [OFrame prices; OFrame sorted_prices]
      = (Returns (PRef l''), h'') ∧
    l'' ≠ 1%nat ∧ h'' !! l'' = Some (OFrame f'') ∧
    h'' !! 1%nat = Some (OFrame sorted_prices) ∧
    columns f'' = columns sorted_prices ∧
    (rows f'').*1 = (rows sorted_prices).*1 ∧
    rows f'' ≡ₚ rows sorted_prices ∧
    (NoDup (rows sorted_prices).*1 → f'' = sorted_prices).
Proof.
  apply (organizing_again_changes_nothing no_parse no_bound input_order (PRef 0)
           None None false true [OFrame prices] _ 1 sorted_prices [Some "price"]).
  - discriminate.
  - vm_compute. reflexivity.
  - reflexivity.
  - reflexivity.
  - intros [H|H]%elem_of_cons; [discriminate | by apply elem_of_nil in H].
Defined.

(** A table that is in order is left in the order it has, whatever the sort
    would make of its rows of equal date. *)
Example ascending_table_is_not_sorted_again :
  ∃ h', organize_time_series no_parse no_bound reverse_order (PRef 0) None None false
          [OFrame sorted_prices] = (Returns (PRef 1), h') ∧
        h' !! 1%nat = Some (OFrame sorted_prices).
Proof. eexists. split; vm_compute; reflexivity. Qed.

(** A store with the table of prices and the table of forecasts, and the
    [Dataset] constructed from them. *)
#[local] Abbreviation two_tables := [OFrame prices; OFrame forecasts].

#[local] Abbreviation constructed :=
  (Dataset no_parse no_bound input_order (PRef 0) (PRef 1) None None
     (PScalar (SStr "M")) two_tables).2.

Lemma constructed_dataset_holds_new_tables_witness :
  ∃ ly fy kept undated,
    2%nat = length two_tables ∧
    get_y 2 constructed = (Returns (PRef ly), constructed) ∧
    (length two_tables < ly)%nat ∧
    constructed !! ly = Some (OFrame fy) ∧
    date_index fy = Returns ((present <$> kept) ++ undated) ∧
    Forall is_missing undated ∧ Sorted Z.le kept.*1 ∧
    (undated = [] → datetime_index fy = Returns kept) ∧
    getattr 2 "time_frequency" constructed
      = (Returns (PScalar (SStr "M")), constructed) ∧
    (∀ l o, two_tables !! l = Some o → PRef 0 ≠ PRef l → PRef 1 ≠ PRef l →
       constructed !! l = Some o) ∧
    (PRef 1 = PNone → get_X 2 constructed = (Returns PNone, constructed)) ∧
    (PRef 1 ≠ PNone →
       ∃ lx fx keptx undatedx,
         get_X 2 constructed = (Returns (PRef lx), constructed) ∧ (ly < lx)%nat ∧
         constructed !! lx = Some (OFrame fx) ∧
         date_index fx = Returns ((present <$> keptx) ++ undatedx) ∧
         Forall is_missing undatedx ∧ Sorted Z.le keptx.*1 ∧
         (undatedx = [] → datetime_index fx = Returns keptx)).
Proof.
  apply (constructed_dataset_holds_new_tables no_parse no_bound input_order (PRef 0)
           (PRef 1) None None (PScalar (SStr "M")) two_tables).
  vm_compute. reflexivity.
Defined.

(** The table with a missing date, from the date 1 on. *)
#[local] Abbreviation constructed_from_1 :=
  (Dataset no_parse no_bound input_order (PRef 0) PNone (Some (STs 1)) None PNone
     [OFrame gappy]).2.

Lemma len_counts_the_rows_within_bounds_witness :
  ∃ l o f fd keyed0,
    PRef 0 = PRef l ∧ [OFrame gappy] !! l = Some o ∧ table_of o = Some f ∧
    dated no_parse f = Returns fd ∧ date_index fd = Returns keyed0 ∧
    ∀ depth,
      __len__ depth constructed_from_1 1 =
        Len (length (filter (λ kr : Z * list scalar,
                               not_before (Some 1) kr.1 ∧ not_after None kr.1)
                       (timestamps keyed0))
             + length (missing keyed0)).
Proof.
  apply (len_counts_the_rows_within_bounds no_parse no_bound input_order (PRef 0) PNone
           (Some 1) None PNone [OFrame gappy]).
  vm_compute. reflexivity.
Defined.

(** The row whose date is missing counts: the slice of the start bound keeps
    it. *)
Example len_with_a_missing_date :
  __len__ 0 constructed_from_1 1 = Len 3.
Proof. vm_compute. reflexivity. Qed.

(** The table of prices has three rows dated from 3 to 5. *)
Example len_of_the_prices_from_3_to_5 :
  __len__ 0
    (Dataset no_parse no_bound input_order (PRef 0) PNone (Some (STs 3))
       (Some (STs 5)) PNone [OFrame prices]).2 1 = Len 3.
Proof. vm_compute. reflexivity. Qed.

(** The [Dataset] constructed from the prices alone, in a store that has the
    forecasts too: its [y] is at 3, dated from 1 to 5. *)
#[local] Abbreviation prices_alone :=
  (Dataset no_parse no_bound input_order (PRef 0) PNone None None PNone two_tables).2.

#[local] Abbreviation after_set_X :=
  (set_X no_parse no_bound input_order 2 (PRef 1) prices_alone).2.

Lemma set_X_slices_to_the_dates_of_y_witness :
  ∃ lx fx keyed,
    get_X 2 after_set_X = (Returns (PRef lx), after_set_X) ∧
    (length prices_alone ≤ lx)%nat ∧
    after_set_X !! lx = Some (OFrame fx) ∧
    datetime_index fx = Returns keyed ∧ Sorted Z.le keyed.*1 ∧
    Forall (λ t, 1 ≤ t ≤ 5) keyed.*1 ∧
    get_y 2 after_set_X = (Returns (PRef 3), after_set_X).
Proof.
  eapply (set_X_slices_to_the_dates_of_y no_parse no_bound input_order 2 3 _
            sorted_prices 1 5 (PRef 1) prices_alone).
  - vm_compute. reflexivity.
  - vm_compute. reflexivity.
  - vm_compute. reflexivity.
  - reflexivity.
  - reflexivity.
  - discriminate.
  - vm_compute. reflexivity.
Defined.

(** The forecasts are dated 1 and 2: both are from 1 to 5. *)
Example forecasts_aligned_with_the_prices :
  ∃ h', set_X no_parse no_bound input_order 2 (PRef 1) prices_alone
          = (Returns (), h') ∧
        get_X 2 h' = (Returns (PRef 6), h') ∧
        h' !! 6%nat = Some (OFrame
          {| columns := [CName "forecast"];
             integer_columns := false;
             rows := [(STs 1, [SInt 10]); (STs 2, [SInt 20])] |}).
Proof. eexists. repeat split; vm_compute; reflexivity. Qed.

(** Instances made of a null [y], of a [y] without rows and of the prices. *)
#[local] Abbreviation y_null := (create_from_y PNone PNone []).2.
#[local] Abbreviation y_empty := (create_from_y (PRef 0) PNone [OFrame no_rows]).2.
#[local] Abbreviation y_prices := (create_from_y (PRef 0) PNone [OFrame prices]).2.

Lemma set_X_reads_the_dates_of_y_witness :
  set_X no_parse no_bound input_order 0 (PRef 7) y_null
    = (Raises AttributeError, y_null) ∧
  set_X no_parse no_bound input_order 1 PNone y_empty = (Raises IndexError, y_empty) ∧
  set_X no_parse no_bound input_order 1 PNone y_prices
    = (Returns (),
       <[1%nat := OInstance (<["X" := PNone]>
                    (<["time_frequency" := PNone]>
                       (<["X" := PNone]> (<["y" := PRef 0]> ∅))))]> y_prices).
Proof.
  split; [|split].
  - eapply (set_X_reads_the_dates_of_y no_parse no_bound input_order 0 _ (PRef 7)
              y_null);
      reflexivity.
  - eapply (set_X_reads_the_dates_of_y no_parse no_bound input_order 1 _ PNone y_empty);
      reflexivity.
  - eapply (set_X_reads_the_dates_of_y no_parse no_bound input_order 1 _ PNone
              y_prices);
      [reflexivity | reflexivity | reflexivity | discriminate].
Defined.

(** The table with a missing date, with the integer 3 as the start bound and
    the date 5, which is in the index, as the end bound. *)
Lemma integer_bound_is_refused_witness :
  ∃ h', organize_further (PRef 0) (Some (SInt 3)) (Some (STs 5)) false [OFrame gappy]
          = (Raises TypeError, h') ∧
        h' !! 0%nat = Some (argument_after no_parse (OFrame gappy)) ∧
        ∀ l0 o0, [OFrame gappy] !! l0 = Some o0 → l0 ≠ 0%nat → h' !! l0 = Some o0.
Proof.
  eapply (integer_bound_is_refused no_parse no_bound input_order [OFrame gappy] 0
            (OFrame gappy) gappy _ _ (Some (SInt 3)) (Some (STs 5)) false).
  - reflexivity.
  - reflexivity.
  - vm_compute. reflexivity.
  - vm_compute. reflexivity.
  - right. split; [|by exists 3]. right. exists 5. split; [reflexivity|].
    right. simpl. by left.
Defined.

(** With the date 4, which is not in the index, as the end bound the call
    fails at the slice of the end bound, before it comes to the start
    bound. *)
Example inexact_end_bound_fails_first :
  ∃ h', organize_further (PRef 0) (Some (SInt 3)) (Some (STs 4)) false [OFrame gappy]
          = (Raises KeyError, h').
Proof. eexists. vm_compute. reflexivity. Qed.

(** The table of prices as [y] and as [X]. *)
Lemma Dataset_returns_witness :
  ∃ h', Dataset no_parse no_bound input_order (PRef 0) (PRef 0) (STs <$> Some 3)
          (STs <$> None) PNone [OFrame prices]
        = (Returns (length [OFrame prices]), h').
Proof.
  eapply (Dataset_returns no_parse no_bound input_order [OFrame prices] 0
            (OFrame prices) prices _ _ (PRef 0) (Some 3) None PNone).
  - reflexivity.
  - reflexivity.
  - vm_compute. reflexivity.
  - vm_compute. reflexivity.
  - right. exists 0%nat, (OFrame prices), prices. eexists _, _.
    do 3 (split; [reflexivity|]). split; vm_compute; reflexivity.
Defined.

(** A label that is no 64-bit integer, and a frame built without columns,
    are refused. *)
Example out_of_bounds_label_is_refused :
  dated no_parse {| columns := [CName "price"]; integer_columns := false;
                    rows := [(SInt (2 ^ 63), [SInt 1])] |} = Raises ValueError ∧
  dated no_parse {| columns := []; integer_columns := true;
                    rows := [(STs 1, [])] |} = Raises AttributeError ∧
  dated no_parse {| columns := [CName "price"]; integer_columns := false;
                    rows := [(SInt (- 2 ^ 63), [SInt 1])] |}
    = Returns {| columns := [CName "price"]; integer_columns := false;
                 rows := [(SNaT, [SInt 1])] |}.
Proof. repeat split; vm_compute; reflexivity. Qed.

End Further_examples.
